(** * ClaudeWatch: rate-limit detection and learning pipeline

    A shallow embedding of the parts of the ClaudeWatch monitor that its
    specification documents as the core:

    - [RateLimitPatterns.extract_rate_limit_info] and [SessionMetrics]
      (src/claude_monitor/monitoring/enhanced_proxy_monitor.py),
    - [EnhancedProxyMonitor._store_learned_limit] and its callers (same file),
    - [DatabaseManager] (deprecated_components/database.py) and
      [EnhancedDatabaseManager] (Src/ClaudeMonitor/Data/EnhancedDatabase.py),
    - [SessionContext._generate_isolation_key]
      (Src/ClaudeMonitor/Core/SessionDetector.py).

    Modelling conventions.
    - Python [str] is an ASCII string ([string], code points 0..127 carry
      their Python meaning; larger code points are opaque characters that are
      neither digits, whitespace nor letters).
    - Python [int] is [Z]; [int(str)] has no digit-count limit.
    - Python [float] quantities (clock readings, the confidence weight, the
      weighted average) are exact rationals [Q]: binary64 rounding is not
      modelled.  The concrete evaluations below only meet dyadic values
      that binary64 represents exactly.
    - [time.time()], [datetime.now()] and SQL's [datetime('now')] are
      explicit clock arguments.
    - Exceptions are values: fallible code returns [result], and code that
      also touches the database or the log runs in the monad [Sqlite.M].
    - The libraries the code calls are modelled from their documentation:
      [re.search] by a backtracking matcher ([Re]), the SQLite engine by
      its effect on the tables, with the failures it can answer a call
      with given by an oracle ([Sqlite.faults]).
    - A dictionary with a fixed set of keys is a record; an optional key
      is an [option] field. *)

From Stdlib Require Import ZArith QArith Qround String Ascii List Lia Lqa Bool.
From Stdlib Require Import DecimalString DecimalZ.
From stdpp Require Import base option list gmap strings.

Set Default Proof Using "Type".
Local Open Scope Z_scope.

(** ** Python preliminaries *)

(** The exception classes the modelled code can meet.  [SqliteError] stands
    for [sqlite3.Error] and all its subclasses. *)
Inductive sqlite_error :=
  | OperationalError
  | IntegrityError
  | DatabaseError.

Inductive exn :=
  | AttributeError
  | ValueError
  | TypeError
  | ReError
  | SqliteError (e : sqlite_error).

Inductive result (A : Type) : Type :=
  | Ok (a : A)
  | Raised (e : exn).
Arguments Ok {A} a.
Arguments Raised {A} e.

#[global] Instance result_ret : MRet result := fun A a => Ok a.
#[global] Instance result_bind : MBind result := fun A B f m =>
  match m with
  | Ok a => f a
  | Raised e => Raised e
  end.

Module Py.

Definition chars (s : string) : list ascii := list_ascii_of_string s.
Definition str (l : list ascii) : string := string_of_list_ascii l.

Definition code (c : ascii) : N := N_of_ascii c.

(** [str.isdigit] on one character, ASCII range. *)
Definition is_digit (c : ascii) : bool :=
  ((48 <=? code c) && (code c <=? 57))%N.

(** Whitespace as [str.strip] and the regex class [\s] see it. *)
Definition is_space (c : ascii) : bool :=
  (((9 <=? code c) && (code c <=? 13)) ||
   ((28 <=? code c) && (code c <=? 32)))%N.

Definition is_upper (c : ascii) : bool :=
  ((65 <=? code c) && (code c <=? 90))%N.

Definition lower_char (c : ascii) : ascii :=
  if is_upper c then ascii_of_N (code c + 32) else c.

(** [text.lower()] *)
Definition lower (s : string) : string := str (map lower_char (chars s)).

Fixpoint lstrip (l : list ascii) : list ascii :=
  match l with
  | c :: l' => if is_space c then lstrip l' else l
  | [] => []
  end.

Definition strip_chars (l : list ascii) : list ascii :=
  rev (lstrip (rev (lstrip l))).

(** [text.strip()] *)
Definition strip (s : string) : string := str (strip_chars (chars s)).

(** [s.isdigit()]: non-empty and all characters digits. *)
Definition isdigit (l : list ascii) : bool :=
  match l with
  | [] => false
  | _ => forallb is_digit l
  end.

Definition digit_val (c : ascii) : Z := Z.of_N (code c) - 48.

Definition decimal (l : list ascii) : Z :=
  fold_left (fun acc c => 10 * acc + digit_val c) l 0.

(** The digits of an integer literal, single underscores allowed between
    them; [after_digit] tells whether the previous character was a digit,
    [acc] is the value read so far. *)
Fixpoint int_digits (after_digit : bool) (acc : Z) (l : list ascii) : option Z :=
  match l with
  | [] => if after_digit then Some acc else None
  | c :: l' =>
      if is_digit c then int_digits true (10 * acc + digit_val c) l'
      else if Ascii.eqb c "_" && after_digit then int_digits false acc l'
      else None
  end.

(** [int(s)] for a string: surrounding whitespace is dropped, a sign may
    come first, and anything else than a decimal literal raises
    [ValueError]. *)
Definition int (l : list ascii) : result Z :=
  let '(negative, body) :=
    match strip_chars l with
    | c :: l' =>
        if Ascii.eqb c "-" then (true, l')
        else if Ascii.eqb c "+" then (false, l')
        else (false, c :: l')
    | [] => (false, [])
    end in
  match int_digits false 0 body with
  | Some v => Ok (if negative then - v else v)
  | None => Raised ValueError
  end.

(** [str(n)] for an integer. *)
Definition str_of_int (n : Z) : string := NilZero.string_of_int (Z.to_int n).

(** [min(a, b)] on two numbers: the first one unless the second is
    smaller. *)
Definition min (a b : Q) : Q := if Qle_bool a b then a else b.

(** [int(x)] for a finite float: truncation toward zero. *)
Definition int_of_float (x : Q) : Z := Z.quot (Qnum x) (Zpos (Qden x)).


End Py.

(** ** A backtracking regular-expression engine

    The fragment of Python's [re] syntax that the pattern tables use:
    literals, [.], [\s], [\d], escaped punctuation, the quantifiers
    [*], [+], [?] and their lazy forms, and capturing groups.  Matching
    follows the priorities of a backtracking engine: leftmost start,
    greedy quantifiers try the longer alternative first, lazy ones the
    shorter. *)
Module Re.

Inductive cclass :=
  | CLit (c : ascii)
  | CAny
  | CSpace
  | CDigit.

Inductive regex :=
  | REps
  | RChar (cc : cclass)
  | RSeq (r1 r2 : regex)
  | RStar (greedy : bool) (r : regex)
  | RPlus (greedy : bool) (r : regex)
  | ROpt (greedy : bool) (r : regex)
  | RGroup (r : regex).

(** *** Parsing a pattern string *)

Definition is_alnum (c : ascii) : bool :=
  Py.is_digit c || Py.is_upper c || Py.is_upper (ascii_of_N (Py.code c - 32)).

(** After a backslash: [\s], [\d], or an escaped punctuation character
    standing for itself; other letter escapes are outside the fragment. *)
Definition parse_escape (c : ascii) : option cclass :=
  if Ascii.eqb c "s" then Some CSpace
  else if Ascii.eqb c "d" then Some CDigit
  else if is_alnum c then None
  else Some (CLit c).

(** A quantifier suffix, if present, wraps the atom just parsed. *)
Definition parse_quant (a : regex) (s : list ascii) : regex * list ascii :=
  let lazy (s' : list ascii) : bool * list ascii :=
    match s' with
    | c :: s'' => if Ascii.eqb c "?" then (false, s'') else (true, s')
    | [] => (true, s')
    end in
  match s with
  | c :: s' =>
      if Ascii.eqb c "*" then let '(g, t) := lazy s' in (RStar g a, t)
      else if Ascii.eqb c "+" then let '(g, t) := lazy s' in (RPlus g a, t)
      else if Ascii.eqb c "?" then let '(g, t) := lazy s' in (ROpt g a, t)
      else (a, s)
  | [] => (a, s)
  end.

(** [parse_seq] reads items up to the end of input or an unmatched
    closing parenthesis; alternation and other syntax outside the
    fragment is refused. *)
Fixpoint parse_seq (fuel : nat) (s : list ascii) : option (regex * list ascii) :=
  match fuel with
  | O => None
  | S fuel' =>
      match s with
      | [] => Some (REps, [])
      | c :: s' =>
          if Ascii.eqb c ")" then Some (REps, s)
          else
            atom ←
              (if Ascii.eqb c "(" then
                 match parse_seq fuel' s' with
                 | Some (body, c' :: rest) =>
                     if Ascii.eqb c' ")" then Some (RGroup body, rest) else None
                 | _ => None
                 end
               else if Ascii.eqb c "\" then
                 match s' with
                 | e :: rest => cc ← parse_escape e; Some (RChar cc, rest)
                 | [] => None
                 end
               else if Ascii.eqb c "." then Some (RChar CAny, s')
               else if Ascii.eqb c "*" || Ascii.eqb c "+" || Ascii.eqb c "?"
                       || Ascii.eqb c "|" || Ascii.eqb c "[" || Ascii.eqb c "{"
                       || Ascii.eqb c "^" || Ascii.eqb c "$"
               then None
               else Some (RChar (CLit c), s'));
            let '(item, s1) := parse_quant atom.1 atom.2 in
            tl ← parse_seq fuel' s1;
            Some (RSeq item tl.1, tl.2)
      end
  end.

Fixpoint groups (r : regex) : nat :=
  match r with
  | REps | RChar _ => 0
  | RSeq r1 r2 => groups r1 + groups r2
  | RStar _ r1 | RPlus _ r1 | ROpt _ r1 => groups r1
  | RGroup r1 => S (groups r1)
  end.

(** A pattern of the fragment has at most one group, which is group 1. *)
Definition compile (pattern : string) : option regex :=
  let s := Py.chars pattern in
  match parse_seq (S (length s)) s with
  | Some (r, []) => if (groups r <=? 1)%nat then Some r else None
  | _ => None
  end.

(** *** Matching *)

(** With [re.IGNORECASE] a literal matches either case of its letter. *)
Definition cc_match (ignorecase : bool) (cc : cclass) (c : ascii) : bool :=
  match cc with
  | CLit l =>
      if ignorecase then Ascii.eqb (Py.lower_char l) (Py.lower_char c)
      else Ascii.eqb l c
  | CAny => negb (Ascii.eqb c "010")
  | CSpace => Py.is_space c
  | CDigit => Py.is_digit c
  end.

Definition orelse {A} (x y : option A) : option A :=
  match x with
  | Some _ => x
  | None => y
  end.

(** The text captured by group 1 so far ([None]: the group has not
    taken part yet). *)
Definition capture := option (list ascii).

Section Matcher.
Context {A : Type}.
Variable ic : bool.

(** Repetition of [step] (one iteration of the body) at most [n] more
    times, then the continuation [k]. An iteration that consumes
    nothing is not repeated. *)
Fixpoint iterate (greedy : bool)
    (step : list ascii → capture → (list ascii → capture → option A) → option A)
    (k : list ascii → capture → option A)
    (n : nat) (s : list ascii) (g : capture) : option A :=
  match n with
  | O => k s g
  | S n' =>
      let more :=
        step s g (fun s' g' =>
          if (length s' <? length s)%nat
          then iterate greedy step k n' s' g' else None) in
      if greedy then orelse more (k s g) else orelse (k s g) more
  end.

Fixpoint rmatch (r : regex) (s : list ascii) (g : capture)
    (k : list ascii → capture → option A) : option A :=
  match r with
  | REps => k s g
  | RChar cc =>
      match s with
      | c :: s' => if cc_match ic cc c then k s' g else None
      | [] => None
      end
  | RSeq r1 r2 => rmatch r1 s g (fun s' g' => rmatch r2 s' g' k)
  | RStar greedy r1 => iterate greedy (rmatch r1) k (length s) s g
  | RPlus greedy r1 =>
      rmatch r1 s g (fun s' g' => iterate greedy (rmatch r1) k (length s') s' g')
  | ROpt greedy r1 =>
      if greedy then orelse (rmatch r1 s g k) (k s g)
      else orelse (k s g) (rmatch r1 s g k)
  | RGroup r1 =>
      rmatch r1 s g (fun s' _ => k s' (Some (take (length s - length s') s)))
  end.
End Matcher.

(** A match object: the span and [group(1)]. *)
Record match_obj := {
  m_start : nat;
  m_end : nat;
  m_group1 : capture
}.

(** Try the pattern at each start offset, leftmost first. *)
Fixpoint search_from (ic : bool) (r : regex) (pos : nat) (s : list ascii)
    : option match_obj :=
  match rmatch ic r s None (fun s' g => Some (s', g)) with
  | Some (s', g) =>
      Some {| m_start := pos; m_end := pos + (length s - length s'); m_group1 := g |}
  | None =>
      match s with
      | [] => None
      | _ :: s' => search_from ic r (S pos) s'
      end
  end.

(** [re.search(pattern, text, flags)]; a pattern outside the fragment
    is reported as [re.error]. *)
Definition search (pattern text : string) (ignorecase : bool)
    : result (option match_obj) :=
  match compile pattern with
  | Some r => Ok (search_from ignorecase r 0 (Py.chars text))
  | None => Raised ReError
  end.

(** [match.group(1).isdigit()] needs [group(1)] to be a string. *)
Definition group1 (m : match_obj) : result (list ascii) :=
  match m_group1 m with
  | Some t => Ok t
  | None => Raised AttributeError
  end.

End Re.

(** ** The Pattern Matcher: [RateLimitPatterns] *)
Module RateLimitPatterns.

Local Open Scope string_scope.

Definition APPROACHING_PATTERNS : list string := [
  "approaching.*rate\s*limit.*?(\d+).*?tokens?";
  "usage.*warning.*?(\d+).*?remaining";
  "rate\s*limit.*?approaching.*?(\d+)";
  "token.*?usage.*?high.*?(\d+)";
  "(\d+).*?tokens?.*?remaining.*?session"
].

Definition REACHED_PATTERNS : list string := [
  "rate\s*limit.*?reached.*?(\d+)";
  "limit.*?exceeded.*?(\d+).*?tokens?";
  "maximum.*?usage.*?reached.*?(\d+)";
  "session.*?limit.*?hit.*?(\d+)";
  "quota.*?exhausted.*?(\d+)";
  "limit reached\|(\d+)"
].

Definition MESSAGE_LIMIT_PATTERNS : list string := [
  "message.*?limit.*?reached.*?(\d+)";
  "conversation.*?limit.*?exceeded.*?(\d+)";
  "(\d+).*?messages?.*?limit.*?reached"
].

Inductive limit_type := approaching | reached | message_limit.

#[global] Instance limit_type_eq_dec : EqDecision limit_type.
Proof. solve_decision. Defined.

(** The dictionary [extract_rate_limit_info] returns. *)
Record info := {
  type : limit_type;
  limit_value : option Z;
  raw_text : string;
  pattern_matched : string
}.

(** [int(match.group(1)) if match.group(1).isdigit() else None] *)
Definition limit_value_of (m : Re.match_obj) : result (option Z) :=
  t ← Re.group1 m;
  if Py.isdigit t then v ← Py.int t; mret (Some v) else mret None.

(** One [for pattern in ...: match = re.search(...); if match: return {...}]
    loop; [Ok None] means the loop fell through. *)
Fixpoint scan (ty : limit_type) (patterns : list string) (text text_lower : string)
    : result (option info) :=
  match patterns with
  | [] => mret None
  | pattern :: rest =>
      m ← Re.search pattern text_lower true;
      match m with
      | Some m =>
          v ← limit_value_of m;
          mret (Some {| type := ty; limit_value := v;
                        raw_text := Py.strip text; pattern_matched := pattern |})
      | None => scan ty rest text text_lower
      end
  end.

Definition extract_rate_limit_info (text : string) : result (option info) :=
  let text_lower := Py.lower text in
  a ← scan approaching APPROACHING_PATTERNS text text_lower;
  match a with
  | Some i => mret (Some i)
  | None =>
      b ← scan reached REACHED_PATTERNS text text_lower;
      match b with
      | Some i => mret (Some i)
      | None => scan message_limit MESSAGE_LIMIT_PATTERNS text text_lower
      end
  end.

End RateLimitPatterns.

(** ** The Session Metrics Tracker: [SessionMetrics] *)
Module SessionMetrics.

(** An entry of [self.rate_limit_events]: the dictionary handed to
    [add_rate_limit_event] with its two added keys. *)
Record event := {
  event_data : RateLimitPatterns.info;
  timestamp : Q;
  ev_elapsed_time : Q
}.

Record t := {
  session_id : string;
  project_path : string;
  start_time : Q;
  token_usage : list Z;
  message_count : Z;
  cost_accumulator : Q;
  rate_limit_events : list event;
  peak_token_usage : Z;
  peak_message_count : Z
}.

(** [__init__]; [now] is the reading of [time.time()]. *)
Definition init (session_id project_path : string) (now : Q) : t := {|
  session_id := session_id;
  project_path := project_path;
  start_time := now;
  token_usage := [];
  message_count := 0;
  cost_accumulator := 0;
  rate_limit_events := [];
  peak_token_usage := 0;
  peak_message_count := 0
|}.

(** Assignments to one attribute. *)
Definition set_token_usage (v : list Z) (self : t) : t := {|
  session_id := session_id self;
  project_path := project_path self;
  start_time := start_time self;
  token_usage := v;
  message_count := message_count self;
  cost_accumulator := cost_accumulator self;
  rate_limit_events := rate_limit_events self;
  peak_token_usage := peak_token_usage self;
  peak_message_count := peak_message_count self
|}.

Definition set_message_count (v : Z) (self : t) : t := {|
  session_id := session_id self;
  project_path := project_path self;
  start_time := start_time self;
  token_usage := token_usage self;
  message_count := v;
  cost_accumulator := cost_accumulator self;
  rate_limit_events := rate_limit_events self;
  peak_token_usage := peak_token_usage self;
  peak_message_count := peak_message_count self
|}.

Definition set_rate_limit_events (v : list event) (self : t) : t := {|
  session_id := session_id self;
  project_path := project_path self;
  start_time := start_time self;
  token_usage := token_usage self;
  message_count := message_count self;
  cost_accumulator := cost_accumulator self;
  rate_limit_events := v;
  peak_token_usage := peak_token_usage self;
  peak_message_count := peak_message_count self
|}.

Definition set_peak_token_usage (v : Z) (self : t) : t := {|
  session_id := session_id self;
  project_path := project_path self;
  start_time := start_time self;
  token_usage := token_usage self;
  message_count := message_count self;
  cost_accumulator := cost_accumulator self;
  rate_limit_events := rate_limit_events self;
  peak_token_usage := v;
  peak_message_count := peak_message_count self
|}.

Definition set_peak_message_count (v : Z) (self : t) : t := {|
  session_id := session_id self;
  project_path := project_path self;
  start_time := start_time self;
  token_usage := token_usage self;
  message_count := message_count self;
  cost_accumulator := cost_accumulator self;
  rate_limit_events := rate_limit_events self;
  peak_token_usage := peak_token_usage self;
  peak_message_count := v
|}.

Definition add_token_usage (tokens : Z) (self : t) : t :=
  let self := set_token_usage (token_usage self ++ [tokens]) self in
  set_peak_token_usage (Z.max (peak_token_usage self) tokens) self.

Definition add_message (self : t) : t :=
  let self := set_message_count (message_count self + 1) self in
  set_peak_message_count (Z.max (peak_message_count self) (message_count self)) self.

(** The method reads the clock twice: [now1] stamps the event, [now2]
    gives its elapsed time. *)
Definition add_rate_limit_event (now1 now2 : Q) (data : RateLimitPatterns.info)
    (self : t) : t :=
  let event := {| event_data := data; timestamp := now1;
                  ev_elapsed_time := (now2 - start_time self)%Q |} in
  set_rate_limit_events (rate_limit_events self ++ [event]) self.

(** The dictionary [get_current_metrics] builds. *)
Record metrics := {
  m_session_id : string;
  m_project_path : string;
  elapsed_time : Q;
  total_tokens : Z;
  m_peak_token_usage : Z;
  m_message_count : Z;
  m_peak_message_count : Z;
  m_rate_limit_events : nat;
  cost_estimate : Q
}.

(** Python's [sum]: a left fold from 0. *)
Definition sum (l : list Z) : Z := fold_left Z.add l 0.

(** [get_current_metrics] returns the dictionary together with the
    object as the call leaves it; [now] is the reading of [time.time()]. *)
Definition get_current_metrics (now : Q) (self : t) : metrics * t :=
  ({| m_session_id := session_id self;
      m_project_path := project_path self;
      elapsed_time := (now - start_time self)%Q;
      total_tokens := sum (token_usage self);
      m_peak_token_usage := peak_token_usage self;
      m_message_count := message_count self;
      m_peak_message_count := peak_message_count self;
      m_rate_limit_events := length (rate_limit_events self);
      cost_estimate := cost_accumulator self |},
   self).

(** A mutating call, with the clock readings it takes. *)
Inductive call :=
  | AddTokenUsage (tokens : Z)
  | AddMessage
  | AddRateLimitEvent (now1 now2 : Q) (data : RateLimitPatterns.info).

Definition apply (c : call) (self : t) : t :=
  match c with
  | AddTokenUsage tokens => add_token_usage tokens self
  | AddMessage => add_message self
  | AddRateLimitEvent now1 now2 data => add_rate_limit_event now1 now2 data self
  end.

(** The object after a sequence of calls, oldest first. *)
Definition run (calls : list call) (self : t) : t :=
  fold_left (fun s c => apply c s) calls self.

(** The values handed to [add_token_usage], in call order. *)
Definition tokens_passed (calls : list call) : list Z :=
  omap (fun c => match c with AddTokenUsage v => Some v | _ => None end) calls.

Definition messages_added (calls : list call) : Z :=
  Z.of_nat (length
    (omap (fun c => match c with AddMessage => Some tt | _ => None end) calls)).

End SessionMetrics.

(** ** The persistence layer

    Database methods run against a [world]: the committed tables [db], the
    caller's in-memory state [mem] (which no database method can reach),
    the log, the trace of calls made to the SQLite engine, and the faults
    the engine is going to answer those calls with. *)
Module Sqlite.

Inductive statement :=
  | PragmaForeignKeysOn
  | InsertRateLimitEvent
  | InsertOrReplacePlanLimit
  | SelectPlanLimit
  | InsertOrReplaceSessionMetrics
  | InsertLearningMetric
  | InsertOrReplaceTerminalSession
  | DeleteRateLimitEvents
  | DeleteLearningMetrics
  | DeleteSessionMetrics
  | DeleteTerminalSessions.

Inductive engine_call :=
  | Connect
  | Execute (s : statement)
  | Commit.

Inductive level := ERROR | WARNING | INFO | DEBUG.

(** A log record: the text before the interpolated exception, and the
    exception if one is interpolated. *)
Record log_record := {
  log_level : level;
  message : string;
  exc : option exn
}.

Record world (DB MEM : Type) := World {
  db : DB;
  mem : MEM;
  log : list log_record;
  calls : list engine_call;
  faults : list (option sqlite_error)
}.
Arguments World {DB MEM}.
Arguments db {DB MEM}.
Arguments mem {DB MEM}.
Arguments log {DB MEM}.
Arguments calls {DB MEM}.
Arguments faults {DB MEM}.

Definition M (DB MEM A : Type) : Type :=
  world DB MEM → result A * world DB MEM.

#[global] Instance M_ret {DB MEM} : MRet (M DB MEM) := fun A a w => (Ok a, w).
#[global] Instance M_bind {DB MEM} : MBind (M DB MEM) := fun A B f m w =>
  match m w with
  | (Ok a, w') => f a w'
  | (Raised e, w') => (Raised e, w')
  end.

Section Primitives.
Context {DB MEM : Type}.
Local Abbreviation M := (M DB MEM).

Definition raise {A} (e : exn) : M A := fun w => (Raised e, w).

(** Lift a pure fallible computation. *)
Definition lift {A} (r : result A) : M A := fun w => (r, w).

Definition get_db : M DB := fun w => (Ok (db w), w).

Definition put_db (d : DB) : M unit := fun w =>
  (Ok tt, World d (mem w) (log w) (calls w) (faults w)).

Definition get_mem : M MEM := fun w => (Ok (mem w), w).

Definition put_mem (m : MEM) : M unit := fun w =>
  (Ok tt, World (db w) m (log w) (calls w) (faults w)).

Definition logger (l : level) (msg : string) (e : option exn) : M unit := fun w =>
  (Ok tt, World (db w) (mem w)
            (log w ++ [{| log_level := l; message := msg; exc := e |}])
            (calls w) (faults w)).

(** One call into the engine: it is recorded, and it raises the
    [sqlite3.Error] the engine answers with, if any. *)
Definition engine (c : engine_call) : M unit := fun w =>
  let w' := World (db w) (mem w) (log w) (calls w ++ [c]) (tail (faults w)) in
  match faults w with
  | Some e :: _ => (Raised (SqliteError e), w')
  | _ => (Ok tt, w')
  end.

(** [try: body  except sqlite3.Error as e: handler e]; any other
    exception propagates. *)
Definition try_sqlite {A} (body : M A) (handler : sqlite_error → M A) : M A :=
  fun w =>
    match body w with
    | (Raised (SqliteError e), w') => handler e w'
    | r => r
    end.

(** [try: body  except Exception as e: handler e] *)
Definition try_exception {A} (body : M A) (handler : exn → M A) : M A :=
  fun w =>
    match body w with
    | (Raised e, w') => handler e w'
    | r => r
    end.

(** A connection as [_get_connection] hands it out. *)
Record connection := { foreign_keys : bool }.

(** [with conn: ...; conn.commit()]: the statements of [work] run on
    the transaction's view of the tables, starting from the committed
    state; the view is committed at the end, and an exception on the
    way leaves the committed state as it was (the context manager
    rolls back). *)
Definition transaction (get_connection : M connection)
    (work : connection → DB → M DB) : M unit :=
  conn ← get_connection;
  d ← get_db;
  d' ← work conn d;
  engine Commit;;
  put_db d'.

(** A read-only use of a connection. *)
Definition query {A} (get_connection : M connection)
    (work : connection → DB → M A) : M A :=
  conn ← get_connection;
  d ← get_db;
  work conn d.

End Primitives.

End Sqlite.

(** *** [DatabaseManager] (database.py): the plan-limit and event tables
    behind the interface [add_rate_limit_event] / [get_plan_limit] /
    [update_plan_limit] that the monitor calls.  Its schema declares no
    foreign key and its connections do not enable them. *)
Module DatabaseManager.
Import Sqlite.
Local Open Scope string_scope.

Record rate_limit_event_row := {
  timestamp : string;
  event_type : string;
  session_id : option string;
  elapsed_time : option Q
}.

(** [plan_name] is the primary key: one row per plan. *)
Record plan_limit_row := {
  token_limit : option Z;
  message_limit : option Z;
  last_updated : string
}.

Record tables := {
  rate_limit_events : list rate_limit_event_row;
  plan_limits : gmap string plan_limit_row
}.

Definition empty : tables :=
  {| rate_limit_events := []; plan_limits := ∅ |}.

Definition set_rate_limit_events (rows : list rate_limit_event_row) (d : tables) : tables :=
  {| rate_limit_events := rows; plan_limits := plan_limits d |}.

Definition set_plan_limits (rows : gmap string plan_limit_row) (d : tables) : tables :=
  {| rate_limit_events := rate_limit_events d; plan_limits := rows |}.

Section Methods.
Context {MEM : Type}.
Local Abbreviation M := (Sqlite.M tables MEM).

Definition _get_connection : M connection :=
  engine Connect;;
  mret {| foreign_keys := false |}.

(** [now] is the value of SQL's [datetime('now')]. *)
Definition add_rate_limit_event (now : string) (event_type session_id : string)
    (elapsed_time : Q) : M unit :=
  try_sqlite
    (transaction _get_connection (fun conn d =>
       engine (Execute InsertRateLimitEvent);;
       mret (set_rate_limit_events
               (rate_limit_events d ++
                [{| timestamp := now; event_type := event_type;
                    session_id := Some session_id;
                    elapsed_time := Some elapsed_time |}])
               d)))
    (fun e => logger ERROR "Failed to log rate limit event" (Some (SqliteError e))).

Definition update_plan_limit (now : string) (plan_name : string)
    (token_limit message_limit : option Z) : M unit :=
  try_sqlite
    (transaction _get_connection (fun conn d =>
       engine (Execute InsertOrReplacePlanLimit);;
       mret (set_plan_limits
               (<[plan_name := {| token_limit := token_limit;
                                  message_limit := message_limit;
                                  last_updated := now |}]> (plan_limits d))
               d)))
    (fun e => logger ERROR ("Failed to update plan limit for " ++ plan_name)
                (Some (SqliteError e))).

(** The dictionary [dict(row)] of the two selected columns. *)
Record plan_limit := {
  d_token_limit : option Z;
  d_message_limit : option Z
}.

Definition get_plan_limit (plan_name : string) : M (option plan_limit) :=
  try_sqlite
    (query _get_connection (fun conn d =>
       engine (Execute SelectPlanLimit);;
       mret (row ← plan_limits d !! plan_name;
             Some {| d_token_limit := token_limit row;
                     d_message_limit := message_limit row |})))
    (fun e => logger ERROR ("Failed to retrieve plan limit for " ++ plan_name)
                (Some (SqliteError e));;
              mret None).

End Methods.

End DatabaseManager.

(** ** The Learning Updater: [EnhancedProxyMonitor]

    The monitor talks to its [db_manager] through [get_plan_limit] and
    [update_plan_limit]; [DatabaseManager] is the class of the repository
    that implements that interface. *)
Module EnhancedProxyMonitor.
Import Sqlite.
Local Open Scope string_scope.

(** The monitor's in-memory state. *)
Record memory := {
  active_sessions : gmap string SessionMetrics.t;
  learned_limits : gmap string DatabaseManager.plan_limit
}.

Local Abbreviation M := (Sqlite.M DatabaseManager.tables memory).

(** The [limit_type] argument: ['token'] or ['message']. *)
Inductive limit_kind := token | message.

Definition kind_name (k : limit_kind) : string :=
  match k with token => "token" | message => "message" end.

(** [existing_limits.get(f'{limit_type}_limit', default)] where
    [existing_limits] is [get_plan_limit(...) or {}]: a present key wins
    over the default even when its value is [None]. *)
Definition get_limit (existing_limits : option DatabaseManager.plan_limit)
    (k : limit_kind) (default : Z) : option Z :=
  match existing_limits with
  | Some d =>
      match k with
      | token => DatabaseManager.d_token_limit d
      | message => DatabaseManager.d_message_limit d
      end
  | None => Some default
  end.

Definition confidence (elapsed_time : Q) : Q :=
  Py.min (elapsed_time / 3600) 1.

Definition weighted_average (existing_value observed_value : Z) (confidence : Q) : Q :=
  (inject_Z existing_value * (1 - confidence) + inject_Z observed_value * confidence)%Q.

Definition new_value (existing_value observed_value : Z) (elapsed_time : Q) : Z :=
  Py.int_of_float
    (weighted_average existing_value observed_value (confidence elapsed_time)).

(** Arithmetic on a missing ([None]) stored value raises [TypeError]. *)
Definition _store_learned_limit (now : string) (plan_type : string)
    (limit_type : limit_kind) (observed_value : Z)
    (session_metrics : SessionMetrics.metrics) : M unit :=
  existing_limits ← DatabaseManager.get_plan_limit plan_type;
  existing_value ←
    match get_limit existing_limits limit_type observed_value with
    | Some v => mret v
    | None => raise TypeError
    end;
  let new_value :=
    new_value existing_value observed_value
      (SessionMetrics.elapsed_time session_metrics) in
  match limit_type with
  | token =>
      DatabaseManager.update_plan_limit now plan_type
        (Some new_value) (get_limit existing_limits message 250)
  | message =>
      DatabaseManager.update_plan_limit now plan_type
        (get_limit existing_limits token 19000) (Some new_value)
  end;;
  logger INFO
    ("Updated learned " ++ kind_name limit_type ++ " limit for " ++ plan_type
       ++ ": " ++ Py.str_of_int new_value) None.

Definition _determine_plan_type (metrics : SessionMetrics.metrics) : string :=
  let peak_tokens := SessionMetrics.m_peak_token_usage metrics in
  if (150000 <? peak_tokens)%Z then "max20"
  else if (60000 <? peak_tokens)%Z then "max5"
  else if (15000 <? peak_tokens)%Z then "pro"
  else "custom".

(** [if rate_limit_info.get('limit_value'):] is false for [None] and
    for 0. *)
Definition truthy (v : option Z) : option Z :=
  match v with
  | Some 0 => None
  | _ => v
  end.

(** [clock] is the reading of [time.time()] inside
    [get_current_metrics], [now] the database's [datetime('now')]. *)
Definition _update_intelligent_limits (clock : Q) (now : string)
    (session : SessionMetrics.t) (rate_limit_info : RateLimitPatterns.info)
    : M unit :=
  try_exception
    (let current_metrics := (SessionMetrics.get_current_metrics clock session).1 in
     let plan_type := _determine_plan_type current_metrics in
     let kind :=
       match RateLimitPatterns.type rate_limit_info with
       | RateLimitPatterns.reached | RateLimitPatterns.approaching => token
       | RateLimitPatterns.message_limit => message
       end in
     match truthy (RateLimitPatterns.limit_value rate_limit_info) with
     | Some observed_limit =>
         _store_learned_limit now plan_type kind observed_limit current_metrics
     | None => mret tt
     end)
    (fun e => logger ERROR "Error updating intelligent limits" (Some e)).

End EnhancedProxyMonitor.

(** ** The Multi-Session Coordinator's key: [SessionContext] *)
Module SessionDetector.
Local Open Scope string_scope.

Record SessionContext := {
  session_id : string;
  terminal_id : string;
  process_id : Z;
  parent_process_id : Z;
  terminal_device : string;
  ssh_connection : option string;
  local_ip : string;
  remote_ip : option string;
  user : string;
  hostname : string;
  working_directory : string;
  environment_vars : gmap string string;
  start_time : Q;
  last_activity : Q;
  session_type : string;
  isolation_key : string
}.

(** [self.ssh_connection or "local"]: [None] and the empty string both
    give ["local"]. *)
Definition connection_component (self : SessionContext) : string :=
  match ssh_connection self with
  | Some (String c s) => String c s
  | _ => "local"
  end.

(** The list [components] of [_generate_isolation_key]. *)
Definition components (self : SessionContext) : list string := [
  terminal_device self;
  connection_component self;
  user self;
  hostname self;
  Py.str_of_int (process_id self)
].

Definition _generate_isolation_key (self : SessionContext) : string :=
  String.concat ":" (components self).

Definition __post_init__ (self : SessionContext) : SessionContext :=
  match isolation_key self with
  | EmptyString => {|
      session_id := session_id self;
      terminal_id := terminal_id self;
      process_id := process_id self;
      parent_process_id := parent_process_id self;
      terminal_device := terminal_device self;
      ssh_connection := ssh_connection self;
      local_ip := local_ip self;
      remote_ip := remote_ip self;
      user := user self;
      hostname := hostname self;
      working_directory := working_directory self;
      environment_vars := environment_vars self;
      start_time := start_time self;
      last_activity := last_activity self;
      session_type := session_type self;
      isolation_key := _generate_isolation_key self
    |}
  | _ => self
  end.

End SessionDetector.

(** *** [EnhancedDatabaseManager] (EnhancedDatabase.py)

    Three tables declare [FOREIGN KEY (session_id) REFERENCES
    session_metrics (session_id)], and [_get_connection] switches
    enforcement on for every connection.  Rows are kept in insertion
    order; the autoincrement [id] of a row is its position. *)
Module EnhancedDatabaseManager.
Import Sqlite.
Local Open Scope string_scope.

Record usage_entry_row := {
  ue_timestamp : string;
  input_tokens : Z;
  output_tokens : Z;
  cache_creation_tokens : Z;
  cache_read_tokens : Z;
  cost_usd : Q;
  model : string;
  message_id : string;
  request_id : string;
  ue_session_id : option string;
  ue_project_path : option string
}.

Record rate_limit_event_row := {
  timestamp : string;
  event_type : string;
  session_id : string;
  elapsed_time : Q;
  limit_value : option Z;
  raw_message : option string;
  pattern_matched : option string;
  project_path : option string;
  confidence_score : Q
}.

Record plan_limit_row := {
  token_limit : option Z;
  message_limit : option Z;
  last_updated : string;
  pl_confidence_score : Q;
  sample_size : Z;
  variance : Q
}.

(** [session_id] is the primary key. *)
Record session_metrics_row := {
  sm_project_path : string;
  start_time : string;
  end_time : option string;
  total_tokens : Z;
  peak_token_usage : Z;
  message_count : Z;
  peak_message_count : Z;
  cost_estimate : Q;
  rate_limit_events_count : Z;
  status : string;
  metadata : string
}.

Record learning_metric_row := {
  lm_timestamp : string;
  plan_type : string;
  predicted_limit : Z;
  actual_limit : Z;
  accuracy_score : option Q;
  lm_session_id : option string;
  improvement_delta : option Z;
  algorithm_version : string
}.

Record terminal_session_row := {
  terminal_id : string;
  ts_project_path : string;
  ts_session_id : string;
  ts_start_time : string;
  last_activity : string;
  process_id : option Z
}.

Record tables := {
  usage_entries : list usage_entry_row;
  rate_limit_events : list rate_limit_event_row;
  plan_limits : gmap string plan_limit_row;
  session_metrics : gmap string session_metrics_row;
  learning_metrics : list learning_metric_row;
  terminal_sessions : list terminal_session_row
}.

(** Updates of one table, the others unchanged. *)
Definition set_rate_limit_events (rows : list rate_limit_event_row) (d : tables) : tables := {|
  usage_entries := usage_entries d;
  rate_limit_events := rows;
  plan_limits := plan_limits d;
  session_metrics := session_metrics d;
  learning_metrics := learning_metrics d;
  terminal_sessions := terminal_sessions d
|}.

Definition set_plan_limits (rows : gmap string plan_limit_row) (d : tables) : tables := {|
  usage_entries := usage_entries d;
  rate_limit_events := rate_limit_events d;
  plan_limits := rows;
  session_metrics := session_metrics d;
  learning_metrics := learning_metrics d;
  terminal_sessions := terminal_sessions d
|}.

Definition set_session_metrics (rows : gmap string session_metrics_row) (d : tables)
    : tables := {|
  usage_entries := usage_entries d;
  rate_limit_events := rate_limit_events d;
  plan_limits := plan_limits d;
  session_metrics := rows;
  learning_metrics := learning_metrics d;
  terminal_sessions := terminal_sessions d
|}.

Definition set_learning_metrics (rows : list learning_metric_row) (d : tables) : tables := {|
  usage_entries := usage_entries d;
  rate_limit_events := rate_limit_events d;
  plan_limits := plan_limits d;
  session_metrics := session_metrics d;
  learning_metrics := rows;
  terminal_sessions := terminal_sessions d
|}.

Definition set_terminal_sessions (rows : list terminal_session_row) (d : tables) : tables := {|
  usage_entries := usage_entries d;
  rate_limit_events := rate_limit_events d;
  plan_limits := plan_limits d;
  session_metrics := session_metrics d;
  learning_metrics := learning_metrics d;
  terminal_sessions := rows
|}.

(** The tables right after [_create_enhanced_tables] on a new file. *)
Definition empty : tables := {|
  usage_entries := [];
  rate_limit_events := [];
  plan_limits := ∅;
  session_metrics := ∅;
  learning_metrics := [];
  terminal_sessions := []
|}.

(** *** What SQLite does with the declared constraints *)

(** Inserting a child row: with enforcement on, the parent row must
    exist. *)
Definition check_parent (conn : connection) (d : tables) (sid : string) : result unit :=
  if foreign_keys conn && negb (bool_decide (is_Some (session_metrics d !! sid)))
  then Raised (SqliteError IntegrityError)
  else Ok tt.

(** Does some child row still reference the session? *)
Definition referenced (d : tables) (sid : string) : bool :=
  existsb (fun r => bool_decide (ue_session_id r = Some sid)) (usage_entries d)
  || existsb (fun r => String.eqb (session_id r) sid) (rate_limit_events d)
  || existsb (fun r => String.eqb (ts_session_id r) sid) (terminal_sessions d).

(** [WHERE status = 'completed' AND end_time < ?]; a NULL [end_time]
    never compares below the cutoff. *)
Definition expired (cutoff : string) (r : session_metrics_row) : bool :=
  String.eqb (status r) "completed" &&
  match end_time r with
  | Some t => String.ltb t cutoff
  | None => false
  end.

(** The [DELETE FROM session_metrics]: with enforcement on it fails as a
    whole when a row to delete is still referenced. *)
Definition delete_sessions (conn : connection) (cutoff : string) (d : tables)
    : result tables :=
  if foreign_keys conn &&
     negb (bool_decide (map_Forall
             (fun sid r => expired cutoff r = true → referenced d sid = false)
             (session_metrics d)))
  then Raised (SqliteError IntegrityError)
  else Ok (set_session_metrics
             (filter (fun kr => expired cutoff kr.2 = false) (session_metrics d)) d).

(** *** The arguments of the methods: dictionaries with mandatory and
    optional keys *)

Record event_data := {
  ed_event_type : string;
  ed_session_id : string;
  ed_elapsed_time : Q;
  ed_limit_value : option Z;
  ed_raw_message : option string;
  ed_pattern_matched : option string;
  ed_project_path : option string;
  ed_confidence_score : option Q
}.

Record session_data := {
  sd_session_id : string;
  sd_project_path : string;
  sd_start_time : option string;
  sd_end_time : option string;
  sd_total_tokens : option Z;
  sd_peak_token_usage : option Z;
  sd_message_count : option Z;
  sd_peak_message_count : option Z;
  sd_cost_estimate : option Q;
  sd_rate_limit_events_count : option Z;
  sd_status : option string;
  sd_metadata : option string
}.

Record plan_data := {
  pd_plan_name : string;
  pd_token_limit : option Z;
  pd_message_limit : option Z;
  pd_confidence_score : option Q;
  pd_sample_size : option Z;
  pd_variance : option Q
}.

Record learning_data := {
  ld_plan_type : string;
  ld_predicted_limit : Z;
  ld_actual_limit : Z;
  ld_accuracy_score : option Q;
  ld_session_id : option string;
  ld_improvement_delta : option Z;
  ld_algorithm_version : option string
}.

Record terminal_data := {
  td_terminal_id : string;
  td_project_path : string;
  td_session_id : string;
  td_start_time : option string;
  td_process_id : option Z
}.

Section Methods.
Context {MEM : Type}.
Local Abbreviation M := (Sqlite.M tables MEM).

Definition _get_connection : M connection :=
  engine Connect;;
  engine (Execute PragmaForeignKeysOn);;
  mret {| foreign_keys := true |}.

(** [now] is [datetime.now(timezone.utc).isoformat()]. *)
Definition add_enhanced_rate_limit_event (now : string) (e : event_data) : M unit :=
  try_sqlite
    (transaction _get_connection (fun conn d =>
       engine (Execute InsertRateLimitEvent);;
       lift (check_parent conn d (ed_session_id e));;
       mret (set_rate_limit_events
               (rate_limit_events d ++
                [{| timestamp := now;
                    event_type := ed_event_type e;
                    session_id := ed_session_id e;
                    elapsed_time := ed_elapsed_time e;
                    limit_value := ed_limit_value e;
                    raw_message := ed_raw_message e;
                    pattern_matched := ed_pattern_matched e;
                    project_path := ed_project_path e;
                    confidence_score := default 1%Q (ed_confidence_score e) |}])
               d)))
    (fun err => logger ERROR "Failed to add enhanced rate limit event"
                  (Some (SqliteError err))).

(** [INSERT OR REPLACE]: the row with this [session_id], if any, is
    replaced in place, so its children keep a parent. *)
Definition create_or_update_session_metrics (now : string) (sd : session_data)
    : M unit :=
  try_sqlite
    (transaction _get_connection (fun conn d =>
       engine (Execute InsertOrReplaceSessionMetrics);;
       mret (set_session_metrics
               (<[sd_session_id sd := {|
                    sm_project_path := sd_project_path sd;
                    start_time := default now (sd_start_time sd);
                    end_time := sd_end_time sd;
                    total_tokens := default 0 (sd_total_tokens sd);
                    peak_token_usage := default 0 (sd_peak_token_usage sd);
                    message_count := default 0 (sd_message_count sd);
                    peak_message_count := default 0 (sd_peak_message_count sd);
                    cost_estimate := default 0%Q (sd_cost_estimate sd);
                    rate_limit_events_count := default 0 (sd_rate_limit_events_count sd);
                    status := default "active" (sd_status sd);
                    metadata := default "{}" (sd_metadata sd) |}]>
                  (session_metrics d))
               d)))
    (fun err => logger ERROR "Failed to update session metrics"
                  (Some (SqliteError err))).

Definition update_enhanced_plan_limit (now : string) (pd : plan_data) : M unit :=
  try_sqlite
    (transaction _get_connection (fun conn d =>
       engine (Execute InsertOrReplacePlanLimit);;
       mret (set_plan_limits
               (<[pd_plan_name pd := {|
                    token_limit := pd_token_limit pd;
                    message_limit := pd_message_limit pd;
                    last_updated := now;
                    pl_confidence_score := default 1%Q (pd_confidence_score pd);
                    sample_size := default 1 (pd_sample_size pd);
                    variance := default 0%Q (pd_variance pd) |}]>
                  (plan_limits d))
               d)))
    (fun err => logger ERROR "Failed to update enhanced plan limit"
                  (Some (SqliteError err))).

(** The dictionary of the selected row: its key and its columns. *)
Definition get_plan_limit (plan_name : string)
    : M (option (string * plan_limit_row)) :=
  try_sqlite
    (query _get_connection (fun conn d =>
       engine (Execute SelectPlanLimit);;
       mret (row ← plan_limits d !! plan_name; Some (plan_name, row))))
    (fun err => logger ERROR "Failed to get plan limit" (Some (SqliteError err));;
                mret None).

Definition add_learning_metric (now : string) (ld : learning_data) : M unit :=
  try_sqlite
    (transaction _get_connection (fun conn d =>
       engine (Execute InsertLearningMetric);;
       mret (set_learning_metrics
               (learning_metrics d ++
                [{| lm_timestamp := now;
                    plan_type := ld_plan_type ld;
                    predicted_limit := ld_predicted_limit ld;
                    actual_limit := ld_actual_limit ld;
                    accuracy_score := ld_accuracy_score ld;
                    lm_session_id := ld_session_id ld;
                    improvement_delta := ld_improvement_delta ld;
                    algorithm_version := default "1.0" (ld_algorithm_version ld) |}])
               d)))
    (fun err => logger ERROR "Failed to add learning metric"
                  (Some (SqliteError err))).

(** No column of the statement is unique, so [OR REPLACE] never
    replaces: the row is appended. *)
Definition register_terminal_session (now : string) (td : terminal_data) : M unit :=
  try_sqlite
    (transaction _get_connection (fun conn d =>
       engine (Execute InsertOrReplaceTerminalSession);;
       lift (check_parent conn d (td_session_id td));;
       mret (set_terminal_sessions
               (terminal_sessions d ++
                [{| terminal_id := td_terminal_id td;
                    ts_project_path := td_project_path td;
                    ts_session_id := td_session_id td;
                    ts_start_time := default now (td_start_time td);
                    last_activity := now;
                    process_id := td_process_id td |}])
               d)))
    (fun err => logger ERROR "Failed to register terminal session"
                  (Some (SqliteError err))).

Definition older (cutoff : string) (t : string) : bool := String.ltb t cutoff.

(** [cutoff_str] is the ISO text of [now - days_to_keep]. *)
Definition cleanup_old_data (days_to_keep : Z) (cutoff_str : string) : M unit :=
  try_sqlite
    (transaction _get_connection (fun conn d =>
       engine (Execute DeleteRateLimitEvents);;
       let d1 :=
         set_rate_limit_events
           (List.filter (fun r => negb (older cutoff_str (timestamp r)))
              (rate_limit_events d)) d in
       engine (Execute DeleteLearningMetrics);;
       let d2 :=
         set_learning_metrics
           (List.filter (fun r => negb (older cutoff_str (lm_timestamp r)))
              (learning_metrics d1)) d1 in
       engine (Execute DeleteSessionMetrics);;
       d3 ← lift (delete_sessions conn cutoff_str d2);
       engine (Execute DeleteTerminalSessions);;
       mret (set_terminal_sessions
               (List.filter (fun r => negb (older cutoff_str (last_activity r)))
                  (terminal_sessions d3)) d3));;
     logger INFO
       ("Cleaned up data older than " ++ Py.str_of_int days_to_keep ++ " days") None)
    (fun err => logger ERROR "Failed to cleanup old data" (Some (SqliteError err))).

(** A call of one of the methods that write, with the clock text it
    reads. *)
Inductive call :=
  | AddEnhancedRateLimitEvent (now : string) (e : event_data)
  | CreateOrUpdateSessionMetrics (now : string) (sd : session_data)
  | UpdateEnhancedPlanLimit (now : string) (pd : plan_data)
  | AddLearningMetric (now : string) (ld : learning_data)
  | RegisterTerminalSession (now : string) (td : terminal_data)
  | CleanupOldData (days_to_keep : Z) (cutoff_str : string).

Definition perform (c : call) : M unit :=
  match c with
  | AddEnhancedRateLimitEvent now e => add_enhanced_rate_limit_event now e
  | CreateOrUpdateSessionMetrics now sd => create_or_update_session_metrics now sd
  | UpdateEnhancedPlanLimit now pd => update_enhanced_plan_limit now pd
  | AddLearningMetric now ld => add_learning_metric now ld
  | RegisterTerminalSession now td => register_terminal_session now td
  | CleanupOldData days_to_keep cutoff_str => cleanup_old_data days_to_keep cutoff_str
  end.

(** The tables after a method call on tables [d], whatever faults
    [fs] the engine answers with during the call. *)
Definition after (c : call) (fs : list (option sqlite_error)) (m : MEM) (d : tables)
    : tables :=
  db (perform c (World d m [] [] fs)).2.



End Methods.

End EnhancedDatabaseManager.

(** ** Shapes of patterns

    Syntactic checks on a compiled pattern, used to reason about what its
    group can capture. *)
Module ReShape.
Import Re.

(** Every text the expression matches consists of digits. *)
Fixpoint digits_only (r : regex) : bool :=
  match r with
  | REps => true
  | RChar CDigit => true
  | RChar _ => false
  | RSeq r1 r2 => digits_only r1 && digits_only r2
  | RStar _ r1 | RPlus _ r1 | ROpt _ r1 => digits_only r1
  | RGroup _ => false
  end.

(** The expression never matches the empty text. *)
Fixpoint nonempty (r : regex) : bool :=
  match r with
  | REps => false
  | RChar _ => true
  | RSeq r1 r2 => nonempty r1 || nonempty r2
  | RStar _ _ | ROpt _ _ => false
  | RPlus _ r1 | RGroup r1 => nonempty r1
  end.

(** Every group of the expression captures a non-empty run of digits. *)
Fixpoint groups_numeric (r : regex) : bool :=
  match r with
  | REps | RChar _ => true
  | RSeq r1 r2 => groups_numeric r1 && groups_numeric r2
  | RStar _ r1 | RPlus _ r1 | ROpt _ r1 => groups_numeric r1
  | RGroup r1 => digits_only r1 && nonempty r1
  end.

(** Every match of the expression goes through a group. *)
Fixpoint sets_group (r : regex) : bool :=
  match r with
  | REps | RChar _ | RStar _ _ | ROpt _ _ => false
  | RSeq r1 r2 => sets_group r1 || sets_group r2
  | RPlus _ r1 => sets_group r1
  | RGroup _ => true
  end.

(** The pattern compiles, and its match always carries a numeric
    [group(1)]. *)
Definition numeric_pattern (pattern : string) : bool :=
  match compile pattern with
  | Some r => groups_numeric r && sets_group r
  | None => false
  end.

Definition numeric (g : capture) : Prop :=
  match g with
  | Some t => Py.isdigit t = true
  | None => True
  end.

(** What a successful match of [r] from [(s, g)] to [(s', g')] tells. *)
Definition consumes (r : regex) (s : list ascii) (g : capture)
    (s' : list ascii) (g' : capture) : Prop :=
  ∃ pre, s = pre ++ s' ∧
    (digits_only r = true → forallb Py.is_digit pre = true) ∧
    (nonempty r = true → pre ≠ []) ∧
    (numeric g → numeric g') ∧
    (sets_group r = true → is_Some g') ∧
    (is_Some g → is_Some g').

End ReShape.

(** ** Vocabulary of the Pattern Matcher's properties *)
Module PatternMatcherSpec.
Import RateLimitPatterns.

(** [re.search(pattern, text_lower, re.IGNORECASE)] finds a match. *)
Definition matches (pattern text_lower : string) : Prop :=
  ∃ m, Re.search pattern text_lower true = Ok (Some m).

(** [pattern] is the first entry of [patterns] that matches. *)
Definition first_match (patterns : list string) (text_lower pattern : string) : Prop :=
  ∃ before after,
    patterns = (before ++ pattern :: after)%list ∧
    matches pattern text_lower ∧
    ∀ q, q ∈ before → Re.search q text_lower true = Ok None.

(** The dictionary reports the match of its own pattern, with the
    decimal value of the captured digits as [limit_value]. *)
Definition reports (ty : limit_type) (text : string) (i : info) : Prop :=
  type i = ty ∧
  raw_text i = Py.strip text ∧
  ∃ m digits,
    Re.search (pattern_matched i) (Py.lower text) true = Ok (Some m) ∧
    Re.m_group1 m = Some digits ∧
    Py.isdigit digits = true ∧
    limit_value i = Some (Py.decimal digits).

End PatternMatcherSpec.

(** ** Vocabulary of the Session Metrics Tracker's properties *)
Module SessionMetricsSpec.

(** The sum of the values passed, as a plain right fold. *)
Definition total (l : list Z) : Z := foldr Z.add 0 l.

(** The largest single value of a list, and 0 for the empty list. *)
Definition largest (l : list Z) : Z :=
  match l with
  | [] => 0
  | v :: l' => foldr Z.max v l'
  end.

End SessionMetricsSpec.

(** ** Vocabulary of the persistence layer's properties *)
Module SqliteSpec.
Import Sqlite.

(** The engine answers its next [n] calls with at least one error. *)
Definition fails_within (n : nat) (fs : list (option sqlite_error)) : Prop :=
  ∃ i e, (i < n)%nat ∧ fs !! i = Some (Some e).

(** The engine answers every call without error. *)
Definition quiet (fs : list (option sqlite_error)) : Prop :=
  Forall (fun f => f = None) fs.

(** One attempt at a write: a prefix of [pre] (connecting), the
    statement, the commit. *)
Definition single_attempt (pre : list engine_call) (s : statement)
    (tr : list engine_call) : Prop :=
  tr `prefix_of` pre ++ [Execute s; Commit].

(** The computation leaves the committed tables alone. *)
Definition keeps_db {DB MEM A : Type} (m : M DB MEM A) : Prop :=
  ∀ w, db (m w).2 = db w.

End SqliteSpec.

(** ** Vocabulary of the Learning Updater's properties *)
Module LearningSpec.
Import Sqlite EnhancedProxyMonitor.

(** The row that [update_plan_limit] writes. *)
Definition written (now : string) (token_limit message_limit : option Z)
    : DatabaseManager.plan_limit_row :=
  {| DatabaseManager.token_limit := token_limit;
     DatabaseManager.message_limit := message_limit;
     DatabaseManager.last_updated := now |}.

(** The records the methods log. *)
Definition update_failed (plan_name : string) (e : sqlite_error) : log_record :=
  {| log_level := ERROR;
     Sqlite.message := ("Failed to update plan limit for " ++ plan_name)%string;
     exc := Some (SqliteError e) |}.




(** What [get_plan_limit] returns for the committed tables. *)
Definition stored (d : DatabaseManager.tables) (plan_name : string)
    : option DatabaseManager.plan_limit :=
  row ← DatabaseManager.plan_limits d !! plan_name;
  Some {| DatabaseManager.d_token_limit := DatabaseManager.token_limit row;
          DatabaseManager.d_message_limit := DatabaseManager.message_limit row |}.


(** The column of a plan-limit row that a limit kind names. *)
Definition column (k : limit_kind) (row : DatabaseManager.plan_limit_row) : option Z :=
  match k with
  | token => DatabaseManager.token_limit row
  | message => DatabaseManager.message_limit row
  end.



End LearningSpec.

(** ** Examples for the enhanced schema *)
Module ForeignKeySpec.
Import EnhancedDatabaseManager.
Local Open Scope string_scope.

(** A session row, and an event of the session [sid]. *)
Definition example_session : session_data := {|
  sd_session_id := "test_session_001";
  sd_project_path := "/test/project";
  sd_start_time := Some "2025-01-26T18:00:00Z";
  sd_end_time := None;
  sd_total_tokens := Some 15000%Z;
  sd_peak_token_usage := Some 5000%Z;
  sd_message_count := Some 45%Z;
  sd_peak_message_count := Some 45%Z;
  sd_cost_estimate := Some (25 # 2);
  sd_rate_limit_events_count := Some 1%Z;
  sd_status := Some "active";
  sd_metadata := None
|}.

Definition example_event (sid : string) : event_data := {|
  ed_event_type := "approaching";
  ed_session_id := sid;
  ed_elapsed_time := 1800;
  ed_limit_value := Some 19000%Z;
  ed_raw_message := Some "Rate limit approaching: 19000 tokens";
  ed_pattern_matched := Some "rate.*limit.*approaching.*(\d+)";
  ed_project_path := Some "/test/project";
  ed_confidence_score := Some (19 # 20)
|}.


End ForeignKeySpec.

(** ** Vocabulary of the isolation key's properties *)
Module SessionDetectorSpec.
Import SessionDetector.
Local Open Scope string_scope.

(** The text does not contain the separator [":"]. *)
Definition no_colon (l : list ascii) : bool :=
  forallb (fun c => negb (Ascii.eqb c ":")) l.

Definition colon_free (s : string) : bool := no_colon (Py.chars s).

(** A context with the given key components, as [DetectCurrentSession]
    builds it: the key is generated by [__post_init__]. *)
Definition example_context (terminal_device : string) (ssh_connection : option string)
    (user hostname : string) (process_id : Z) : SessionContext :=
  __post_init__ {|
    session_id := "session_" ++ hostname ++ "_" ++ Py.str_of_int process_id ++ "_1753503300000";
    terminal_id := user ++ "@" ++ hostname ++ ":" ++ terminal_device;
    process_id := process_id;
    parent_process_id := 1;
    terminal_device := terminal_device;
    ssh_connection := ssh_connection;
    local_ip := "127.0.0.1";
    remote_ip := None;
    user := user;
    hostname := hostname;
    working_directory := "/home/herb/Desktop/ClaudeWatch";
    environment_vars := ∅;
    start_time := 1753503300;
    last_activity := 1753503300;
    session_type := "local";
    isolation_key := ""
  |}.

End SessionDetectorSpec.

(** ** Vocabulary of the Learning Updater's further properties *)
Module UpdaterSpec.
Import Sqlite EnhancedProxyMonitor LearningSpec.

(** The limit kind that an event type teaches
    ([_update_intelligent_limits]). *)
Definition kind_of (ty : RateLimitPatterns.limit_type) : limit_kind :=
  match ty with
  | RateLimitPatterns.reached | RateLimitPatterns.approaching => token
  | RateLimitPatterns.message_limit => message
  end.

(** The plan [_update_intelligent_limits] files a session under. *)
Definition plan_of (clock : Q) (session : SessionMetrics.t) : string :=
  _determine_plan_type (SessionMetrics.get_current_metrics clock session).1.

(** The records [get_plan_limit] and [_update_intelligent_limits] log
    on an exception. *)
Definition retrieve_failed (plan_name : string) (e : sqlite_error) : log_record :=
  {| log_level := ERROR;
     Sqlite.message := ("Failed to retrieve plan limit for " ++ plan_name)%string;
     exc := Some (SqliteError e) |}.

Definition update_error (e : exn) : log_record :=
  {| log_level := ERROR;
     Sqlite.message := "Error updating intelligent limits"%string;
     exc := Some e |}.

(** A session nobody reported token usage for, an event with the given
    type and limit value, and a database whose row for plan [custom] has
    the given columns. *)
Definition example_session : SessionMetrics.t :=
  SessionMetrics.init "/home/user/project#test" "/cache/-home-user-project/mcp-logs" 0.

Definition example_info (ty : RateLimitPatterns.limit_type) (v : option Z)
    : RateLimitPatterns.info :=
  {| RateLimitPatterns.type := ty;
     RateLimitPatterns.limit_value := v;
     RateLimitPatterns.raw_text := "limit reached|19000";
     RateLimitPatterns.pattern_matched := "limit reached\|(\d+)" |}.

Definition custom_world (token_limit message_limit : option Z)
    (fs : list (option sqlite_error)) : world DatabaseManager.tables memory :=
  World
    {| DatabaseManager.rate_limit_events := [];
       DatabaseManager.plan_limits :=
         {[ "custom"%string := written "2025-01-26 18:00:00" token_limit message_limit ]} |}
    {| active_sessions := ∅; learned_limits := ∅ |}
    [] [] fs.

End UpdaterSpec.

(** ** The orchestrator's use of the enhanced schema:
    [IntelligentOrchestrator._register_terminal_session] *)
Module IntelligentOrchestrator.
Import Sqlite EnhancedDatabaseManager.
Local Open Scope string_scope.

Section Methods.
Context {MEM : Type}.
Local Abbreviation M := (Sqlite.M tables MEM).

(** [time] is the reading of [time.time()], [now1] and [now2] the two
    [datetime.now(timezone.utc).isoformat()] texts the method builds,
    [db_now1] and [db_now2] the ones the two database methods read, [pid]
    the value of [os.getpid()].  The keys of [session_metrics] that
    [create_or_update_session_metrics] does not read (['plan_type'],
    ['total_tokens_used'], ...) have no effect. *)
Definition _register_terminal_session (terminal_id current_project_path : string)
    (time : Q) (now1 db_now1 now2 db_now2 : string) (pid : Z) : M unit :=
  let SessionId := terminal_id ++ "#" ++ Py.str_of_int (Py.int_of_float time) in
  let session_metrics := {|
    sd_session_id := SessionId;
    sd_project_path := current_project_path;
    sd_start_time := Some now1;
    sd_end_time := None;
    sd_total_tokens := None;
    sd_peak_token_usage := None;
    sd_message_count := None;
    sd_peak_message_count := None;
    sd_cost_estimate := None;
    sd_rate_limit_events_count := None;
    sd_status := None;
    sd_metadata := None
  |} in
  create_or_update_session_metrics db_now1 session_metrics;;
  let SessionData := {|
    td_terminal_id := terminal_id;
    td_project_path := current_project_path;
    td_session_id := SessionId;
    td_start_time := Some now2;
    td_process_id := Some pid
  |} in
  register_terminal_session db_now2 SessionData;;
  logger INFO ("Registered terminal session: " ++ SessionId) None.

End Methods.

End IntelligentOrchestrator.

(** ** Vocabulary of the persistence layer's further properties *)
Module PersistenceSpec.
Import Sqlite.

(** The computation leaves the caller's memory alone and raises nothing
    but [sqlite3.Error]. *)
Definition tame {DB MEM A : Type} (m : M DB MEM A) : Prop :=
  ∀ w, mem (m w).2 = mem w ∧
       match (m w).1 with
       | Raised (SqliteError _) | Ok _ => True
       | Raised _ => False
       end.


(** The row [add_enhanced_rate_limit_event] inserts. *)
Definition event_row (now : string) (e : EnhancedDatabaseManager.event_data)
    : EnhancedDatabaseManager.rate_limit_event_row :=
  {| EnhancedDatabaseManager.timestamp := now;
     EnhancedDatabaseManager.event_type := EnhancedDatabaseManager.ed_event_type e;
     EnhancedDatabaseManager.session_id := EnhancedDatabaseManager.ed_session_id e;
     EnhancedDatabaseManager.elapsed_time := EnhancedDatabaseManager.ed_elapsed_time e;
     EnhancedDatabaseManager.limit_value := EnhancedDatabaseManager.ed_limit_value e;
     EnhancedDatabaseManager.raw_message := EnhancedDatabaseManager.ed_raw_message e;
     EnhancedDatabaseManager.pattern_matched := EnhancedDatabaseManager.ed_pattern_matched e;
     EnhancedDatabaseManager.project_path := EnhancedDatabaseManager.ed_project_path e;
     EnhancedDatabaseManager.confidence_score :=
       default 1%Q (EnhancedDatabaseManager.ed_confidence_score e) |}.

(** The tables [cleanup_old_data] commits when all four DELETEs go
    through. *)
Definition cleaned (cutoff : string) (d : EnhancedDatabaseManager.tables)
    : EnhancedDatabaseManager.tables :=
  {| EnhancedDatabaseManager.usage_entries := EnhancedDatabaseManager.usage_entries d;
     EnhancedDatabaseManager.rate_limit_events :=
       List.filter
         (fun r => negb (EnhancedDatabaseManager.older cutoff
                           (EnhancedDatabaseManager.timestamp r)))
         (EnhancedDatabaseManager.rate_limit_events d);
     EnhancedDatabaseManager.plan_limits := EnhancedDatabaseManager.plan_limits d;
     EnhancedDatabaseManager.session_metrics :=
       filter (fun kr => EnhancedDatabaseManager.expired cutoff kr.2 = false)
         (EnhancedDatabaseManager.session_metrics d);
     EnhancedDatabaseManager.learning_metrics :=
       List.filter
         (fun r => negb (EnhancedDatabaseManager.older cutoff
                           (EnhancedDatabaseManager.lm_timestamp r)))
         (EnhancedDatabaseManager.learning_metrics d);
     EnhancedDatabaseManager.terminal_sessions :=
       List.filter
         (fun r => negb (EnhancedDatabaseManager.older cutoff
                           (EnhancedDatabaseManager.last_activity r)))
         (EnhancedDatabaseManager.terminal_sessions d) |}.

(** No row that is still there when [DELETE FROM session_metrics] runs
    references the session: no usage entry, no terminal session, and no
    event that the first DELETE keeps. *)
Definition unreferenced (cutoff : string) (d : EnhancedDatabaseManager.tables)
    (sid : string) : Prop :=
  (∀ r, r ∈ EnhancedDatabaseManager.usage_entries d →
        EnhancedDatabaseManager.ue_session_id r ≠ Some sid) ∧
  (∀ r, r ∈ EnhancedDatabaseManager.rate_limit_events d →
        EnhancedDatabaseManager.session_id r = sid →
        EnhancedDatabaseManager.older cutoff (EnhancedDatabaseManager.timestamp r) = true) ∧
  (∀ r, r ∈ EnhancedDatabaseManager.terminal_sessions d →
        EnhancedDatabaseManager.ts_session_id r ≠ sid).

Definition cleaned_up (days_to_keep : Z) : log_record :=
  {| log_level := INFO;
     Sqlite.message :=
       ("Cleaned up data older than " ++ Py.str_of_int days_to_keep ++ " days")%string;
     exc := None |}.

(** The orchestrator's session id, and the rows and records of its
    registration. *)
Definition SessionId (terminal_id : string) (time : Q) : string :=
  (terminal_id ++ "#" ++ Py.str_of_int (Py.int_of_float time))%string.

Definition registered_session (current_project_path now : string)
    : EnhancedDatabaseManager.session_metrics_row :=
  {| EnhancedDatabaseManager.sm_project_path := current_project_path;
     EnhancedDatabaseManager.start_time := now;
     EnhancedDatabaseManager.end_time := None;
     EnhancedDatabaseManager.total_tokens := 0;
     EnhancedDatabaseManager.peak_token_usage := 0;
     EnhancedDatabaseManager.message_count := 0;
     EnhancedDatabaseManager.peak_message_count := 0;
     EnhancedDatabaseManager.cost_estimate := 0;
     EnhancedDatabaseManager.rate_limit_events_count := 0;
     EnhancedDatabaseManager.status := "active";
     EnhancedDatabaseManager.metadata := "{}" |}.

Definition registered_terminal (terminal_id current_project_path session_id : string)
    (start now : string) (pid : Z) : EnhancedDatabaseManager.terminal_session_row :=
  {| EnhancedDatabaseManager.terminal_id := terminal_id;
     EnhancedDatabaseManager.ts_project_path := current_project_path;
     EnhancedDatabaseManager.ts_session_id := session_id;
     EnhancedDatabaseManager.ts_start_time := start;
     EnhancedDatabaseManager.last_activity := now;
     EnhancedDatabaseManager.process_id := Some pid |}.

Definition registered (session_id : string) : log_record :=
  {| log_level := INFO;
     Sqlite.message := ("Registered terminal session: " ++ session_id)%string;
     exc := None |}.

Definition session_update_failed (e : sqlite_error) : log_record :=
  {| log_level := ERROR;
     Sqlite.message := "Failed to update session metrics"%string;
     exc := Some (SqliteError e) |}.

Definition terminal_registration_failed (e : sqlite_error) : log_record :=
  {| log_level := ERROR;
     Sqlite.message := "Failed to register terminal session"%string;
     exc := Some (SqliteError e) |}.

Definition cleanup_failed (e : sqlite_error) : log_record :=
  {| log_level := ERROR;
     Sqlite.message := "Failed to cleanup old data"%string;
     exc := Some (SqliteError e) |}.


(** Tables for a cleanup with cutoff [2025-02-01]: a session completed
    in January with one event of that time, a session still active with
    a recent event, and the given terminal sessions. *)
Definition old_session : EnhancedDatabaseManager.session_metrics_row :=
  {| EnhancedDatabaseManager.sm_project_path := "/test/project";
     EnhancedDatabaseManager.start_time := "2025-01-26T18:00:00+00:00";
     EnhancedDatabaseManager.end_time := Some "2025-01-26T20:00:00+00:00";
     EnhancedDatabaseManager.total_tokens := 15000;
     EnhancedDatabaseManager.peak_token_usage := 5000;
     EnhancedDatabaseManager.message_count := 45;
     EnhancedDatabaseManager.peak_message_count := 45;
     EnhancedDatabaseManager.cost_estimate := 0;
     EnhancedDatabaseManager.rate_limit_events_count := 1;
     EnhancedDatabaseManager.status := "completed";
     EnhancedDatabaseManager.metadata := "{}" |}.

Definition live_session : EnhancedDatabaseManager.session_metrics_row :=
  {| EnhancedDatabaseManager.sm_project_path := "/test/project";
     EnhancedDatabaseManager.start_time := "2025-03-01T09:00:00+00:00";
     EnhancedDatabaseManager.end_time := None;
     EnhancedDatabaseManager.total_tokens := 0;
     EnhancedDatabaseManager.peak_token_usage := 0;
     EnhancedDatabaseManager.message_count := 0;
     EnhancedDatabaseManager.peak_message_count := 0;
     EnhancedDatabaseManager.cost_estimate := 0;
     EnhancedDatabaseManager.rate_limit_events_count := 1;
     EnhancedDatabaseManager.status := "active";
     EnhancedDatabaseManager.metadata := "{}" |}.

Definition example_event_row (sid now : string)
    : EnhancedDatabaseManager.rate_limit_event_row :=
  event_row now (ForeignKeySpec.example_event sid).

Definition old_terminal : EnhancedDatabaseManager.terminal_session_row :=
  {| EnhancedDatabaseManager.terminal_id := "herb@desk:4242:1737914400";
     EnhancedDatabaseManager.ts_project_path := "/test/project";
     EnhancedDatabaseManager.ts_session_id := "old";
     EnhancedDatabaseManager.ts_start_time := "2025-01-26T18:00:00+00:00";
     EnhancedDatabaseManager.last_activity := "2025-01-26T19:00:00+00:00";
     EnhancedDatabaseManager.process_id := Some 4242 |}.

Definition cleanup_tables (terminals : list EnhancedDatabaseManager.terminal_session_row)
    : EnhancedDatabaseManager.tables :=
  {| EnhancedDatabaseManager.usage_entries := [];
     EnhancedDatabaseManager.rate_limit_events :=
       [example_event_row "old" "2025-01-26T18:30:00+00:00";
        example_event_row "live" "2025-03-01T09:30:00+00:00"];
     EnhancedDatabaseManager.plan_limits := ∅;
     EnhancedDatabaseManager.session_metrics :=
       <["live"%string := live_session]> {[ "old"%string := old_session ]};
     EnhancedDatabaseManager.learning_metrics := [];
     EnhancedDatabaseManager.terminal_sessions := terminals |}.

End PersistenceSpec.

(** ** Vocabulary of the Pattern Matcher's further properties *)
Module PatternMatcherSpec2.
Import RateLimitPatterns.

(** The text holds no decimal digit. *)
Definition no_digit (l : list ascii) : bool :=
  forallb (fun c => negb (Py.is_digit c)) l.



End PatternMatcherSpec2.

(** ** More of Python's [str] *)
Module Str.

(** [s.startswith(prefix)] *)
Fixpoint startswith (prefix s : list ascii) : bool :=
  match prefix, s with
  | [], _ => true
  | p :: prefix', c :: s' => Ascii.eqb p c && startswith prefix' s'
  | _ :: _, [] => false
  end.

(** [s.endswith(suffix)] *)
Definition endswith (suffix s : list ascii) : bool :=
  startswith (rev suffix) (rev s).

(** [sub in s] *)
Fixpoint contains (sub s : list ascii) : bool :=
  startswith sub s ||
  match s with
  | [] => false
  | _ :: s' => contains sub s'
  end.

Fixpoint lstrip_char (ch : ascii) (l : list ascii) : list ascii :=
  match l with
  | c :: l' => if Ascii.eqb c ch then lstrip_char ch l' else l
  | [] => []
  end.

(** [s.strip(ch)] for a single character [ch] *)
Definition strip_char (ch : ascii) (l : list ascii) : list ascii :=
  rev (lstrip_char ch (rev (lstrip_char ch l))).

(** [s.replace(old, new)] for single characters [old] and [new] *)
Definition replace_char (old new : ascii) (l : list ascii) : list ascii :=
  map (fun c => if Ascii.eqb c old then new else c) l.

(** [s[1:-1]] *)
Definition slice_1_m1 (l : list ascii) : list ascii := removelast (tail l).

(** [s.split(sep)] for a single character [sep]: the fields between the
    separators, empty ones included. *)
Fixpoint split_char (sep : ascii) (l : list ascii) : list (list ascii) :=
  match l with
  | [] => [[]]
  | c :: l' =>
      if Ascii.eqb c sep then [] :: split_char sep l'
      else
        match split_char sep l' with
        | field :: fields => (c :: field) :: fields
        | [] => [[c]]
        end
  end.

(** [s.rfind(ch)]: the index of the last occurrence. *)
Fixpoint rfind (ch : ascii) (l : list ascii) : option nat :=
  match l with
  | [] => None
  | c :: l' =>
      match rfind ch l' with
      | Some i => Some (S i)
      | None => if Ascii.eqb c ch then Some O else None
      end
  end.

End Str.

(** ** [pathlib.Path] on POSIX, as far as the monitor uses it

    A path is its root ([""], ["/"] or ["//"]) and its components;
    building one from a string drops empty components and ["."]
    components. *)
Module Pathlib.
Local Open Scope string_scope.

Record Path := {
  root : string;
  names : list string
}.

Fixpoint leading_slashes (l : list ascii) : nat :=
  match l with
  | c :: l' => if Ascii.eqb c "/" then S (leading_slashes l') else O
  | [] => O
  end.

(** [Path(s)]: exactly two leading slashes are kept as the root ["//"],
    any other number of them is the root ["/"]. *)
Definition of_str (s : string) : Path :=
  let l := Py.chars s in
  {| root :=
       match leading_slashes l with
       | O => ""
       | 2%nat => "//"
       | _ => "/"
       end;
     names :=
       List.filter (fun n => negb (String.eqb n "" || String.eqb n "."))
         (map Py.str (Str.split_char "/" l)) |}.

(** [p.parts] *)
Definition parts (p : Path) : list string :=
  (if String.eqb (root p) "" then [] else [root p]) ++ names p.

(** [str(p)] *)
Definition to_str (p : Path) : string :=
  match names p with
  | [] => if String.eqb (root p) "" then "." else root p
  | _ => root p ++ String.concat "/" (names p)
  end.

(** [p.name]: the last component, or the empty string. *)
Definition name (p : Path) : string := List.last (names p) "".

(** [p.stem]: the name without its last suffix; a dot at the start or
    at the end of the name does not begin a suffix. *)
Definition stem (p : Path) : string :=
  let n := Py.chars (name p) in
  match Str.rfind "." n with
  | Some i =>
      if ((0 <? i) && (i <? length n - 1))%nat then Py.str (take i n) else name p
  | None => name p
  end.

(** [p.parent] *)
Definition parent (p : Path) : Path :=
  {| root := root p; names := removelast (names p) |}.

End Pathlib.

(** ** The log pipeline of [EnhancedProxyMonitor]: from a file event to
    the session, the event table and the learned limits *)
Module MCPLogs.
Import Sqlite EnhancedProxyMonitor.
Local Open Scope string_scope.

Definition get_session_id_from_path (file_path : Pathlib.Path) : string :=
  let path_str := Pathlib.to_str file_path in
  let parts := Pathlib.parts file_path in
  match
    List.find
      (fun part =>
         Str.startswith (Py.chars "-home-") (Py.chars part) &&
         (Str.endswith (Py.chars "-") (Py.chars part) ||
          Str.contains (Py.chars "mcp-logs") (Py.chars path_str)))
      parts
  with
  | Some part =>
      let clean_part := Str.strip_char "-" (Py.chars part) in
      let project_path := "/" ++ Py.str (Str.replace_char "-" "/" clean_part) in
      let timestamp := Pathlib.stem file_path in
      project_path ++ "#" ++ timestamp
  | None => Pathlib.to_str file_path
  end.

Definition _extract_project_path (file_path : Pathlib.Path) : string :=
  let parts := Pathlib.parts file_path in
  match
    List.find
      (fun part =>
         Str.startswith (Py.chars "-home-") (Py.chars part) &&
         Str.endswith (Py.chars "-") (Py.chars part))
      parts
  with
  | Some part => Py.str (Str.replace_char "-" "/" (Str.slice_1_m1 (Py.chars part)))
  | None => Pathlib.to_str (Pathlib.parent file_path)
  end.

(** The value of [rate_limit_info['type']]. *)
Definition type_name (ty : RateLimitPatterns.limit_type) : string :=
  match ty with
  | RateLimitPatterns.approaching => "approaching"
  | RateLimitPatterns.reached => "reached"
  | RateLimitPatterns.message_limit => "message_limit"
  end.

(** The clock readings of one [_handle_rate_limit_event]: [time.time()]
    in [SessionMetrics.__init__], twice in [add_rate_limit_event], in the
    two [get_current_metrics], and the database's [datetime('now')] for
    the event and for the plan limit. *)
Record clock := {
  t_init : Q;
  t_stamp : Q;
  t_elapsed : Q;
  t_metrics : Q;
  t_update : Q;
  now_event : string;
  now_update : string
}.

Local Abbreviation M := (Sqlite.M DatabaseManager.tables memory).

(** The session object is shared between [active_sessions] and the
    local variable: the event added to it is seen through the
    dictionary. *)
Definition _handle_rate_limit_event (t : clock) (session_id : string)
    (file_path : Pathlib.Path) (rate_limit_info : RateLimitPatterns.info) : M unit :=
  m ← get_mem;
  let session :=
    match active_sessions m !! session_id with
    | Some session => session
    | None =>
        let project_path := _extract_project_path file_path in
        SessionMetrics.init session_id project_path (t_init t)
    end in
  let session :=
    SessionMetrics.add_rate_limit_event (t_stamp t) (t_elapsed t) rate_limit_info session in
  put_mem {| active_sessions := <[session_id := session]> (active_sessions m);
             learned_limits := learned_limits m |};;
  DatabaseManager.add_rate_limit_event (now_event t)
    (type_name (RateLimitPatterns.type rate_limit_info)) session_id
    (SessionMetrics.elapsed_time
       (SessionMetrics.get_current_metrics (t_metrics t) session).1);;
  _update_intelligent_limits (t_update t) (now_update t) session rate_limit_info;;
  logger INFO
    ("Rate limit event detected: " ++ type_name (RateLimitPatterns.type rate_limit_info)
       ++ " in session " ++ session_id) None.

(** The loop [for line in content.split('\n')]; [n] counts the lines
    already seen, and [clocks n] are the readings while line [n] is
    handled. *)
Fixpoint for_lines (clocks : nat → clock) (session_id : string)
    (file_path : Pathlib.Path) (n : nat) (lines : list string) : M unit :=
  match lines with
  | [] => mret tt
  | line :: rest =>
      rate_limit_info ← lift (RateLimitPatterns.extract_rate_limit_info line);
      match rate_limit_info with
      | Some info => _handle_rate_limit_event (clocks n) session_id file_path info
      | None => mret tt
      end;;
      for_lines clocks session_id file_path (S n) rest
  end.

(** [content] is what [f.read()] returns for the file; a file that
    cannot be opened or decoded is outside the model. *)
Definition _process_mcp_log_file (clocks : nat → clock) (file_path : Pathlib.Path)
    (content : string) : M unit :=
  try_exception
    (let session_id := get_session_id_from_path file_path in
     for_lines clocks session_id file_path 0
       (map Py.str (Str.split_char "010" (Py.chars content))))
    (fun e =>
       logger ERROR ("Error processing MCP log file " ++ Pathlib.to_str file_path) (Some e)).

(** *** [MCPLogHandler] *)

(** A file-system event of the watchdog library. *)
Record event := {
  is_directory : bool;
  src_path : string
}.



End MCPLogs.

(** ** Vocabulary of the log pipeline's properties *)
Module MCPLogsSpec.
Import Sqlite EnhancedProxyMonitor MCPLogs.
Local Open Scope string_scope.

(** The part is the encoded home directory of a project. *)
Definition home_part (part : string) : bool :=
  Str.startswith (Py.chars "-home-") (Py.chars part).

Definition trailing_dash (part : string) : bool :=
  Str.endswith (Py.chars "-") (Py.chars part).

Definition in_mcp_logs (path_str : string) : bool :=
  Str.contains (Py.chars "mcp-logs") (Py.chars path_str).

(** The text holds no ["-"]. *)
Definition dash_free (s : string) : bool :=
  forallb (fun c => negb (Ascii.eqb c "-")) (Py.chars s).

(** The log file of the repository's tests. *)
Definition example_log : Pathlib.Path :=
  Pathlib.of_str "/cache/claude-cli-nodejs/-home-user-project/mcp-logs/test.txt".

End MCPLogsSpec.

(** ** Vocabulary of the pipeline's properties, continued *)
Module PipelineSpec.
Import Sqlite EnhancedProxyMonitor MCPLogs.
Local Open Scope string_scope.

(** The lines of a file's content, and the dictionaries the Pattern
    Matcher returns for them, in line order. *)
Definition lines (content : string) : list string :=
  map Py.str (Str.split_char "010" (Py.chars content)).

Definition detections (ls : list string) : list RateLimitPatterns.info :=
  omap (fun line =>
          match RateLimitPatterns.extract_rate_limit_info line with
          | Ok (Some i) => Some i
          | _ => None
          end) ls.


(** The session a detection is added to -- the one in memory, or a new
    one -- and that session with the detection. *)
Definition session_before (t : clock) (session_id : string) (file_path : Pathlib.Path)
    (m : memory) : SessionMetrics.t :=
  match active_sessions m !! session_id with
  | Some session => session
  | None => SessionMetrics.init session_id (_extract_project_path file_path) (t_init t)
  end.

Definition session_after (t : clock) (session_id : string) (file_path : Pathlib.Path)
    (info : RateLimitPatterns.info) (m : memory) : SessionMetrics.t :=
  SessionMetrics.add_rate_limit_event (t_stamp t) (t_elapsed t) info
    (session_before t session_id file_path m).

(** No session in memory has seen more than 15000 tokens in one
    report. *)
Definition small_sessions (m : memory) : Prop :=
  ∀ sid s, active_sessions m !! sid = Some s →
           (SessionMetrics.peak_token_usage s ≤ 15000)%Z.

(** A monitor that has just been constructed on an empty database. *)
Definition new_monitor (fs : list (option sqlite_error))
    : world DatabaseManager.tables memory :=
  World DatabaseManager.empty {| active_sessions := ∅; learned_limits := ∅ |} [] [] fs.

(** Clock readings one second apart, the [n]-th line being handled at
    second [n]. *)
Definition example_clocks (n : nat) : clock :=
  {| t_init := inject_Z (Z.of_nat n);
     t_stamp := inject_Z (Z.of_nat n);
     t_elapsed := inject_Z (Z.of_nat n);
     t_metrics := inject_Z (Z.of_nat n);
     t_update := inject_Z (Z.of_nat n);
     now_event := "2025-01-26 18:00:00";
     now_update := "2025-01-26 18:00:00" |}.

Definition example_content : string :=
  String.concat (String "010" "")
    ["[info] connected";
     "Rate limit approaching, 5000 tokens remaining in session";
     "";
     "RATE LIMIT REACHED|19000"].

End PipelineSpec.

(** ** The monitor's in-memory state: loading, statistics, expiry

    These methods of [EnhancedProxyMonitor] walk a dictionary.  The
    finite maps of the model enumerate their entries in their own order,
    which need not be the order of insertion a Python dictionary keeps;
    it only shows in the order of the debug records of one
    [cleanup_old_sessions] call. *)
Module MonitorState.
Import Sqlite EnhancedProxyMonitor.
Local Open Scope string_scope.

Local Abbreviation M := (Sqlite.M DatabaseManager.tables memory).

Definition set_learned_limits (v : gmap string DatabaseManager.plan_limit) (m : memory)
    : memory :=
  {| active_sessions := active_sessions m; learned_limits := v |}.

Definition set_active_sessions (v : gmap string SessionMetrics.t) (m : memory) : memory :=
  {| active_sessions := v; learned_limits := learned_limits m |}.

(** The loop of [_load_learned_limits]; a dictionary of two columns is
    never empty, so [if limits:] asks whether a row was found. *)
Fixpoint load_plans (plans : list string) : M unit :=
  match plans with
  | [] => mret tt
  | plan_type :: rest =>
      limits ← DatabaseManager.get_plan_limit plan_type;
      match limits with
      | Some limits =>
          m ← get_mem;
          put_mem (set_learned_limits (<[plan_type := limits]> (learned_limits m)) m)
      | None => mret tt
      end;;
      load_plans rest
  end.

Definition _load_learned_limits : M unit :=
  try_exception
    (load_plans ["pro"; "max5"; "max20"; "custom"])
    (fun e => logger ERROR "Error loading learned limits" (Some e)).



(** [del self.active_sessions[session_id]] for each expired id. *)
Fixpoint delete_expired (expired_sessions : list string) : M unit :=
  match expired_sessions with
  | [] => mret tt
  | session_id :: rest =>
      m ← get_mem;
      put_mem (set_active_sessions (delete session_id (active_sessions m)) m);;
      logger DEBUG ("Cleaned up expired session: " ++ session_id) None;;
      delete_expired rest
  end.

(** [current_time] is the reading of [time.time()]. *)
Definition cleanup_old_sessions (current_time : Q) (max_age_hours : Z) : M unit :=
  let cutoff_time := (current_time - inject_Z (max_age_hours * 3600))%Q in
  m ← get_mem;
  let expired_sessions :=
    map fst
      (List.filter
         (fun kv => negb (Qle_bool cutoff_time (SessionMetrics.start_time kv.2)))
         (map_to_list (active_sessions m))) in
  delete_expired expired_sessions.

End MonitorState.

(** ** Vocabulary of the properties of the in-memory state *)
Module MonitorStateSpec.
Import Sqlite EnhancedProxyMonitor.

(** The session started before the cutoff of a cleanup at
    [current_time]. *)
Definition too_old (current_time : Q) (max_age_hours : Z) (s : SessionMetrics.t) : Prop :=
  (SessionMetrics.start_time s < current_time - inject_Z (max_age_hours * 3600))%Q.

Definition load_error (e : exn) : log_record :=
  {| log_level := ERROR;
     Sqlite.message := "Error loading learned limits"%string;
     exc := Some e |}.

(** The plans [_load_learned_limits] asks for. *)
Definition loaded_plans : list string := ["pro"; "max5"; "max20"; "custom"]%string.

End MonitorStateSpec.

(** ** The session registry: [SessionDetector]

    What the detector reads from the operating system is a record
    [os]; the dictionary [active_sessions] keeps its insertion order and
    is an association list without repeated keys. *)
Module SessionRegistry.
Import SessionDetector.
Local Open Scope string_scope.

(** What the process finds around it.  [ttyname] is [None] when
    [os.ttyname(0)] raises [OSError], [sockname] is [None] when the
    socket of [_get_local_ip] fails; [getpass.getuser()],
    [socket.gethostname()], [os.getcwd()] and [process.ppid()] are taken
    to succeed.  [ppid] is the answer of [psutil] for the current
    process. *)
Record os := {
  environ : gmap string string;
  isatty : bool;
  ttyname : option string;
  getpid : Z;
  ppid : Z;
  getuser : string;
  gethostname : string;
  getcwd : string;
  sockname : option string
}.

(** [os.environ.get(var)] as a condition: set and not empty. *)
Definition environ_get (o : os) (var : string) : option string :=
  match environ o !! var with
  | Some (String c s) => Some (String c s)
  | _ => None
  end.

(** [os.path.basename] *)
Definition basename (p : string) : string :=
  let l := Py.chars p in
  match Str.rfind "/"%char l with
  | Some i => Py.str (drop (S i) l)
  | None => p
  end.

Definition _get_terminal_device (o : os) : string :=
  if isatty o then
    match ttyname o with
    | Some tty => basename tty
    | None => "pid" ++ Py.str_of_int (getpid o)
    end
  else basename "notty".

Definition _detect_ssh_connection (o : os) : option string :=
  match environ_get o "SSH_CLIENT" with
  | Some ssh_client => Some ("ssh_client:" ++ ssh_client)
  | None =>
      match environ_get o "SSH_CONNECTION" with
      | Some ssh_connection => Some ("ssh_conn:" ++ ssh_connection)
      | None =>
          if isatty o then
            match ttyname o with
            | Some tty =>
                if Str.contains (Py.chars "pts") (Py.chars tty)
                then Some ("ssh_pts:" ++ tty) else None
            | None => None
            end
          else None
      end
  end.

Definition _get_local_ip (o : os) : string := default "127.0.0.1" (sockname o).

Definition relevant_vars : list string := [
  "TERM"; "TERM_PROGRAM"; "TERMINAL_EMULATOR";
  "SSH_CLIENT"; "SSH_CONNECTION"; "SSH_TTY";
  "VSCODE_PID"; "VSCODE_IPC_HOOK_CLI";
  "JUPYTER_SERVER_ROOT"; "JPY_PARENT_PID";
  "CONTAINER_ID"; "KUBERNETES_SERVICE_HOST"
].

(** The dictionary comprehension: the relevant variables that are set
    and not empty.  The dictionary is only searched, never walked in
    order. *)
Definition _get_relevant_env_vars (o : os) : gmap string string :=
  fold_left
    (fun d var =>
       match environ_get o var with
       | Some v => <[var := v]> d
       | None => d
       end)
    relevant_vars ∅.

Definition has_key (d : gmap string string) (key : string) : bool :=
  bool_decide (is_Some (d !! key)).

Definition value_is (d : gmap string string) (key value : string) : bool :=
  bool_decide (d !! key = Some value).

Definition _determine_session_type (o : os) : string :=
  let env_vars := _get_relevant_env_vars o in
  if existsb (fun kv => Str.startswith (Py.chars "SSH_") (Py.chars kv.1))
       (map_to_list env_vars)
  then "ssh"
  else if has_key env_vars "VSCODE_PID" || has_key env_vars "VSCODE_IPC_HOOK_CLI"
  then "vscode"
  else if has_key env_vars "JUPYTER_SERVER_ROOT" || has_key env_vars "JPY_PARENT_PID"
  then "jupyter"
  else if has_key env_vars "CONTAINER_ID" || has_key env_vars "KUBERNETES_SERVICE_HOST"
  then "container"
  else if value_is env_vars "TERM_PROGRAM" "iTerm.app" then "iterm"
  else if value_is env_vars "TERM_PROGRAM" "Apple_Terminal" then "terminal"
  else if value_is env_vars "TERMINAL_EMULATOR" "JetBrains-JediTerm" then "jetbrains"
  else if negb (isatty o) then "script"
  else "local".

(** *** The registry *)

(** The two attributes of the detector, and the records the methods
    hand to the logger. *)
Record t := {
  active_sessions : list (string * SessionContext);
  session_history : list SessionContext;
  log : list string
}.

(** [detection_methods] is never read and is left out. *)
Definition __init__ : t :=
  {| active_sessions := []; session_history := []; log := [] |}.

Definition info (msg : string) (self : t) : t :=
  {| active_sessions := active_sessions self;
     session_history := session_history self;
     log := log self ++ [msg] |}.

(** [d[key]], [d[key] = value] and [d.pop(key)] on the dictionary. *)
Definition dict_get (key : string) (d : list (string * SessionContext))
    : option SessionContext :=
  match List.find (fun kv => String.eqb kv.1 key) d with
  | Some kv => Some kv.2
  | None => None
  end.

Fixpoint dict_set (key : string) (value : SessionContext)
    (d : list (string * SessionContext)) : list (string * SessionContext) :=
  match d with
  | [] => [(key, value)]
  | (k, v) :: d' =>
      if String.eqb k key then (k, value) :: d' else (k, v) :: dict_set key value d'
  end.

Definition dict_pop (key : string) (d : list (string * SessionContext))
    : list (string * SessionContext) :=
  List.filter (fun kv => negb (String.eqb kv.1 key)) d.

(** The clock readings of one [DetectCurrentSession]: [time.time()] in
    [_generate_session_id] and in [_get_terminal_id], and the two
    [datetime.now(timezone.utc)], as seconds. *)
Record clock := {
  time_id : Q;
  time_terminal : Q;
  now_start : Q;
  now_activity : Q
}.

Definition _generate_session_id (c : clock) (o : os) : string :=
  let timestamp := Py.int_of_float (time_id c * 1000) in
  "session_" ++ gethostname o ++ "_" ++ Py.str_of_int (getpid o) ++ "_"
    ++ Py.str_of_int timestamp.

Definition _get_terminal_id (c : clock) (o : os) : string :=
  let timestamp := Py.int_of_float (time_terminal c) in
  getuser o ++ "@" ++ gethostname o ++ ":" ++ _get_terminal_device o ++ ":"
    ++ Py.str_of_int (getpid o) ++ ":" ++ Py.str_of_int timestamp.

(** A method returns or raises [IndexError]. *)
Inductive outcome (A : Type) :=
| Returned (a : A)
| RaisedIndexError.
Arguments Returned {A} a.
Arguments RaisedIndexError {A}.

(** The first field of [s.split()]: the characters up to the next
    whitespace. *)
Fixpoint field (l : list ascii) : list ascii :=
  match l with
  | c :: l' => if Py.is_space c then [] else c :: field l'
  | [] => []
  end.

(** [s.split()[0]]: a string of whitespace only has no field. *)
Definition split_0 (s : string) : outcome string :=
  match Py.lstrip (Py.chars s) with
  | [] => RaisedIndexError
  | l => Returned (Py.str (field l))
  end.

Definition _get_remote_ip (o : os) : outcome (option string) :=
  match environ_get o "SSH_CLIENT" with
  | Some ssh_client =>
      match split_0 ssh_client with
      | Returned ip => Returned (Some ip)
      | RaisedIndexError => RaisedIndexError
      end
  | None =>
      match environ_get o "SSH_CONNECTION" with
      | Some ssh_connection =>
          match split_0 ssh_connection with
          | Returned ip => Returned (Some ip)
          | RaisedIndexError => RaisedIndexError
          end
      | None => Returned None
      end
  end.

(** The context [DetectCurrentSession] builds from the remote address,
    after [__post_init__]. *)
Definition new_context (c : clock) (o : os) (remote_ip : option string) : SessionContext :=
  __post_init__ {|
    session_id := _generate_session_id c o;
    terminal_id := _get_terminal_id c o;
    process_id := getpid o;
    parent_process_id := ppid o;
    terminal_device := _get_terminal_device o;
    ssh_connection := _detect_ssh_connection o;
    local_ip := _get_local_ip o;
    remote_ip := remote_ip;
    user := getuser o;
    hostname := gethostname o;
    working_directory := getcwd o;
    environment_vars := _get_relevant_env_vars o;
    start_time := now_start c;
    last_activity := now_activity c;
    session_type := _determine_session_type o;
    isolation_key := ""
  |}.

(** An [IndexError] of [_get_remote_ip] leaves the method before
    anything is registered. *)
Definition DetectCurrentSession (c : clock) (o : os) (self : t)
    : outcome SessionContext * t :=
  let self := info "Detecting current session context..." self in
  match _get_remote_ip o with
  | RaisedIndexError => (RaisedIndexError, self)
  | Returned remote_ip =>
      let context := new_context c o remote_ip in
      let self := {|
        active_sessions :=
          dict_set (isolation_key context) context (active_sessions self);
        session_history := session_history self;
        log := log self
      |} in
      let self :=
        info ("Detected session: " ++ session_type context ++ " ("
                ++ isolation_key context ++ ")") self in
      (Returned context, self)
  end.

(** What [psutil] finds for a process id: [Process(pid)] raises
    [NoSuchProcess] or [AccessDenied], or [is_running()] answers. *)
Inductive process_status := Running | NotRunning | NoSuchProcess | AccessDenied.

Definition set_last_activity (v : Q) (self : SessionContext) : SessionContext := {|
  session_id := session_id self;
  terminal_id := terminal_id self;
  process_id := process_id self;
  parent_process_id := parent_process_id self;
  terminal_device := terminal_device self;
  ssh_connection := ssh_connection self;
  local_ip := local_ip self;
  remote_ip := remote_ip self;
  user := user self;
  hostname := hostname self;
  working_directory := working_directory self;
  environment_vars := environment_vars self;
  start_time := start_time self;
  last_activity := v;
  session_type := session_type self;
  isolation_key := isolation_key self
|}.

(** [now] is the reading of the clock when the session is archived. *)
Definition _remove_session (now : Q) (isolation_key : string) (self : t) : t :=
  match dict_get isolation_key (active_sessions self) with
  | Some session =>
      info ("Removed stale session: " ++ isolation_key)
        {| active_sessions := dict_pop isolation_key (active_sessions self);
           session_history := session_history self ++ [set_last_activity now session];
           log := log self |}
  | None => self
  end.

Definition IsSessionActive (psutil : Z → process_status) (now : Q)
    (isolation_key : string) (self : t) : bool * t :=
  match dict_get isolation_key (active_sessions self) with
  | None => (false, self)
  | Some session =>
      match psutil (process_id session) with
      | Running => (true, self)
      | NotRunning => (false, self)
      | NoSuchProcess | AccessDenied => (false, _remove_session now isolation_key self)
      end
  end.

Definition stale (psutil : Z → process_status) (session : SessionContext) : bool :=
  match psutil (process_id session) with
  | Running => false
  | _ => true
  end.

(** [now key] is the reading of the clock when the session [key] is
    archived. *)
Definition _cleanup_stale_sessions (psutil : Z → process_status) (now : string → Q)
    (self : t) : t :=
  let stale_keys :=
    map fst (List.filter (fun kv => stale psutil kv.2) (active_sessions self)) in
  fold_left (fun self key => _remove_session (now key) key self) stale_keys self.

Definition GetActiveSessionsCount (psutil : Z → process_status) (now : string → Q)
    (self : t) : nat * t :=
  let self := _cleanup_stale_sessions psutil now self in
  (length (active_sessions self), self).

Definition GetSessionsForProject (project_path : string) (self : t) : list SessionContext :=
  List.filter (fun session => String.eqb (working_directory session) project_path)
    (map snd (active_sessions self)).

(** [projects[project] = projects.get(project, 0) + 1] for each
    session; the counters are natural numbers. *)
Definition _group_sessions_by_project (self : t) : gmap string nat :=
  fold_left
    (fun projects session =>
       let project := working_directory session in
       <[project := (default 0 (projects !! project) + 1)%nat]> projects)
    (map snd (active_sessions self)) ∅.

(** The dictionary [GetSessionSummary] returns. *)
Record summary := {
  sum_active_sessions : nat;
  session_types : gmap string nat;
  total_historical : nat;
  sessions_by_project : gmap string nat
}.

Definition GetSessionSummary (psutil : Z → process_status) (now : string → Q) (self : t)
    : summary * t :=
  let self := _cleanup_stale_sessions psutil now self in
  let session_types :=
    fold_left
      (fun session_types session =>
         let session_type := session_type session in
         <[session_type := (default 0 (session_types !! session_type) + 1)%nat]> session_types)
      (map snd (active_sessions self)) ∅ in
  ({| sum_active_sessions := length (active_sessions self);
      session_types := session_types;
      total_historical := length (session_history self);
      sessions_by_project := _group_sessions_by_project self |},
   self).

End SessionRegistry.

(** ** Vocabulary of the properties of the session registry *)
Module SessionRegistrySpec.
Import SessionDetector SessionRegistry.
Local Open Scope string_scope.

(** One of the three SSH variables is set and not empty. *)
Definition ssh_variable_set (o : os) : Prop :=
  ∃ var, var ∈ ["SSH_CLIENT"; "SSH_CONNECTION"; "SSH_TTY"] ∧ environ_get o var ≠ None.

(** The isolation key of a process whose [_detect_ssh_connection]
    answers [connection]. *)
Definition key_for (o : os) (device connection : string) : string :=
  device ++ ":" ++ connection ++ ":" ++ getuser o ++ ":" ++ gethostname o ++ ":"
    ++ Py.str_of_int (getpid o).

(** [DetectCurrentSession] called once for each reading of the clocks,
    in the same process; a caller that sees [IndexError] goes on. *)
Fixpoint detect_each (cs : list clock) (o : os) (self : t) : t :=
  match cs with
  | [] => self
  | c :: cs' => detect_each cs' o (DetectCurrentSession c o self).2
  end.

(** The keys of a dictionary are distinct. *)
Definition distinct_keys (self : t) : Prop := NoDup (map fst (active_sessions self)).

(** The sum of the counts of a dictionary of counters. *)
Definition total (counts : gmap string nat) : nat :=
  sum_list_with snd (map_to_list counts).

(** The active sessions for which [field] gives [value]. *)
Definition sessions_with (field : SessionContext → string) (value : string) (self : t)
    : list SessionContext :=
  List.filter (fun session => String.eqb (field session) value)
    (map snd (active_sessions self)).

(** A terminal emulator on Linux, no SSH involved. *)
Definition example_os : os := {|
  environ := {[ "TERM" := "xterm-256color"; "HOME" := "/home/herb" ]};
  isatty := true;
  ttyname := Some "/dev/pts/3";
  getpid := 4242;
  ppid := 4100;
  getuser := "herb";
  gethostname := "watchtower";
  getcwd := "/home/herb/Desktop/ClaudeWatch";
  sockname := Some "192.168.1.20"
|}.

Definition example_clock : clock := {|
  time_id := 1753503300;
  time_terminal := 1753503300;
  now_start := 1753503300;
  now_activity := 1753503300
|}.

(** A registry with two sessions, of the processes 4242 and 5151. *)
Definition example_registry : t := {|
  active_sessions :=
    [("3:local:herb:watchtower:4242",
      SessionDetectorSpec.example_context "3" None "herb" "watchtower" 4242);
     ("4:local:herb:watchtower:5151",
      SessionDetectorSpec.example_context "4" None "herb" "watchtower" 5151)];
  session_history := [];
  log := []
|}.

(** Process 4242 runs, any other is gone. *)
Definition example_psutil (pid : Z) : process_status :=
  if (pid =? 4242)%Z then Running else NoSuchProcess.

End SessionRegistrySpec.

(** * Properties *)

(** ** Python preliminaries *)
Module PyFacts.

Lemma lstrip_digits (l : list ascii) :
  forallb Py.is_digit l = true → Py.lstrip l = l.
Proof.
  destruct l as [|c l]; [done|]. simpl. intros [Hc _]%andb_prop.
  replace (Py.is_space c) with false; [done|].
  unfold Py.is_digit, Py.is_space in *.
  destruct (N.leb_spec 48 (Py.code c)), (N.leb_spec (Py.code c) 57); try discriminate.
  symmetry. apply orb_false_intro; apply andb_false_intro2; apply N.leb_gt; lia.
Qed.

Lemma strip_digits (l : list ascii) :
  forallb Py.is_digit l = true → Py.strip_chars l = l.
Proof.
  intros H. unfold Py.strip_chars. rewrite (lstrip_digits l H), lstrip_digits.
  - apply rev_involutive.
  - rewrite forallb_forall in *. intros c Hc. apply H. by apply in_rev.
Qed.

Lemma int_digits_all (l : list ascii) (b : bool) (acc : Z) :
  forallb Py.is_digit l = true → l ≠ [] →
  Py.int_digits b acc l = Some (fold_left (fun a c => 10 * a + Py.digit_val c) l acc).
Proof.
  revert b acc. induction l as [|c l IH]; intros b acc; [done|].
  simpl. intros [-> Hl]%andb_prop _.
  destruct l as [|c' l]; [done|]. by apply IH.
Qed.

Lemma digit_not_sign (c : ascii) :
  Py.is_digit c = true → Ascii.eqb c "-" = false ∧ Ascii.eqb c "+" = false.
Proof.
  intros H. split; apply Ascii.eqb_neq; intros ->; discriminate.
Qed.

(** Behind the guard [s.isdigit()], [int(s)] returns the decimal value
    of the digits. *)
Lemma int_isdigit (l : list ascii) :
  Py.isdigit l = true → Py.int l = Ok (Py.decimal l).
Proof.
  unfold Py.isdigit, Py.int, Py.decimal. destruct l as [|c l]; [discriminate|].
  intros H. rewrite (strip_digits _ H).
  pose proof H as [Hc _]%andb_prop. destruct (digit_not_sign c Hc) as [-> ->].
  by rewrite int_digits_all.
Qed.

End PyFacts.

(** ** The regular-expression engine *)

Module ReFacts.
Import Re ReShape.

Lemma orelse_Some {A} (x y : option A) (a : A) :
  orelse x y = Some a → x = Some a ∨ y = Some a.
Proof. destruct x; simpl; auto. Qed.

Lemma consumes_refl r s g :
  nonempty r = false → sets_group r = false → consumes r s g s g.
Proof.
  intros Hn Hs. exists []. rewrite Hn, Hs. repeat split; auto; try discriminate.
Qed.

Lemma forallb_digit_isdigit pre :
  forallb Py.is_digit pre = true → pre ≠ [] → Py.isdigit pre = true.
Proof. destruct pre; [congruence | auto]. Qed.

(** Two matches in a row, seen as one match of [r]. *)
Lemma consumes_trans r1 r2 r s g s1 g1 s2 g2 :
  consumes r1 s g s1 g1 → consumes r2 s1 g1 s2 g2 →
  (digits_only r = true → digits_only r1 = true ∧ digits_only r2 = true) →
  (nonempty r = true → nonempty r1 = true ∨ nonempty r2 = true) →
  (sets_group r = true → sets_group r1 = true ∨ sets_group r2 = true) →
  consumes r s g s2 g2.
Proof.
  intros (p1 & -> & D1 & N1 & G1 & S1 & M1) (p2 & -> & D2 & N2 & G2 & S2 & M2) HD HN HS.
  exists (p1 ++ p2). rewrite <- app_assoc. split; [done|]. repeat split.
  - intros [? ?]%HD. rewrite forallb_app. apply andb_true_intro; auto.
  - intros [?|?]%HN Happ; apply app_eq_nil in Happ as [? ?]; [apply N1|apply N2]; auto.
  - auto.
  - intros [?|?]%HS; auto.
  - auto.
Qed.

Lemma consumes_weaken r1 r s g s' g' :
  consumes r1 s g s' g' →
  (digits_only r = true → digits_only r1 = true) →
  (nonempty r = true → nonempty r1 = true) →
  (sets_group r = true → sets_group r1 = true) →
  consumes r s g s' g'.
Proof.
  intros (p & -> & D & N & G & S & M) HD HN HS.
  exists p. repeat split; auto.
Qed.

Lemma digits_only_groups r : digits_only r = true → groups_numeric r = true.
Proof.
  induction r as [|cc|r1 IH1 r2 IH2|gr r1 IH|gr r1 IH|gr r1 IH|r1 IH]; simpl; auto.
  - intros [? ?]%andb_prop. apply andb_true_intro; auto.
  - discriminate.
Qed.

Section Sound.
Context {A : Type} (ic : bool).
Implicit Types (k : list ascii → capture → option A) (x : A).

Lemma iterate_sound greedy r1 k :
  (∀ s g k x, rmatch ic r1 s g k = Some x →
              ∃ s' g', k s' g' = Some x ∧ consumes r1 s g s' g') →
  ∀ n s g x, iterate greedy (rmatch ic r1) k n s g = Some x →
             ∃ s' g', k s' g' = Some x ∧ consumes (RStar greedy r1) s g s' g'.
Proof.
  intros IH. induction n as [|n IHn]; intros s g x H; simpl in H.
  - exists s, g. split; [done|]. by apply consumes_refl.
  - assert (rmatch ic r1 s g (fun s' g' =>
              if (length s' <? length s)%nat
              then iterate greedy (rmatch ic r1) k n s' g' else None) = Some x
            ∨ k s g = Some x) as [Hmore|Hstop].
    { destruct greedy; apply orelse_Some in H; tauto. }
    + apply IH in Hmore as (s1 & g1 & Hk & Hc).
      destruct (length s1 <? length s)%nat; [|discriminate].
      apply IHn in Hk as (s2 & g2 & Hk & Hc2).
      exists s2, g2. split; [done|].
      eapply consumes_trans; eauto; simpl; auto; discriminate.
    + exists s, g. split; [done|]. by apply consumes_refl.
Qed.

(** Soundness of the matcher: a successful match hands the
    continuation a suffix of the input, and a numeric capture. *)
Lemma rmatch_sound r :
  groups_numeric r = true →
  ∀ s g k x, rmatch ic r s g k = Some x →
             ∃ s' g', k s' g' = Some x ∧ consumes r s g s' g'.
Proof.
  induction r as [|cc|r1 IH1 r2 IH2|gr r1 IH|gr r1 IH|gr r1 IH|r1 IH];
    simpl; intros Hg s g k x H.
  - exists s, g. split; [done|]. by apply consumes_refl.
  - destruct s as [|c s']; [discriminate|].
    destruct (cc_match ic cc c) eqn:Hc; [|discriminate].
    exists s', g. split; [done|]. exists [c]. repeat split; auto; try discriminate.
    destruct cc; simpl; try discriminate. intros _. simpl in Hc. by rewrite Hc.
  - apply andb_prop in Hg as [Hg1 Hg2].
    apply (IH1 Hg1) in H as (s1 & g1 & H & Hc1).
    apply (IH2 Hg2) in H as (s2 & g2 & H & Hc2).
    exists s2, g2. split; [done|].
    eapply consumes_trans; eauto; simpl.
    + intros ?%andb_prop; done.
    + intros ?%orb_prop; done.
    + intros ?%orb_prop; done.
  - eapply iterate_sound; eauto.
  - apply (IH Hg) in H as (s1 & g1 & H & Hc1).
    eapply iterate_sound in H as (s2 & g2 & H & Hc2); [|by apply IH].
    exists s2, g2. split; [done|].
    eapply consumes_trans; eauto; simpl; auto.
  - assert (rmatch ic r1 s g k = Some x ∨ k s g = Some x) as [Hin|Hskip].
    { destruct gr; apply orelse_Some in H; tauto. }
    + apply (IH Hg) in Hin as (s1 & g1 & H1 & Hc1).
      exists s1, g1. split; [done|].
      eapply consumes_weaken; eauto; simpl; discriminate.
    + exists s, g. split; [done|]. by apply consumes_refl.
  - apply andb_prop in Hg as [Hd Hn].
    apply (IH (digits_only_groups _ Hd)) in H as (s1 & g1 & H & Hc1).
    destruct Hc1 as (pre & -> & D & N & G & S & M).
    rewrite length_app, Nat.add_sub, take_app_length in H.
    exists s1, (Some pre). split; [done|].
    exists pre. repeat split; auto; try discriminate.
    intros _. simpl. apply forallb_digit_isdigit; auto.
Qed.
End Sound.

(** [re.search] with a numeric pattern: the match object always has a
    [group(1)], and it is a non-empty digit string. *)
Lemma search_from_numeric ic r pos s m :
  groups_numeric r = true → sets_group r = true →
  search_from ic r pos s = Some m →
  ∃ t, m_group1 m = Some t ∧ Py.isdigit t = true.
Proof.
  intros Hg Hs. revert pos. induction s as [|c s IHs]; intros pos; simpl.
  - destruct (rmatch ic r [] None _) as [[s' g']|] eqn:Hm; [|discriminate].
    intros [= <-]. simpl.
    apply rmatch_sound in Hm as (s1 & g1 & [= -> ->] & (pre & _ & _ & _ & G & S & _)); auto.
    destruct (S Hs) as [t ->]. exists t. split; [done|]. by apply G.
  - destruct (rmatch ic r (c :: s) None _) as [[s' g']|] eqn:Hm.
    + intros [= <-]. simpl.
      apply rmatch_sound in Hm as (s1 & g1 & [= -> ->] & (pre & _ & _ & _ & G & S & _)); auto.
      destruct (S Hs) as [t ->]. exists t. split; [done|]. by apply G.
    + apply IHs.
Qed.

Lemma search_numeric pattern text ic :
  numeric_pattern pattern = true →
  ∃ o, search pattern text ic = Ok o ∧
       ∀ m, o = Some m → ∃ t, m_group1 m = Some t ∧ Py.isdigit t = true.
Proof.
  unfold numeric_pattern, search. destruct (compile pattern) as [r|]; [|discriminate].
  intros [Hg Hs]%andb_prop. eexists. split; [done|].
  intros m Hm. eapply search_from_numeric; eauto.
Qed.

End ReFacts.

(** ** The Pattern Matcher *)
Module RateLimitPatternsFacts.
Import RateLimitPatterns PatternMatcherSpec.
Local Open Scope string_scope.

Lemma limit_value_of_numeric m t :
  Re.m_group1 m = Some t → Py.isdigit t = true →
  limit_value_of m = Ok (Some (Py.decimal t)).
Proof.
  intros Hg Hd. unfold limit_value_of, Re.group1. rewrite Hg. simpl.
  by rewrite Hd, (PyFacts.int_isdigit t Hd).
Qed.

(** One scanning loop over a table of numeric patterns either returns
    the dictionary of the first matching pattern or falls through
    because no pattern matches; it never raises. *)
Lemma scan_spec ty patterns text :
  forallb ReShape.numeric_pattern patterns = true →
  (∃ i, scan ty patterns text (Py.lower text) = Ok (Some i) ∧
        reports ty text i ∧
        first_match patterns (Py.lower text) (pattern_matched i))
  ∨ (scan ty patterns text (Py.lower text) = Ok None ∧
     ∀ q, q ∈ patterns → Re.search q (Py.lower text) true = Ok None).
Proof.
  induction patterns as [|p ps IH]; simpl; intros Hp.
  - right. split; [done|]. intros q Hq. inversion Hq.
  - apply andb_prop in Hp as [Hp Hps].
    destruct (ReFacts.search_numeric p (Py.lower text) true Hp) as (o & Ho & Hnum).
    rewrite Ho. simpl. destruct o as [m|].
    + left. destruct (Hnum m eq_refl) as (t & Hg & Hd).
      rewrite (limit_value_of_numeric m t Hg Hd). simpl.
      eexists. split; [done|]. split.
      * repeat split; simpl. exists m, t. done.
      * exists [], ps. simpl. repeat split; [by exists m|].
        intros q Hq. inversion Hq.
    + destruct (IH Hps) as [(i & Hi & Hr & (before & after & -> & Hm & Hb))|[Hn Hall]].
      * left. exists i. repeat split; try apply Hr; [done|].
        exists (p :: before), after. repeat split; [done|].
        intros q [->|Hq]%elem_of_cons; auto.
      * right. split; [done|].
        intros q [->|Hq]%elem_of_cons; auto.
Qed.

Lemma tables_numeric :
  forallb ReShape.numeric_pattern APPROACHING_PATTERNS = true ∧
  forallb ReShape.numeric_pattern REACHED_PATTERNS = true ∧
  forallb ReShape.numeric_pattern MESSAGE_LIMIT_PATTERNS = true.
Proof. repeat split; vm_compute; reflexivity. Qed.


(** The outcome of [extract_rate_limit_info] on any text, by cases on
    which tables have a matching pattern. *)
Lemma extract_spec text :
  let tl := Py.lower text in
  (∃ i, extract_rate_limit_info text = Ok (Some i) ∧
        reports approaching text i ∧
        first_match APPROACHING_PATTERNS tl (pattern_matched i))
  ∨ (∃ i, extract_rate_limit_info text = Ok (Some i) ∧
          reports reached text i ∧
          first_match REACHED_PATTERNS tl (pattern_matched i) ∧
          ∀ q, q ∈ APPROACHING_PATTERNS → Re.search q tl true = Ok None)
  ∨ (∃ i, extract_rate_limit_info text = Ok (Some i) ∧
          reports message_limit text i ∧
          first_match MESSAGE_LIMIT_PATTERNS tl (pattern_matched i) ∧
          ∀ q, q ∈ (APPROACHING_PATTERNS ++ REACHED_PATTERNS)%list →
               Re.search q tl true = Ok None)
  ∨ (extract_rate_limit_info text = Ok None ∧
     ∀ q, q ∈ (APPROACHING_PATTERNS ++ REACHED_PATTERNS ++ MESSAGE_LIMIT_PATTERNS)%list →
          Re.search q tl true = Ok None).
Proof.
  intros tl. subst tl. unfold extract_rate_limit_info.
  destruct tables_numeric as (Ha & Hr & Hm).
  destruct (scan_spec approaching _ text Ha) as [(i & -> & Hrep & Hfirst)|[-> Hna]];
    cbn [mbind result_bind mret result_ret].
  { left. exists i. split; [reflexivity|]. split; assumption. }
  destruct (scan_spec reached _ text Hr) as [(i & -> & Hrep & Hfirst)|[-> Hnr]];
    cbn [mbind result_bind mret result_ret].
  { right; left. exists i. split; [reflexivity|]. do 2 (split; [assumption|]). assumption. }
  destruct (scan_spec message_limit _ text Hm) as [(i & Hi & Hrep & Hfirst)|[Hi Hnm]].
  { right; right; left. exists i. do 3 (split; [assumption|]).
    intros q [?|?]%elem_of_app; auto. }
  right; right; right. split; [assumption|].
  intros q [?|[?|?]%elem_of_app]%elem_of_app; auto.
Qed.

End RateLimitPatternsFacts.

Module PatternMatcherClaims.
Import RateLimitPatterns PatternMatcherSpec RateLimitPatternsFacts.
Local Open Scope string_scope.



(** C3. Whenever a match is reported, [limit_value] is the decimal
    value of the digits captured by group 1 of the reported pattern; and
    the three lines of the specification give the stated results. *)
Theorem limit_value_is_captured_integer :
  (∀ text i,
     extract_rate_limit_info text = Ok (Some i) →
     ∃ m digits,
       Re.search (pattern_matched i) (Py.lower text) true = Ok (Some m) ∧
       Re.m_group1 m = Some digits ∧
       Py.isdigit digits = true ∧
       limit_value i = Some (Py.decimal digits)) ∧
  (∃ i, extract_rate_limit_info "RATE LIMIT REACHED|19000" = Ok (Some i) ∧
        type i = reached ∧ limit_value i = Some 19000%Z) ∧
  (∃ i, extract_rate_limit_info "Rate limit approaching, 5000 tokens remaining"
          = Ok (Some i) ∧
        type i = approaching ∧ limit_value i = Some 5000%Z) ∧
  extract_rate_limit_info "No rate limit information here" = Ok None.
Proof.
  split; [|split; [|split]].
  - intros text i He.
    destruct (extract_spec text)
      as [(j & Hj & (_ & _ & Hr) & _)
         |[(j & Hj & (_ & _ & Hr) & _)
          |[(j & Hj & (_ & _ & Hr) & _)
           |(Hj & _)]]]; rewrite Hj in He.
    4: discriminate He.
    all: injection He as <-; exact Hr.
  - eexists. split; [vm_compute; reflexivity|]. split; reflexivity.
  - eexists. split; [vm_compute; reflexivity|]. split; reflexivity.
  - vm_compute. reflexivity.
Qed.

Lemma limit_value_is_captured_integer_witness :
  ∃ m digits,
    Re.search "rate\s*limit.*?reached.*?(\d+)" (Py.lower "RATE LIMIT REACHED|19000") true
      = Ok (Some m) ∧
    Re.m_group1 m = Some digits ∧
    Py.isdigit digits = true ∧
    Some 19000%Z = Some (Py.decimal digits).
Proof.
  apply (proj1 limit_value_is_captured_integer "RATE LIMIT REACHED|19000"
           {| type := reached; limit_value := Some 19000%Z;
              raw_text := "RATE LIMIT REACHED|19000";
              pattern_matched := "rate\s*limit.*?reached.*?(\d+)" |}).
  vm_compute. reflexivity.
Defined.


End PatternMatcherClaims.

(** ** The Session Metrics Tracker *)
Module SessionMetricsFacts.
Import SessionMetrics SessionMetricsSpec.

Lemma sum_from (l : list Z) (a : Z) : fold_left Z.add l a = a + total l.
Proof.
  revert a. induction l as [|v l IH]; intros a; simpl; [lia|].
  rewrite IH. unfold total. lia.
Qed.

Lemma sum_total (l : list Z) : sum l = total l.
Proof. unfold sum. rewrite sum_from. lia. Qed.

Lemma max_from (l : list Z) (a : Z) : fold_left Z.max l a = foldr Z.max a l.
Proof.
  revert a. induction l as [|v l IH]; intros a; simpl; [done|].
  rewrite IH. clear IH. induction l as [|w l IH]; simpl; lia.
Qed.

Lemma max_largest (l : list Z) : foldr Z.max 0 l = Z.max 0 (largest l).
Proof.
  destruct l as [|v l]; simpl; [done|].
  induction l as [|w l IH]; simpl; lia.
Qed.

Lemma foldr_max_upper (l : list Z) (a v : Z) : v ∈ a :: l → v ≤ foldr Z.max a l.
Proof.
  induction l as [|u l IH]; simpl.
  - intros ->%list_elem_of_singleton. lia.
  - intros Hv. apply elem_of_cons in Hv as [Hv|Hv].
    + subst v. specialize (IH (list_elem_of_here _ _)). lia.
    + apply elem_of_cons in Hv as [Hv|Hv]; [lia|].
      specialize (IH (list_elem_of_further _ _ _ Hv)). lia.
Qed.

Lemma largest_upper (l : list Z) (v : Z) : v ∈ l → v ≤ largest l.
Proof.
  destruct l as [|w l]; [by intros ?%elem_of_nil|]. apply foldr_max_upper.
Qed.

Lemma messages_added_cons (c : call) (calls : list call) :
  messages_added (c :: calls) =
  (match c with AddMessage => 1 | _ => 0 end) + messages_added calls.
Proof.
  unfold messages_added. destruct c; cbn [omap list_omap length];
    rewrite ?Nat2Z.inj_succ; lia.
Qed.

(** What a sequence of calls does to each field. *)
Lemma run_fields (calls : list call) (s : t) :
  session_id (run calls s) = session_id s ∧
  project_path (run calls s) = project_path s ∧
  start_time (run calls s) = start_time s ∧
  cost_accumulator (run calls s) = cost_accumulator s ∧
  token_usage (run calls s) = token_usage s ++ tokens_passed calls ∧
  peak_token_usage (run calls s) =
    fold_left Z.max (tokens_passed calls) (peak_token_usage s) ∧
  message_count (run calls s) = message_count s + messages_added calls ∧
  (peak_message_count s = message_count s →
   peak_message_count (run calls s) = message_count (run calls s)).
Proof.
  revert s. induction calls as [|c calls IH]; intros s.
  - unfold messages_added. simpl. rewrite app_nil_r. repeat split; auto; lia.
  - change (run (c :: calls) s) with (run calls (apply c s)).
    destruct (IH (apply c s)) as (H1 & H2 & H3 & H4 & H5 & H6 & H7 & H8).
    rewrite H1, H2, H3, H4, H5, H6. clear H1 H2 H3 H4 H5 H6 IH.
    split; [by destruct c|]. split; [by destruct c|].
    split; [by destruct c|]. split; [by destruct c|].
    split; [destruct c; simpl; by rewrite <- ?app_assoc, ?app_nil_r|].
    split; [by destruct c|].
    split; [rewrite H7, messages_added_cons; destruct c; simpl; lia|].
    intros Hp. apply H8. destruct c; simpl; lia.
Qed.

End SessionMetricsFacts.

Module SessionMetricsClaims.
Import SessionMetrics SessionMetricsSpec SessionMetricsFacts.

(** C7, as stated, fails: two calls of [get_current_metrics] with no
    mutation in between read the clock at different times and differ in
    ["elapsed_time"]. *)
Lemma second_projection_differs :
  let s := run [AddTokenUsage 1000] (init "test_session_001"%string "/test/project/path"%string 0) in
  let r1 := get_current_metrics 1 s in
  let r2 := get_current_metrics 2 r1.2 in
  r1.2 = s ∧ r2.1 ≠ r1.1 ∧ ¬ (elapsed_time r2.1 == elapsed_time r1.1)%Q.
Proof.
  cbv zeta. split; [reflexivity|]. split.
  - intros H. apply (f_equal elapsed_time) in H. vm_compute in H. discriminate.
  - vm_compute. discriminate.
Qed.

(** C7, amended. After any sequence of calls on a new object,
    ["total_tokens"] is the sum of the values passed to
    [add_token_usage]; [get_current_metrics] leaves the object as it was;
    and a second call without mutation in between returns the same
    dictionary except for ["elapsed_time"], which is each call's clock
    reading minus the start time (so the two dictionaries are identical
    when the clock readings are). *)
Theorem total_tokens_is_sum_and_projection_is_pure
    (sid path : string) (t0 : Q) (calls : list call) (now1 now2 : Q) :
  let s := run calls (init sid path t0) in
  let r1 := get_current_metrics now1 s in
  let r2 := get_current_metrics now2 r1.2 in
  total_tokens r1.1 = total (tokens_passed calls) ∧
  r1.2 = s ∧ r2.2 = s ∧
  elapsed_time r1.1 = (now1 - t0)%Q ∧
  elapsed_time r2.1 = (now2 - t0)%Q ∧
  m_session_id r2.1 = m_session_id r1.1 ∧
  m_project_path r2.1 = m_project_path r1.1 ∧
  total_tokens r2.1 = total_tokens r1.1 ∧
  m_peak_token_usage r2.1 = m_peak_token_usage r1.1 ∧
  m_message_count r2.1 = m_message_count r1.1 ∧
  m_peak_message_count r2.1 = m_peak_message_count r1.1 ∧
  m_rate_limit_events r2.1 = m_rate_limit_events r1.1 ∧
  cost_estimate r2.1 = cost_estimate r1.1 ∧
  (now1 = now2 → r2.1 = r1.1).
Proof.
  cbv zeta. simpl.
  destruct (run_fields calls (init sid path t0)) as (_ & _ & Hs & _ & Ht & _).
  rewrite Hs, Ht. simpl. rewrite sum_total.
  repeat split; auto. by intros ->.
Qed.

Lemma total_tokens_is_sum_and_projection_is_pure_witness :
  let s := run [AddTokenUsage 1000; AddTokenUsage 1500; AddTokenUsage 800; AddMessage]
             (init "test_session_001"%string "/test/project/path"%string 0) in
  total_tokens (get_current_metrics 7 s).1 = 3300 ∧
  (get_current_metrics 7 (get_current_metrics 7 s).2).1 = (get_current_metrics 7 s).1.
Proof.
  pose proof (total_tokens_is_sum_and_projection_is_pure
                "test_session_001"%string "/test/project/path"%string 0
                [AddTokenUsage 1000; AddTokenUsage 1500; AddTokenUsage 800; AddMessage]
                7 7) as H.
  cbv zeta in *.
  destruct H as (Ht & _ & _ & _ & _ & _ & _ & _ & _ & _ & _ & _ & _ & Hsame).
  split; [exact Ht | exact (Hsame eq_refl)].
Defined.

(** C10, as stated, fails: the peak starts at 0, so after a negative
    value it is 0 and not the largest value passed. *)
Lemma peak_is_not_largest_negative :
  peak_token_usage (run [AddTokenUsage (-5)] (init "s"%string "/p"%string 0))
    ≠ largest (tokens_passed [AddTokenUsage (-5)]).
Proof. vm_compute. discriminate. Qed.

(** C10, amended. After any sequence of calls on a new object,
    [peak_token_usage] is the larger of 0 and the largest single value
    passed to [add_token_usage]: it bounds every value passed, and it is
    the largest single value whenever none or a non-negative one was
    passed; [peak_message_count] equals [message_count], the number of
    [add_message] calls; and [get_current_metrics] reports these fields. *)
Theorem peaks_after_calls (sid path : string) (t0 : Q) (calls : list call) (now : Q) :
  let s := run calls (init sid path t0) in
  let vs := tokens_passed calls in
  peak_token_usage s = Z.max 0 (largest vs) ∧
  (∀ v, v ∈ vs → v ≤ peak_token_usage s) ∧
  (vs = [] ∨ (∃ v, v ∈ vs ∧ 0 ≤ v) → peak_token_usage s = largest vs) ∧
  peak_message_count s = message_count s ∧
  message_count s = messages_added calls ∧
  m_peak_token_usage (get_current_metrics now s).1 = peak_token_usage s ∧
  m_peak_message_count (get_current_metrics now s).1
    = m_message_count (get_current_metrics now s).1.
Proof.
  cbv zeta.
  destruct (run_fields calls (init sid path t0)) as (_ & _ & _ & _ & _ & Hp & Hm & Hpm).
  simpl in Hp, Hm, Hpm. specialize (Hpm eq_refl).
  rewrite max_from, max_largest in Hp.
  split; [exact Hp|]. split; [|split; [|split; [|split; [|split]]]].
  - intros v Hv. apply largest_upper in Hv. lia.
  - intros [Hnil|(v & Hv & Hpos)].
    + rewrite Hp, Hnil. reflexivity.
    + apply largest_upper in Hv. lia.
  - exact Hpm.
  - lia.
  - reflexivity.
  - simpl. exact Hpm.
Qed.

Lemma peaks_after_calls_witness :
  let s := run [AddTokenUsage 1000; AddTokenUsage 1500; AddTokenUsage 800;
                AddMessage; AddMessage]
             (init "test_session_001"%string "/test/project/path"%string 0) in
  peak_token_usage s = 1500 ∧ peak_message_count s = 2 ∧ message_count s = 2.
Proof.
  pose proof (peaks_after_calls "test_session_001"%string "/test/project/path"%string 0
                [AddTokenUsage 1000; AddTokenUsage 1500; AddTokenUsage 800;
                 AddMessage; AddMessage] 0) as H.
  cbv zeta in *.
  destruct H as (_ & _ & Hl & Hpm & Hm & _).
  split; [|split].
  - apply Hl. right. exists 1000. split; [apply list_elem_of_here | lia].
  - rewrite Hpm. exact Hm.
  - exact Hm.
Defined.

End SessionMetricsClaims.

(** ** The persistence layer under engine faults *)
Module SqliteFacts.
Import Sqlite SqliteSpec.

Lemma quiet_inv f fs : quiet (f :: fs) → f = None ∧ quiet fs.
Proof. intros H. by inversion H. Qed.

Lemma fails_within_nil n : ¬ fails_within n [].
Proof. intros (i & e & _ & H). by rewrite lookup_nil in H. Qed.

Lemma fails_within_0 fs : ¬ fails_within 0 fs.
Proof. intros (i & e & H & _). lia. Qed.

Lemma fails_within_None n fs : fails_within (S n) (None :: fs) → fails_within n fs.
Proof.
  intros (i & e & Hi & H). destruct i as [|i]; [discriminate|].
  exists i, e. split; [lia | exact H].
Qed.

Lemma bind_run {DB MEM A B} (m : M DB MEM A) (f : A → M DB MEM B) (w : world DB MEM) :
  (m ≫= f) w =
  match m w with
  | (Ok a, w') => f a w'
  | (Raised e, w') => (Raised e, w')
  end.
Proof. reflexivity. Qed.

End SqliteFacts.

Ltac fault_cases :=
  repeat match goal with
         | H : SqliteSpec.quiet (_ :: _) |- _ =>
             apply SqliteFacts.quiet_inv in H as [-> H]
         | H : SqliteSpec.fails_within _ [] |- _ =>
             destruct (SqliteFacts.fails_within_nil _ H)
         | H : SqliteSpec.fails_within 0 _ |- _ =>
             destruct (SqliteFacts.fails_within_0 _ H)
         | H : SqliteSpec.fails_within (S _) (None :: _) |- _ =>
             apply SqliteFacts.fails_within_None in H
         end.

(** ** The Learning Updater *)
Module LearningFacts.
Import Sqlite SqliteSpec SqliteFacts EnhancedProxyMonitor LearningSpec.






(** [update_plan_limit] always returns; it touches neither the caller's
    memory nor the event table; without an engine error it replaces the
    row, and with one it leaves the tables alone, logs the error and has
    made a single attempt. *)
Lemma update_plan_limit_spec {MEM} (w : world DatabaseManager.tables MEM)
    (now plan_name : string) (token_limit message_limit : option Z) :
  let r := DatabaseManager.update_plan_limit now plan_name token_limit message_limit w in
  r.1 = Ok tt ∧ mem r.2 = mem w ∧
  (quiet (faults w) →
     DatabaseManager.plan_limits (db r.2) =
       <[plan_name := written now token_limit message_limit]>
         (DatabaseManager.plan_limits (db w)) ∧
     DatabaseManager.rate_limit_events (db r.2) =
       DatabaseManager.rate_limit_events (db w) ∧
     log r.2 = log w ∧ quiet (faults r.2) ∧
     calls r.2 = calls w ++ [Connect; Execute InsertOrReplacePlanLimit; Commit]) ∧
  (fails_within 3 (faults w) →
     db r.2 = db w ∧
     (∃ e, log r.2 = log w ++ [update_failed plan_name e]) ∧
     (∃ tr, calls r.2 = calls w ++ tr ∧
            single_attempt [Connect] InsertOrReplacePlanLimit tr)).
Proof.
  destruct w as [d m l c fs]. cbv zeta.
  split; [|split; [|split]].
  - destruct fs as [|[e1|] [|[e2|] [|[e3|] fs]]]; reflexivity.
  - destruct fs as [|[e1|] [|[e2|] [|[e3|] fs]]]; reflexivity.
  - cbn [faults db log calls]. intros Hq.
    destruct fs as [|f1 [|f2 [|f3 fs]]]; fault_cases; simpl; rewrite <- ?app_assoc.
    all: repeat split; try reflexivity; try exact Hq; try constructor.
  - cbn [faults db log calls]. intros Hf. unfold single_attempt.
    destruct fs as [|[e1|] [|[e2|] [|[e3|] fs]]]; fault_cases; simpl; rewrite <- ?app_assoc.
    all: split; [reflexivity|]; split; [eexists; reflexivity|].
    all: eexists; split; [reflexivity|].
    all: try (by eexists).
Qed.

Lemma get_plan_limit_quiet {MEM} (w : world DatabaseManager.tables MEM)
    (plan_name : string) :
  quiet (faults w) →
  ∃ w1, DatabaseManager.get_plan_limit plan_name w = (Ok (stored (db w) plan_name), w1) ∧
        db w1 = db w ∧ mem w1 = mem w ∧ log w1 = log w ∧ quiet (faults w1).
Proof.
  destruct w as [d m l c fs]. cbn [faults db log calls mem]. intros Hq.
  destruct fs as [|f1 [|f2 fs]]; fault_cases; eexists; (split; [reflexivity|]);
    repeat split; try exact Hq; constructor.
Qed.


End LearningFacts.

Module LearningClaims.
Import Sqlite SqliteSpec SqliteFacts EnhancedProxyMonitor LearningSpec LearningFacts.






End LearningClaims.

(** ** Failure of a plan-limit write *)
Module PersistenceFailureFacts.
Import Sqlite SqliteSpec SqliteFacts EnhancedProxyMonitor LearningSpec LearningFacts.




End PersistenceFailureFacts.

Module PersistenceFailureClaims.
Import Sqlite SqliteSpec SqliteFacts EnhancedProxyMonitor LearningSpec LearningFacts
  PersistenceFailureFacts.



End PersistenceFailureClaims.

(** ** The foreign-key constraint of the enhanced schema *)
Module ForeignKeyFacts.
Import Sqlite SqliteSpec SqliteFacts EnhancedDatabaseManager.

Section Generic.
Context {DB MEM : Type}.
Local Abbreviation M := (Sqlite.M DB MEM).

Lemma keeps_db_ret {A} (a : A) : keeps_db (mret a : M A).
Proof. by intros w. Qed.

Lemma keeps_db_bind {A B} (m : M A) (f : A → M B) :
  keeps_db m → (∀ a, keeps_db (f a)) → keeps_db (m ≫= f).
Proof.
  intros Hm Hf w. rewrite bind_run. specialize (Hm w).
  destruct (m w) as [[a|e] w']; simpl in *; [|done]. by rewrite Hf.
Qed.

Lemma keeps_db_engine c : keeps_db (engine c : M unit).
Proof. intros w. unfold engine. by destruct (faults w) as [|[e|] fs]. Qed.

Lemma keeps_db_logger l msg e : keeps_db (logger l msg e : M unit).
Proof. by intros w. Qed.

Lemma keeps_db_lift {A} (r : result A) : keeps_db (lift r : M A).
Proof. by intros w. Qed.

Lemma keeps_db_try {A} (body : M A) handler :
  keeps_db body → (∀ e, keeps_db (handler e)) → keeps_db (try_sqlite body handler).
Proof.
  intros Hb Hh w. unfold try_sqlite. specialize (Hb w).
  destruct (body w) as [[a|[| | | |e]] w']; simpl in *; try done. by rewrite Hh.
Qed.

(** A handler that only logs does not change what the body did to the
    tables. *)
Lemma try_sqlite_db {A} (body : M A) handler w :
  (∀ e, keeps_db (handler e)) →
  db (try_sqlite body handler w).2 = db (body w).2.
Proof.
  intros Hh. unfold try_sqlite.
  destruct (body w) as [[a|[| | | |e]] w']; simpl; try done. by rewrite Hh.
Qed.

(** A transaction either leaves the tables as they were, or commits the
    view that its statements produced on a connection that
    [get_connection] returned. *)
Lemma transaction_db (get_connection : M connection) work w :
  keeps_db get_connection → (∀ conn d, keeps_db (work conn d)) →
  db (transaction get_connection work w).2 = db w ∨
  ∃ conn w1 w2 d',
    get_connection w = (Ok conn, w1) ∧ work conn (db w) w1 = (Ok d', w2) ∧
    db (transaction get_connection work w).2 = d'.
Proof.
  intros Hg Hw. unfold transaction. rewrite bind_run.
  pose proof (Hg w) as Hg1.
  destruct (get_connection w) as [[conn|e] w1] eqn:Hgc; simpl in Hg1; [|by left].
  rewrite bind_run. cbn [get_db]. rewrite bind_run, Hg1.
  pose proof (Hw conn (db w) w1) as Hw1.
  destruct (work conn (db w) w1) as [[d'|e] w2] eqn:Hwork; simpl in Hw1;
    [|left; simpl; congruence].
  rewrite bind_run.
  pose proof (keeps_db_engine Commit w2) as Hc.
  destruct (engine Commit w2) as [[[]|e] w3]; simpl in Hc.
  - right. exists conn, w1, w2, d'. done.
  - left. simpl. congruence.
Qed.

(** Inversion of a successful run, one step at a time. *)
Lemma engine_then_Ok {A} c (k : M A) w a w' :
  (engine c ≫= λ _, k) w = (Ok a, w') → ∃ w1, k w1 = (Ok a, w').
Proof.
  rewrite bind_run. destruct (engine c w) as [[[]|e] w1]; [|discriminate]. eauto.
Qed.

Lemma lift_then_Ok {A B} (r : result A) (k : A → M B) w b w' :
  (lift r ≫= k) w = (Ok b, w') → ∃ a, r = Ok a ∧ k a w = (Ok b, w').
Proof.
  rewrite bind_run. unfold lift. destruct r as [a|e]; [|discriminate]. eauto.
Qed.

Lemma ret_Ok {A} (a b : A) (w w' : world DB MEM) :
  (mret a : M A) w = (Ok b, w') → a = b.
Proof. by intros [= ->]. Qed.

End Generic.

Create HintDb keeps.
#[global] Hint Resolve keeps_db_ret keeps_db_engine keeps_db_logger keeps_db_lift : keeps.
#[global] Hint Extern 2 (keeps_db (_ ≫= _)) => apply keeps_db_bind; [|intros] : keeps.
#[global] Hint Extern 2 (keeps_db (try_sqlite _ _)) => apply keeps_db_try; [|intros] : keeps.

Section Enhanced.
Context {MEM : Type}.
Local Abbreviation M := (Sqlite.M tables MEM).
Implicit Types (w : world tables MEM) (d : tables).

Lemma get_connection_keeps : keeps_db (_get_connection : M connection).
Proof. unfold _get_connection. auto with keeps. Qed.

(** Every connection the manager hands out enforces foreign keys. *)
Lemma get_connection_enforces w conn w1 :
  _get_connection w = (Ok conn, w1) → foreign_keys conn = true.
Proof.
  unfold _get_connection. intros H.
  apply engine_then_Ok in H as (w2 & H). apply engine_then_Ok in H as (w3 & H).
  by apply ret_Ok in H as <-.
Qed.



Lemma referenced_terminal d r :
  r ∈ terminal_sessions d → referenced d (ts_session_id r) = true.
Proof.
  intros Hr. unfold referenced. apply orb_true_intro. right.
  apply existsb_exists. exists r. split; [by apply list_elem_of_In|]. apply String.eqb_refl.
Qed.




(** Steps of a transaction's statements that keep the tables. *)
Ltac keeps := unfold keeps_db; intros; repeat first
  [ apply get_connection_keeps | apply keeps_db_engine | apply keeps_db_logger
  | apply keeps_db_lift | apply keeps_db_ret
  | apply keeps_db_bind; [|intros] | apply keeps_db_try; [|intros] ].












End Enhanced.

End ForeignKeyFacts.

Module ForeignKeyClaims.
Import Sqlite SqliteSpec SqliteFacts EnhancedDatabaseManager LearningSpec ForeignKeySpec
  ForeignKeyFacts.
Local Open Scope string_scope.



End ForeignKeyClaims.

(** ** The isolation key *)
Module SessionDetectorFacts.
Import SessionDetector SessionDetectorSpec.

Lemma chars_app (s1 s2 : string) : Py.chars (s1 +:+ s2) = Py.chars s1 ++ Py.chars s2.
Proof. induction s1 as [|c s1 IH]; simpl; [done|]. by rewrite <- IH. Qed.

Lemma chars_inj (s1 s2 : string) : Py.chars s1 = Py.chars s2 → s1 = s2.
Proof.
  intros H. rewrite <- (string_of_list_ascii_of_string s1),
    <- (string_of_list_ascii_of_string s2). unfold Py.chars in H. by rewrite H.
Qed.

(** Cutting at the first separator is unambiguous when the part before
    it has none. *)
Lemma split_first (a a' r r' : list ascii) :
  no_colon a = true → no_colon a' = true →
  a ++ ":"%char :: r = a' ++ ":"%char :: r' → a = a' ∧ r = r'.
Proof.
  revert a'. induction a as [|c a IH]; intros [|c' a']; simpl.
  - intros _ _ [= ->]. done.
  - intros _ [Hc _]%andb_prop [= <- _]. discriminate.
  - intros [Hc _]%andb_prop _ [= -> _]. discriminate.
  - intros [_ Ha]%andb_prop [_ Ha']%andb_prop [= -> H].
    destruct (IH a' Ha Ha' H) as [-> ->]. done.
Qed.

Lemma no_colon_rev (l : list ascii) : no_colon (rev l) = no_colon l.
Proof.
  unfold no_colon. induction l as [|c l IH]; simpl; [done|].
  rewrite forallb_app, IH. simpl. rewrite andb_true_r. apply andb_comm.
Qed.

(** The same at the last separator. *)
Lemma split_last (a a' r r' : list ascii) :
  no_colon a = true → no_colon a' = true →
  r ++ ":"%char :: a = r' ++ ":"%char :: a' → r = r' ∧ a = a'.
Proof.
  intros Ha Ha' H. apply (f_equal (@rev ascii)) in H.
  rewrite !rev_app_distr in H. simpl in H. rewrite <- !app_assoc in H. simpl in H.
  apply split_first in H as [H1 H2]; [|by rewrite no_colon_rev..].
  apply (f_equal (@rev ascii)) in H1, H2. rewrite !rev_involutive in H1, H2. done.
Qed.

(** Five parts joined by the separator can be told apart when all but
    the second have no separator inside. *)
Lemma split_key (t c u h p t' c' u' h' p' : list ascii) :
  no_colon t = true → no_colon u = true → no_colon h = true → no_colon p = true →
  no_colon t' = true → no_colon u' = true → no_colon h' = true → no_colon p' = true →
  t ++ ":"%char :: c ++ ":"%char :: u ++ ":"%char :: h ++ ":"%char :: p =
  t' ++ ":"%char :: c' ++ ":"%char :: u' ++ ":"%char :: h' ++ ":"%char :: p' →
  t = t' ∧ c = c' ∧ u = u' ∧ h = h' ∧ p = p'.
Proof.
  intros Ht Hu Hh Hp Ht' Hu' Hh' Hp' H.
  apply split_first in H as [-> H]; [|done..].
  assert (E3 : ∀ c u h p : list ascii,
            c ++ ":"%char :: u ++ ":"%char :: h ++ ":"%char :: p =
            (c ++ ":"%char :: u ++ ":"%char :: h) ++ ":"%char :: p).
  { intros. rewrite <- !app_assoc. simpl. by rewrite <- !app_assoc. }
  rewrite !E3 in H. apply split_last in H as [H ->]; [|done..].
  assert (E2 : ∀ c u h : list ascii,
            c ++ ":"%char :: u ++ ":"%char :: h = (c ++ ":"%char :: u) ++ ":"%char :: h).
  { intros. by rewrite <- !app_assoc. }
  rewrite !E2 in H. apply split_last in H as [H ->]; [|done..].
  apply split_last in H as [-> ->]; done.
Qed.

Lemma uint_digits_no_colon (d : Decimal.uint) :
  colon_free (NilEmpty.string_of_uint d) = true.
Proof. induction d; simpl; auto. Qed.

(** [str] of an integer has no [":"], and determines the integer. *)
Lemma str_of_int_colon_free (n : Z) : colon_free (Py.str_of_int n) = true.
Proof.
  assert (H : ∀ d, colon_free (NilZero.string_of_uint d) = true).
  { intros d. destruct d; try reflexivity; apply (uint_digits_no_colon (_ d)). }
  unfold Py.str_of_int, NilZero.string_of_int.
  destruct (Z.to_int n) as [d|d]; [apply H|].
  change (colon_free (NilZero.string_of_uint d) = true). apply H.
Qed.

Lemma to_int_proper (n : Z) : Z.to_int n ≠ Decimal.Pos Decimal.Nil ∧ Z.to_int n ≠ Decimal.Neg Decimal.Nil.
Proof.
  destruct n as [|p|p]; simpl; split; try discriminate;
    intros [= H]; by apply DecimalPos.Unsigned.to_uint_nonnil in H.
Qed.

Lemma str_of_int_inj (n n' : Z) : Py.str_of_int n = Py.str_of_int n' → n = n'.
Proof.
  unfold Py.str_of_int. intros H. apply DecimalZ.to_int_inj.
  destruct (to_int_proper n) as [Hp Hn], (to_int_proper n') as [Hp' Hn'].
  apply (f_equal NilZero.int_of_string) in H.
  rewrite !NilZero.isi in H by done. by injection H.
Qed.

End SessionDetectorFacts.

Module SessionDetectorClaims.
Import SessionDetector SessionDetectorSpec SessionDetectorFacts.
Local Open Scope string_scope.

(** C9, as stated, fails: the components are joined with [":"] and may
    contain it, so two contexts that differ in user and host name get the
    same key. *)
Lemma isolation_key_collision :
  let a := example_context "tty1" None "a:b" "c" 4242 in
  let b := example_context "tty1" None "a" "b:c" 4242 in
  isolation_key a = _generate_isolation_key a ∧
  isolation_key b = _generate_isolation_key b ∧
  isolation_key a = isolation_key b ∧
  user a ≠ user b ∧ hostname a ≠ hostname b.
Proof. cbv zeta. repeat split; try reflexivity; discriminate. Qed.

(** C9, amended. When the terminal device, the user and the host name
    contain no [":"], two contexts have the same generated isolation key
    exactly when their five components agree: terminal device, ssh
    connection (["local"] when absent or empty), user, host name and
    process id. *)
Theorem isolation_key_determines_components (a b : SessionContext) :
  colon_free (terminal_device a) = true →
  colon_free (user a) = true →
  colon_free (hostname a) = true →
  colon_free (terminal_device b) = true →
  colon_free (user b) = true →
  colon_free (hostname b) = true →
  _generate_isolation_key a = _generate_isolation_key b ↔
  terminal_device a = terminal_device b ∧
  connection_component a = connection_component b ∧
  user a = user b ∧
  hostname a = hostname b ∧
  process_id a = process_id b.
Proof.
  intros Ht Hu Hh Ht' Hu' Hh'. unfold _generate_isolation_key, components. split.
  - intros H. apply (f_equal Py.chars) in H. simpl in H.
    rewrite !chars_app in H. simpl in H.
    apply split_key in H as (Htd & Hc & Hus & Hho & Hp);
      try done; try apply str_of_int_colon_free.
    apply chars_inj in Htd, Hc, Hus, Hho, Hp. apply str_of_int_inj in Hp. done.
  - intros (-> & -> & -> & -> & ->). reflexivity.
Qed.

Lemma isolation_key_determines_components_witness :
  _generate_isolation_key
    (example_context "3" (Some "ssh_client:10.0.0.5 51000 22") "herb" "watchtower" 4242)
  = "3:ssh_client:10.0.0.5 51000 22:herb:watchtower:4242" ∧
  (_generate_isolation_key
     (example_context "3" (Some "ssh_client:10.0.0.5 51000 22") "herb" "watchtower" 4242)
   = _generate_isolation_key
       (example_context "3" (Some "ssh_client:10.0.0.5 51000 22") "herb" "watchtower" 4243)
   → False).
Proof.
  split; [reflexivity|]. intros H.
  apply (isolation_key_determines_components
           (example_context "3" (Some "ssh_client:10.0.0.5 51000 22") "herb"
              "watchtower" 4242)
           (example_context "3" (Some "ssh_client:10.0.0.5 51000 22") "herb"
              "watchtower" 4243)) in H; try reflexivity.
  destruct H as (_ & _ & _ & _ & H). discriminate H.
Defined.

End SessionDetectorClaims.

(** ** The Learning Updater: bounds, failures and routing *)
Module LearningUpdaterFacts.
Import Sqlite SqliteSpec SqliteFacts EnhancedProxyMonitor LearningSpec LearningFacts UpdaterSpec.






(** [get_plan_limit] under any engine: it returns, and leaves tables and
    memory alone; with an error in its two engine calls it answers
    [None]. *)
Lemma get_plan_limit_spec {MEM} (w : world DatabaseManager.tables MEM) (plan_name : string) :
  ∃ r w1, DatabaseManager.get_plan_limit plan_name w = (Ok r, w1) ∧
          db w1 = db w ∧ mem w1 = mem w ∧
          (fails_within 2 (faults w) →
             r = None ∧ ∃ e, log w1 = log w ++ [retrieve_failed plan_name e]).
Proof.
  destruct w as [d m l c fs]. cbn [faults db log calls mem].
  destruct fs as [|[e1|] [|[e2|] fs]]; do 2 eexists; (split; [reflexivity|]);
    (split; [reflexivity|]); (split; [reflexivity|]); intros Hf; fault_cases;
    (split; [reflexivity|]); eexists; reflexivity.
Qed.


Lemma update_plan_limit_frame {MEM} (w : world DatabaseManager.tables MEM)
    (now plan_name : string) (token_limit message_limit : option Z) :
  let r := DatabaseManager.update_plan_limit now plan_name token_limit message_limit w in
  r.1 = Ok tt ∧ mem r.2 = mem w ∧
  DatabaseManager.rate_limit_events (db r.2) = DatabaseManager.rate_limit_events (db w).
Proof.
  destruct w as [d m l c fs]. cbv zeta.
  destruct fs as [|[e1|] [|[e2|] [|[e3|] fs]]]; repeat split.
Qed.

Lemma store_learned_limit_frame (w : world DatabaseManager.tables memory)
    (now plan_type : string) (k : limit_kind) (observed : Z)
    (session_metrics : SessionMetrics.metrics) :
  let r := _store_learned_limit now plan_type k observed session_metrics w in
  mem r.2 = mem w ∧
  DatabaseManager.rate_limit_events (db r.2) = DatabaseManager.rate_limit_events (db w) ∧
  (r.1 = Ok tt ∨ r.1 = Raised TypeError ∧ db r.2 = db w).
Proof.
  cbv zeta. unfold _store_learned_limit.
  destruct (get_plan_limit_spec w plan_type) as (ex & w1 & Hget & Hd1 & Hm1 & _).
  rewrite bind_run, Hget, bind_run.
  destruct (get_limit ex k observed) as [existing|]; cbn [mret M_ret];
    [|unfold raise; simpl; rewrite Hm1, Hd1; auto].
  rewrite bind_run.
  destruct k.
  all: match goal with
  | |- context [DatabaseManager.update_plan_limit ?a ?b ?c ?d ?w0] =>
      destruct (update_plan_limit_frame w0 a b c d) as (Hr & Hm2 & He2);
      destruct (DatabaseManager.update_plan_limit a b c d w0) as [[[]|e] w2]
  end.
  all: simpl in Hr; try discriminate Hr.
  all: simpl in *; rewrite Hm2, He2, Hm1, Hd1; auto.
Qed.

Lemma update_intelligent_limits_frame (w : world DatabaseManager.tables memory)
    (clock : Q) (now : string) (session : SessionMetrics.t)
    (info : RateLimitPatterns.info) :
  let r := _update_intelligent_limits clock now session info w in
  r.1 = Ok tt ∧ mem r.2 = mem w ∧
  DatabaseManager.rate_limit_events (db r.2) = DatabaseManager.rate_limit_events (db w).
Proof.
  cbv zeta. unfold _update_intelligent_limits, try_exception.
  destruct (truthy (RateLimitPatterns.limit_value info)) as [v|]; [|done].
  match goal with
  | |- context [_store_learned_limit ?a ?b ?c ?d ?e w] =>
      destruct (store_learned_limit_frame w a b c d e) as (Hm & He & Hr);
      destruct (_store_learned_limit a b c d e w) as [[[]|ex] w1]
  end; simpl in *; auto.
Qed.


End LearningUpdaterFacts.

Module LearningUpdaterProperties.
Import Sqlite SqliteSpec SqliteFacts EnhancedProxyMonitor LearningSpec LearningFacts UpdaterSpec
  LearningUpdaterFacts.



(** A clock that went backwards makes the elapsed time negative, and the
    value then leaves the interval. *)
Example negative_elapsed_time_overshoots : new_value 20000 19000 (-3600) = 21000.
Proof. vm_compute. reflexivity. Qed.



(** X3. [_update_intelligent_limits] never lets an exception out,
    whatever the engine does and whatever is stored; it changes neither
    the monitor's in-memory state (so [learned_limits] is not refreshed)
    nor the event table. *)
Theorem update_intelligent_limits_never_raises
    (w : world DatabaseManager.tables memory) (clock : Q) (now : string)
    (session : SessionMetrics.t) (info : RateLimitPatterns.info) :
  let r := _update_intelligent_limits clock now session info w in
  r.1 = Ok tt ∧ mem r.2 = mem w ∧
  DatabaseManager.rate_limit_events (db r.2) = DatabaseManager.rate_limit_events (db w).
Proof. apply update_intelligent_limits_frame. Qed.

(** X4. An event without a limit value, or with the value 0, teaches
    nothing: [_update_intelligent_limits] makes no engine call, writes no
    log record and leaves everything as it was. *)
Theorem zero_limit_is_not_learned
    (w : world DatabaseManager.tables memory) (clock : Q) (now : string)
    (session : SessionMetrics.t) (info : RateLimitPatterns.info) :
  RateLimitPatterns.limit_value info = None ∨ RateLimitPatterns.limit_value info = Some 0 →
  _update_intelligent_limits clock now session info w = (Ok tt, w).
Proof.
  intros H. unfold _update_intelligent_limits, try_exception.
  by destruct H as [-> | ->].
Qed.

Lemma zero_limit_is_not_learned_witness :
  _update_intelligent_limits 1800 "2025-01-26 18:30:00" example_session
    (example_info RateLimitPatterns.reached (Some 0)) (custom_world (Some 20000) (Some 250) [])
  = (Ok tt, custom_world (Some 20000) (Some 250) []).
Proof.
  apply (zero_limit_is_not_learned (custom_world (Some 20000) (Some 250) []) 1800
           "2025-01-26 18:30:00" example_session
           (example_info RateLimitPatterns.reached (Some 0))).
  right. reflexivity.
Defined.

(** X5. A stored limit that is NULL does not stop the monitor: the
    arithmetic on it raises [TypeError] inside [_store_learned_limit],
    [_update_intelligent_limits] catches it and logs one error record;
    the only engine calls are those of the read, and the tables and the
    in-memory state are as before. *)
Theorem null_stored_limit_is_logged_not_raised
    (w : world DatabaseManager.tables memory) (clock : Q) (now : string)
    (session : SessionMetrics.t) (info : RateLimitPatterns.info) (v : Z)
    (row : DatabaseManager.plan_limit_row) :
  quiet (faults w) →
  RateLimitPatterns.limit_value info = Some v → v ≠ 0 →
  DatabaseManager.plan_limits (db w) !! plan_of clock session = Some row →
  column (kind_of (RateLimitPatterns.type info)) row = None →
  let r := _update_intelligent_limits clock now session info w in
  r.1 = Ok tt ∧ db r.2 = db w ∧ mem r.2 = mem w ∧
  log r.2 = log w ++ [update_error TypeError] ∧
  calls r.2 = calls w ++ [Connect; Execute SelectPlanLimit].
Proof.
  intros Hq Hv Hne Hrow Hcol. cbv zeta.
  unfold _update_intelligent_limits, try_exception. rewrite Hv.
  replace (truthy (Some v)) with (Some v) by by destruct v.
  fold (plan_of clock session). fold (kind_of (RateLimitPatterns.type info)).
  unfold _store_learned_limit.
  destruct w as [d m l c fs]. cbn [faults db log calls mem] in *.
  assert (Hst : get_limit (stored d (plan_of clock session))
                  (kind_of (RateLimitPatterns.type info)) v = None).
  { unfold stored. rewrite Hrow. simpl.
    by destruct (kind_of (RateLimitPatterns.type info)). }
  destruct fs as [|f1 [|f2 fs]]; fault_cases.
  all: rewrite bind_run.
  all: match goal with
       | |- context [DatabaseManager.get_plan_limit ?p ?w0] =>
           change (DatabaseManager.get_plan_limit p w0) with
             (Ok (stored d p) : result _,
              World d m l ((c ++ [Connect]) ++ [Execute SelectPlanLimit]) (tail (tail (faults w0))))
       end.
  all: cbv beta iota; rewrite bind_run, Hst; simpl; rewrite <- ?app_assoc; done.
Qed.

Lemma null_stored_limit_is_logged_not_raised_witness :
  let w := custom_world None (Some 250) [] in
  let r := _update_intelligent_limits 1800 "2025-01-26 18:30:00" example_session
             (example_info RateLimitPatterns.reached (Some 19000)) w in
  r.1 = Ok tt ∧ db r.2 = db w ∧ mem r.2 = mem w ∧
  log r.2 = log w ++ [update_error TypeError] ∧
  calls r.2 = calls w ++ [Connect; Execute SelectPlanLimit].
Proof.
  apply (null_stored_limit_is_logged_not_raised (custom_world None (Some 250) [])
           1800 "2025-01-26 18:30:00" example_session
           (example_info RateLimitPatterns.reached (Some 19000)) 19000
           (written "2025-01-26 18:00:00" None (Some 250))).
  - constructor.
  - reflexivity.
  - lia.
  - vm_compute. reflexivity.
  - reflexivity.
Defined.





End LearningUpdaterProperties.

(** ** The persistence layer: round trips, totality, cleanup *)
Module PersistenceFacts.
Import Sqlite SqliteSpec SqliteFacts PersistenceSpec.

Section Tame.
Context {DB MEM : Type}.
Local Abbreviation M := (Sqlite.M DB MEM).

Lemma tame_ret {A} (a : A) : tame (mret a : M A).
Proof. by intros w. Qed.

Lemma tame_bind {A B} (m : M A) (f : A → M B) :
  tame m → (∀ a, tame (f a)) → tame (m ≫= f).
Proof.
  intros Hm Hf w. rewrite bind_run. specialize (Hm w).
  destruct (m w) as [[a|e] w1]; simpl in *.
  - destruct (Hf a w1) as [H1 H2]. destruct Hm as [Hm _].
    split; [by rewrite H1|exact H2].
  - done.
Qed.

Lemma tame_engine (c : engine_call) : tame (engine c : M unit).
Proof. intros [d m l cs [|[e|] fs]]; by simpl. Qed.

Lemma tame_logger l msg e : tame (logger l msg e : M unit).
Proof. by intros w. Qed.

Lemma tame_get_db : tame (get_db : M DB).
Proof. by intros w. Qed.

Lemma tame_put_db d : tame (put_db d : M unit).
Proof. by intros w. Qed.

Lemma tame_lift {A} (r : result A) :
  match r with Raised (SqliteError _) | Ok _ => True | Raised _ => False end →
  tame (lift r : M A).
Proof. by intros Hr w. Qed.

Lemma tame_transaction (get_connection : M connection) (work : connection → DB → M DB) :
  tame get_connection → (∀ conn d, tame (work conn d)) →
  tame (transaction get_connection work).
Proof.
  intros Hc Hw. unfold transaction.
  apply tame_bind; [exact Hc|]. intros conn.
  apply tame_bind; [apply tame_get_db|]. intros d.
  apply tame_bind; [apply Hw|]. intros d'.
  apply tame_bind; [apply tame_engine|]. intros _. apply tame_put_db.
Qed.

(** A tame body under [except sqlite3.Error] with a handler that only
    logs: the method returns, and memory is as before. *)
Lemma try_sqlite_logs (body : M unit) l msg (w : world DB MEM) :
  tame body →
  let r := try_sqlite body (fun e => logger l msg (Some (SqliteError e))) w in
  r.1 = Ok tt ∧ mem r.2 = mem w.
Proof.
  intros Hb. cbv zeta. unfold try_sqlite. destruct (Hb w) as [Hm Hr].
  destruct (body w) as [[[]|[| | | |e]] w1]; simpl in *; done.
Qed.

End Tame.

Section Enhanced.
Import EnhancedDatabaseManager.
Context {MEM : Type}.
Local Abbreviation M := (Sqlite.M tables MEM).
Implicit Types (w : world tables MEM) (d : tables).

Lemma tame_get_connection : tame (_get_connection : M connection).
Proof.
  unfold _get_connection.
  apply tame_bind; [apply tame_engine|]. intros _.
  apply tame_bind; [apply tame_engine|]. intros _. apply tame_ret.
Qed.

Lemma tame_check_parent conn d sid : tame (lift (check_parent conn d sid) : M unit).
Proof. apply tame_lift. unfold check_parent. by destruct (_ && _). Qed.

Lemma tame_delete_sessions conn cutoff d :
  tame (lift (delete_sessions conn cutoff d) : M tables).
Proof. apply tame_lift. unfold delete_sessions. by destruct (_ && _). Qed.

Ltac tame :=
  repeat first
    [ apply tame_get_connection | apply tame_engine | apply tame_logger
    | apply tame_check_parent | apply tame_delete_sessions | apply tame_ret
    | apply tame_transaction; [|intros]
    | apply tame_bind; [|intros] ].

Lemma perform_total (c : call) w :
  (perform c w).1 = Ok tt ∧ mem (perform c w).2 = mem w.
Proof.
  destruct c; simpl.
  - apply try_sqlite_logs. tame.
  - apply try_sqlite_logs. tame.
  - apply try_sqlite_logs. tame.
  - apply try_sqlite_logs. tame.
  - apply try_sqlite_logs. tame.
  - apply try_sqlite_logs. tame.
Qed.

Lemma check_parent_present conn d sid :
  is_Some (session_metrics d !! sid) → check_parent conn d sid = Ok tt.
Proof.
  intros Hs. unfold check_parent. rewrite bool_decide_eq_true_2 by done.
  by rewrite andb_false_r.
Qed.

(** Run a method on a concrete fault list, one engine call at a time. *)
Ltac run_calls :=
  repeat first
    [ rewrite bind_run
    | progress cbn -[lookup insert check_parent delete_sessions] ].




(** The rows left when the sessions are deleted. *)
Lemma existsb_false {A} (f : A → bool) (l : list A) :
  (∀ x, x ∈ l → f x = false) → existsb f l = false.
Proof.
  induction l as [|x l IH]; intros H; simpl; [done|].
  rewrite (H x (list_elem_of_here _ _)), IH; [done|].
  intros y Hy. apply H. by apply list_elem_of_further.
Qed.

Lemma unreferenced_pruned cutoff d sid :
  unreferenced cutoff d sid →
  referenced
    (set_learning_metrics
       (List.filter (fun r => negb (older cutoff (lm_timestamp r))) (learning_metrics d))
       (set_rate_limit_events
          (List.filter (fun r => negb (older cutoff (timestamp r))) (rate_limit_events d))
          d))
    sid = false.
Proof.
  intros (Hu & He & Ht). unfold referenced. simpl.
  rewrite !existsb_false; [done| | |].
  - intros r Hr. apply String.eqb_neq. by apply Ht.
  - intros r Hr. apply list_elem_of_In, filter_In in Hr as [Hr Hold].
    apply list_elem_of_In in Hr. apply String.eqb_neq. intros Hs.
    rewrite (He r Hr Hs) in Hold. discriminate.
  - intros r Hr. apply bool_decide_eq_false. by apply Hu.
Qed.

Lemma delete_sessions_unreferenced conn cutoff d :
  (∀ sid row, session_metrics d !! sid = Some row → expired cutoff row = true →
              referenced d sid = false) →
  delete_sessions conn cutoff d =
  Ok (set_session_metrics
        (filter (fun kr => expired cutoff kr.2 = false) (session_metrics d)) d).
Proof.
  intros H. unfold delete_sessions. rewrite bool_decide_eq_true_2; [by rewrite andb_false_r|].
  intros sid row Hrow. by apply H.
Qed.

Lemma delete_sessions_referenced conn cutoff d sid row :
  foreign_keys conn = true →
  session_metrics d !! sid = Some row → expired cutoff row = true →
  referenced d sid = true →
  delete_sessions conn cutoff d = Raised (SqliteError IntegrityError).
Proof.
  intros Hfk Hrow Hexp Href. unfold delete_sessions.
  rewrite Hfk, bool_decide_eq_false_2; [done|].
  intros H. specialize (H sid row Hrow Hexp). simpl in H. congruence.
Qed.

Lemma cleanup_old_data_quiet (days_to_keep : Z) (cutoff : string) w :
  quiet (faults w) →
  (∀ sid row, session_metrics (db w) !! sid = Some row → expired cutoff row = true →
              unreferenced cutoff (db w) sid) →
  ∃ fs, quiet fs ∧
    cleanup_old_data days_to_keep cutoff w =
    (Ok tt,
     World (cleaned cutoff (db w)) (mem w) (log w ++ [cleaned_up days_to_keep])
       (calls w ++ [Connect; Execute PragmaForeignKeysOn; Execute DeleteRateLimitEvents;
                    Execute DeleteLearningMetrics; Execute DeleteSessionMetrics;
                    Execute DeleteTerminalSessions; Commit])
       fs).
Proof.
  destruct w as [d m l c fs]. cbn [faults db log calls mem]. intros Hq Hun.
  unfold cleanup_old_data, try_sqlite, transaction, _get_connection.
  destruct fs as [|f1 [|f2 [|f3 [|f4 [|f5 [|f6 [|f7 fs]]]]]]]; fault_cases;
    (eexists; split;
     [|run_calls;
       rewrite delete_sessions_unreferenced
         by (intros sid row Hrow Hexp; apply unreferenced_pruned; by eapply Hun);
       run_calls; rewrite <- ?app_assoc; reflexivity]);
    try exact Hq; constructor.
Qed.

Lemma cleanup_old_data_blocked (days_to_keep : Z) (cutoff : string) w sid row t :
  session_metrics (db w) !! sid = Some row → expired cutoff row = true →
  t ∈ terminal_sessions (db w) → ts_session_id t = sid →
  db (cleanup_old_data days_to_keep cutoff w).2 = db w.
Proof.
  intros Hrow Hexp Ht Hsid. unfold cleanup_old_data.
  rewrite ForeignKeyFacts.try_sqlite_db by (intros e w'; reflexivity).
  rewrite bind_run.
  match goal with
  | |- context [transaction ?gc ?work w] =>
      destruct (ForeignKeyFacts.transaction_db gc work w) as [Heq|(conn & w1 & w2 & d' & Hgc & H & Heq)]
  end.
  - apply ForeignKeyFacts.get_connection_keeps.
  - intros conn d0.
    repeat first [ apply ForeignKeyFacts.keeps_db_engine | apply ForeignKeyFacts.keeps_db_lift
                 | apply ForeignKeyFacts.keeps_db_ret
                 | apply ForeignKeyFacts.keeps_db_bind; [|intros] ].
  - destruct (transaction _ _ w) as [[[]|e] w']; exact Heq.
  - exfalso. apply ForeignKeyFacts.get_connection_enforces in Hgc.
    apply ForeignKeyFacts.engine_then_Ok in H as (? & H).
    apply ForeignKeyFacts.engine_then_Ok in H as (? & H).
    apply ForeignKeyFacts.engine_then_Ok in H as (? & H).
    apply ForeignKeyFacts.lift_then_Ok in H as (d3 & Hdel & _).
    rewrite (delete_sessions_referenced conn cutoff _ sid row) in Hdel; try done.
    subst sid. by apply (ForeignKeyFacts.referenced_terminal).
Qed.

Lemma cleanup_old_data_blocked_quiet (days_to_keep : Z) (cutoff : string) w sid row t :
  quiet (faults w) →
  session_metrics (db w) !! sid = Some row → expired cutoff row = true →
  t ∈ terminal_sessions (db w) → ts_session_id t = sid →
  ∃ fs, cleanup_old_data days_to_keep cutoff w =
    (Ok tt,
     World (db w) (mem w) (log w ++ [cleanup_failed IntegrityError])
       (calls w ++ [Connect; Execute PragmaForeignKeysOn; Execute DeleteRateLimitEvents;
                    Execute DeleteLearningMetrics; Execute DeleteSessionMetrics])
       fs).
Proof.
  destruct w as [d m l c fs]. cbn [faults db log calls mem]. intros Hq Hrow Hexp Ht Hsid.
  unfold cleanup_old_data, try_sqlite, transaction, _get_connection.
  destruct fs as [|f1 [|f2 [|f3 [|f4 [|f5 fs]]]]]; fault_cases;
    (eexists; run_calls;
     rewrite (delete_sessions_referenced _ cutoff _ sid row)
       by (try done; subst sid; by apply ForeignKeyFacts.referenced_terminal);
     run_calls; unfold logger; simpl; rewrite <- ?app_assoc; reflexivity).
Qed.

Lemma register_terminal_session_spec terminal_id current_project_path time
    now1 db_now1 now2 db_now2 pid w :
  let sid := SessionId terminal_id time in
  (quiet (faults w) →
   ∃ fs, quiet fs ∧
     IntelligentOrchestrator._register_terminal_session terminal_id current_project_path
       time now1 db_now1 now2 db_now2 pid w =
     (Ok tt,
      World (set_terminal_sessions
               (terminal_sessions (db w) ++
                [registered_terminal terminal_id current_project_path sid now2 db_now2 pid])
               (set_session_metrics
                  (<[sid := registered_session current_project_path now1]>
                     (session_metrics (db w))) (db w)))
        (mem w) (log w ++ [registered sid])
        (calls w ++ [Connect; Execute PragmaForeignKeysOn;
                     Execute InsertOrReplaceSessionMetrics; Commit;
                     Connect; Execute PragmaForeignKeysOn;
                     Execute InsertOrReplaceTerminalSession; Commit])
        fs)) ∧
  (∀ e fs, faults w = Some e :: fs → quiet fs →
     session_metrics (db w) !! sid = None →
     ∃ fs', IntelligentOrchestrator._register_terminal_session terminal_id
              current_project_path time now1 db_now1 now2 db_now2 pid w =
     (Ok tt,
      World (db w) (mem w)
        (log w ++ [session_update_failed e; terminal_registration_failed IntegrityError;
                   registered sid])
        (calls w ++ [Connect; Connect; Execute PragmaForeignKeysOn;
                     Execute InsertOrReplaceTerminalSession])
        fs')).
Proof.
  cbv zeta. destruct w as [d m l c fs]. cbn [faults db log calls mem].
  unfold IntelligentOrchestrator._register_terminal_session, SessionId.
  set (sid := (terminal_id ++ "#" ++ Py.str_of_int (Py.int_of_float time))%string).
  unfold create_or_update_session_metrics, register_terminal_session,
    try_sqlite, transaction, _get_connection.
  split.
  - intros Hq.
    assert (Hs : ∀ row, is_Some ((<[sid := row]> (session_metrics d)) !! sid)).
    { intros row. rewrite lookup_insert_eq. by eexists. }
    destruct fs as [|f1 [|f2 [|f3 [|f4 [|f5 [|f6 [|f7 [|f8 fs]]]]]]]]; fault_cases;
      (eexists; split;
       [|run_calls; rewrite check_parent_present by apply Hs; run_calls;
         rewrite <- ?app_assoc; reflexivity]);
      try exact Hq; constructor.
  - intros e fs' -> Hq Hnone.
    assert (Hcp : ∀ conn, foreign_keys conn = true →
              check_parent conn d sid = Raised (SqliteError IntegrityError)).
    { intros conn Hfk. unfold check_parent. rewrite Hfk, Hnone.
      rewrite bool_decide_eq_false_2; [done|]. by intros [? ?]. }
    destruct fs' as [|f1 [|f2 [|f3 fs']]]; fault_cases;
      (eexists; run_calls; rewrite Hcp by reflexivity; run_calls; unfold logger; simpl;
       rewrite <- ?app_assoc; reflexivity).
Qed.

End Enhanced.

End PersistenceFacts.

Module PersistenceProperties.
Import Sqlite SqliteSpec SqliteFacts LearningSpec LearningFacts PersistenceSpec PersistenceFacts.



Import EnhancedDatabaseManager.






(** X12. The order of the DELETEs in [cleanup_old_data] makes cleanup
    all or nothing: the sessions are deleted before the terminal
    sessions, so when a completed session past the cutoff still has a
    terminal-session row (of any age) the whole cleanup is rolled back --
    no table changes, whatever the engine does -- and on an engine without
    faults the [IntegrityError] is logged after five engine calls. *)
Theorem cleanup_is_blocked_by_a_terminal_session {MEM : Type} (w : world tables MEM)
    (days_to_keep : Z) (cutoff : string)
    (sid : string) (row : session_metrics_row) (t : terminal_session_row) :
  session_metrics (db w) !! sid = Some row → expired cutoff row = true →
  t ∈ terminal_sessions (db w) → ts_session_id t = sid →
  let r := cleanup_old_data days_to_keep cutoff w in
  r.1 = Ok tt ∧ db r.2 = db w ∧ mem r.2 = mem w ∧
  (quiet (faults w) →
   log r.2 = log w ++ [cleanup_failed IntegrityError] ∧
   calls r.2 = calls w ++ [Connect; Execute PragmaForeignKeysOn;
                             Execute DeleteRateLimitEvents; Execute DeleteLearningMetrics;
                             Execute DeleteSessionMetrics]).
Proof.
  intros Hrow Hexp Ht Hsid. cbv zeta.
  destruct (perform_total (CleanupOldData days_to_keep cutoff) w) as [Hr Hm].
  split; [exact Hr|]. split; [by eapply cleanup_old_data_blocked|]. split; [exact Hm|].
  intros Hq.
  by destruct (cleanup_old_data_blocked_quiet days_to_keep cutoff w sid row t
                 Hq Hrow Hexp Ht Hsid) as (fs & ->).
Qed.

Lemma cleanup_is_blocked_by_a_terminal_session_witness :
  let w := World (cleanup_tables [old_terminal]) tt [] [] [] in
  let r := cleanup_old_data 30 "2025-02-01T00:00:00+00:00" w in
  r.1 = Ok tt ∧ db r.2 = db w ∧ mem r.2 = mem w ∧
  (quiet (faults w) →
   log r.2 = log w ++ [cleanup_failed IntegrityError] ∧
   calls r.2 = calls w ++ [Connect; Execute PragmaForeignKeysOn;
                             Execute DeleteRateLimitEvents; Execute DeleteLearningMetrics;
                             Execute DeleteSessionMetrics]).
Proof.
  apply (cleanup_is_blocked_by_a_terminal_session (MEM := unit)
           (World (cleanup_tables [old_terminal]) tt [] [] [])
           30 "2025-02-01T00:00:00+00:00" "old" old_session old_terminal).
  - vm_compute. reflexivity.
  - vm_compute. reflexivity.
  - apply list_elem_of_here.
  - reflexivity.
Defined.

(** X13. A cleanup that goes through removes exactly the old rows: on an
    engine without faults, when no session to delete is still referenced,
    the events, learning metrics and terminal sessions that remain are
    those not older than the cutoff, the sessions that remain are those
    that are not both completed and ended before the cutoff (a session
    without end time stays), and usage entries and plan limits are
    untouched. *)
Theorem cleanup_removes_exactly_the_old_rows {MEM : Type} (w : world tables MEM)
    (days_to_keep : Z) (cutoff : string) :
  quiet (faults w) →
  (∀ sid row, session_metrics (db w) !! sid = Some row → expired cutoff row = true →
              unreferenced cutoff (db w) sid) →
  let r := cleanup_old_data days_to_keep cutoff w in
  let d := db w in
  let d' := db r.2 in
  r.1 = Ok tt ∧
  (∀ e, e ∈ rate_limit_events d' ↔
        e ∈ rate_limit_events d ∧ String.ltb (timestamp e) cutoff = false) ∧
  (∀ lm, lm ∈ learning_metrics d' ↔
         lm ∈ learning_metrics d ∧ String.ltb (lm_timestamp lm) cutoff = false) ∧
  (∀ t, t ∈ terminal_sessions d' ↔
        t ∈ terminal_sessions d ∧ String.ltb (last_activity t) cutoff = false) ∧
  (∀ sid row, session_metrics d' !! sid = Some row ↔
        session_metrics d !! sid = Some row ∧
        ¬ (status row = "completed"%string ∧
           ∃ t, end_time row = Some t ∧ String.ltb t cutoff = true)) ∧
  usage_entries d' = usage_entries d ∧ plan_limits d' = plan_limits d ∧
  log r.2 = log w ++ [cleaned_up days_to_keep].
Proof.
  intros Hq Hun. cbv zeta.
  destruct (cleanup_old_data_quiet days_to_keep cutoff w Hq Hun) as (fs & _ & ->).
  cbn [fst snd db log]. unfold cleaned. cbn.
  assert (Hfilter : ∀ {A} (f : A → string) (x : A) (l : list A),
            x ∈ List.filter (fun r => negb (older cutoff (f r))) l ↔
            x ∈ l ∧ String.ltb (f x) cutoff = false).
  { intros A f x l. rewrite list_elem_of_In, filter_In, <- list_elem_of_In.
    unfold older. by rewrite negb_true_iff. }
  split; [done|]. split; [intros e; apply Hfilter|].
  split; [intros lm; apply Hfilter|]. split; [intros t; apply Hfilter|].
  split; [|done]. intros sid row. rewrite map_lookup_filter_Some. simpl.
  split; intros [Hrow Hkeep]; (split; [exact Hrow|]).
  - intros [Hst (t & Ht & Hlt)]. unfold expired in Hkeep.
    rewrite Ht, Hlt, andb_true_r in Hkeep. by apply String.eqb_neq in Hkeep.
  - unfold expired. destruct (String.eqb_spec (status row) "completed") as [Hst|Hst]; [|done].
    simpl. destruct (end_time row) as [t|] eqn:Ht; [|done].
    destruct (String.ltb t cutoff) eqn:Hlt; [|done].
    exfalso. apply Hkeep. split; [done|]. by exists t.
Qed.

Lemma cleanup_removes_exactly_the_old_rows_witness :
  let w := World (cleanup_tables []) tt [] [] [] in
  let r := cleanup_old_data 30 "2025-02-01T00:00:00+00:00" w in
  r.1 = Ok tt ∧
  session_metrics (db r.2) !! "old"%string = None ∧
  session_metrics (db r.2) !! "live"%string = Some live_session ∧
  rate_limit_events (db r.2) = [example_event_row "live" "2025-03-01T09:30:00+00:00"].
Proof.
  pose proof (cleanup_removes_exactly_the_old_rows (MEM := unit)
                (World (cleanup_tables []) tt [] [] [])
                30 "2025-02-01T00:00:00+00:00") as H.
  cbv zeta in H. destruct H as (Hr & _).
  - constructor.
  - intros sid row Hrow Hexp. cbn in Hrow.
    apply lookup_insert_Some in Hrow as [[<- <-]|[_ Hrow]]; [discriminate Hexp|].
    apply lookup_singleton_Some in Hrow as [<- <-].
    split; [|split].
    + intros r Hr. cbn in Hr. by apply elem_of_nil in Hr.
    + intros r Hr Hs. cbn in Hr.
      apply elem_of_cons in Hr as [->|Hr]; [reflexivity|].
      apply list_elem_of_singleton in Hr as ->. discriminate Hs.
    + intros r Hr. cbn in Hr. by apply elem_of_nil in Hr.
  - split; [exact Hr|]. vm_compute. repeat split; reflexivity.
Defined.

(** X14. The orchestrator registers a terminal in two steps that fit the
    foreign key: on an engine without faults
    [_register_terminal_session] first writes the session row (status
    ['active'], all counters 0, metadata [{}]) under the id
    [terminal_id#int(time)], then appends the terminal-session row that
    references it, and logs the registration. *)
Theorem orchestrator_registers_session_then_terminal {MEM : Type} (w : world tables MEM)
    (terminal_id current_project_path : string) (time : Q)
    (now1 db_now1 now2 db_now2 : string) (pid : Z) :
  quiet (faults w) →
  let sid := SessionId terminal_id time in
  let r := IntelligentOrchestrator._register_terminal_session terminal_id
             current_project_path time now1 db_now1 now2 db_now2 pid w in
  r.1 = Ok tt ∧
  session_metrics (db r.2) !! sid = Some (registered_session current_project_path now1) ∧
  terminal_sessions (db r.2) =
    terminal_sessions (db w) ++
    [registered_terminal terminal_id current_project_path sid now2 db_now2 pid] ∧
  (∀ other, other ≠ sid → session_metrics (db r.2) !! other = session_metrics (db w) !! other) ∧
  rate_limit_events (db r.2) = rate_limit_events (db w) ∧
  log r.2 = log w ++ [registered sid].
Proof.
  intros Hq. cbv zeta.
  destruct (register_terminal_session_spec terminal_id current_project_path time
              now1 db_now1 now2 db_now2 pid w) as [Hok _].
  destruct (Hok Hq) as (fs & _ & ->). cbn.
  rewrite lookup_insert_eq. repeat split. intros other Hne. by rewrite lookup_insert_ne.
Qed.

Lemma orchestrator_registers_session_then_terminal_witness :
  let sid := SessionId "herb@desk:4242:1737914400" 1737914400 in
  let r := IntelligentOrchestrator._register_terminal_session
             "herb@desk:4242:1737914400" "/test/project" 1737914400
             "2025-01-26T18:00:00+00:00" "2025-01-26T18:00:01+00:00"
             "2025-01-26T18:00:02+00:00" "2025-01-26T18:00:03+00:00" 4242
             (World empty tt [] [] []) in
  r.1 = Ok tt ∧
  session_metrics (db r.2) !! sid =
    Some (registered_session "/test/project" "2025-01-26T18:00:00+00:00") ∧
  terminal_sessions (db r.2) =
    terminal_sessions empty ++
    [registered_terminal "herb@desk:4242:1737914400" "/test/project" sid
       "2025-01-26T18:00:02+00:00" "2025-01-26T18:00:03+00:00" 4242].
Proof.
  pose proof (orchestrator_registers_session_then_terminal (MEM := unit)
                (World empty tt [] [] [])
                "herb@desk:4242:1737914400" "/test/project" 1737914400
                "2025-01-26T18:00:00+00:00" "2025-01-26T18:00:01+00:00"
                "2025-01-26T18:00:02+00:00" "2025-01-26T18:00:03+00:00" 4242) as H.
  cbv zeta in H. destruct H as (Hr & Hs & Ht & _); [constructor|].
  split; [exact Hr|]. split; [exact Hs|exact Ht].
Defined.

(** X15. When the session row cannot be written (the connection fails)
    and the session has no row yet, the terminal registration that
    follows is rejected by the foreign key: nothing is stored, both
    failures are logged, and the method still logs the registration as
    done and returns normally. *)
Theorem failed_session_insert_blocks_terminal_registration {MEM : Type} (w : world tables MEM)
    (terminal_id current_project_path : string) (time : Q)
    (now1 db_now1 now2 db_now2 : string) (pid : Z)
    (e : sqlite_error) (fs : list (option sqlite_error)) :
  faults w = Some e :: fs → quiet fs →
  session_metrics (db w) !! SessionId terminal_id time = None →
  let sid := SessionId terminal_id time in
  let r := IntelligentOrchestrator._register_terminal_session terminal_id
             current_project_path time now1 db_now1 now2 db_now2 pid w in
  r.1 = Ok tt ∧ db r.2 = db w ∧ mem r.2 = mem w ∧
  log r.2 = log w ++ [session_update_failed e;
                      terminal_registration_failed IntegrityError; registered sid].
Proof.
  intros Hf Hq Hnone. cbv zeta.
  destruct (register_terminal_session_spec terminal_id current_project_path time
              now1 db_now1 now2 db_now2 pid w) as [_ Hfail].
  by destruct (Hfail e fs Hf Hq Hnone) as (fs' & ->).
Qed.

Lemma failed_session_insert_blocks_terminal_registration_witness :
  let w := World empty tt [] [] [Some OperationalError] in
  let r := IntelligentOrchestrator._register_terminal_session
             "herb@desk:4242:1737914400" "/test/project" 1737914400
             "2025-01-26T18:00:00+00:00" "2025-01-26T18:00:01+00:00"
             "2025-01-26T18:00:02+00:00" "2025-01-26T18:00:03+00:00" 4242 w in
  r.1 = Ok tt ∧ db r.2 = db w ∧ mem r.2 = mem w ∧
  log r.2 = log w ++ [session_update_failed OperationalError;
                      terminal_registration_failed IntegrityError;
                      registered (SessionId "herb@desk:4242:1737914400" 1737914400)].
Proof.
  apply (failed_session_insert_blocks_terminal_registration (MEM := unit)
           (World empty tt [] [] [Some OperationalError])
           "herb@desk:4242:1737914400" "/test/project" 1737914400
           "2025-01-26T18:00:00+00:00" "2025-01-26T18:00:01+00:00"
           "2025-01-26T18:00:02+00:00" "2025-01-26T18:00:03+00:00" 4242
           OperationalError []).
  - reflexivity.
  - constructor.
  - reflexivity.
Defined.

End PersistenceProperties.

(** ** The Pattern Matcher: what it needs to match, and what it ignores *)
Module PatternMatcherFacts.
Import Re ReShape ReFacts RateLimitPatterns PatternMatcherSpec PatternMatcherSpec2
  RateLimitPatternsFacts.

Lemma no_digit_app (l1 l2 : list ascii) :
  no_digit (l1 ++ l2) = true → no_digit l1 = true ∧ no_digit l2 = true.
Proof. unfold no_digit. rewrite forallb_app. apply andb_prop. Qed.


Section NoDigit.
Context {A : Type} (ic : bool).
Implicit Types (k : list ascii → capture → option A) (x : A).



End NoDigit.












End PatternMatcherFacts.

Module PatternMatcherProperties.
Import Re ReShape ReFacts RateLimitPatterns PatternMatcherSpec PatternMatcherSpec2
  RateLimitPatternsFacts PatternMatcherFacts.
Local Open Scope string_scope.





End PatternMatcherProperties.

(** ** Paths of log files *)
Module PathFacts.
Import Str Pathlib MCPLogs MCPLogsSpec.

Lemma startswith_app (pre t : list ascii) : startswith pre (pre ++ t) = true.
Proof. induction pre as [|c pre IH]; simpl; [done|]. by rewrite Ascii.eqb_refl, IH. Qed.

Lemma startswith_inv (pre l : list ascii) :
  startswith pre l = true → ∃ t, l = pre ++ t.
Proof.
  revert l. induction pre as [|c pre IH]; intros l; simpl; [by exists l|].
  destruct l as [|d l]; [discriminate|].
  intros [Hc Hl]%andb_prop. apply Ascii.eqb_eq in Hc as ->.
  destruct (IH l Hl) as [t ->]. by exists t.
Qed.

Lemma find_first {A} (f : A → bool) (before after : list A) (x : A) :
  (∀ q, q ∈ before → f q = false) → f x = true →
  List.find f (before ++ x :: after) = Some x.
Proof.
  induction before as [|b before IH]; intros Hb Hx; simpl; [by rewrite Hx|].
  rewrite (Hb b (list_elem_of_here _ _)). apply IH; [|done].
  intros q Hq. apply Hb. by apply list_elem_of_further.
Qed.

Lemma find_none {A} (f : A → bool) (l : list A) :
  (∀ q, q ∈ l → f q = false) → List.find f l = None.
Proof.
  induction l as [|b l IH]; intros Hb; simpl; [done|].
  rewrite (Hb b (list_elem_of_here _ _)). apply IH.
  intros q Hq. apply Hb. by apply list_elem_of_further.
Qed.

(** Stripping at the right end stops at the last character that is not
    [ch]. *)
Lemma lstrip_char_rev_keep (ch c : ascii) (a t : list ascii) :
  c ≠ ch →
  ∃ t', rev (lstrip_char ch (rev (a ++ c :: t))) = a ++ c :: t'.
Proof.
  intros Hc. induction t as [|d t IH] using rev_ind.
  - exists []. rewrite rev_app_distr. simpl.
    rewrite (proj2 (Ascii.eqb_neq c ch) Hc). simpl.
    by rewrite rev_involutive.
  - replace (a ++ c :: t ++ [d]) with ((a ++ c :: t) ++ [d]) by by rewrite <- app_assoc.
    rewrite rev_app_distr. simpl. destruct (Ascii.eqb d ch).
    + exact IH.
    + exists (t ++ [d]). simpl. rewrite rev_involutive. by rewrite <- app_assoc.
Qed.

Lemma replace_char_free (old new : ascii) (l : list ascii) :
  old ≠ new →
  forallb (fun c => negb (Ascii.eqb c old)) (replace_char old new l) = true.
Proof.
  intros Hne. induction l as [|c l IH]; simpl; [done|]. rewrite IH, andb_true_r.
  destruct (Ascii.eqb_spec c old) as [->|Hc].
  - apply negb_true_iff, Ascii.eqb_neq. congruence.
  - by apply negb_true_iff, Ascii.eqb_neq.
Qed.

Lemma chars_str (l : list ascii) : Py.chars (Py.str l) = l.
Proof. apply list_ascii_of_string_of_list_ascii. Qed.

Lemma str_chars (s : string) : Py.str (Py.chars s) = s.
Proof. apply string_of_list_ascii_of_string. Qed.

Lemma str_app (l1 l2 : list ascii) : Py.str (l1 ++ l2) = (Py.str l1 ++ Py.str l2)%string.
Proof. induction l1 as [|c l1 IH]; simpl; [done|]. by rewrite IH. Qed.

(** The decoded form of an encoded home directory. *)
Lemma decode_home_part (part : string) :
  home_part part = true →
  ∃ rest : string,
    Py.str (replace_char "-" "/" (strip_char "-" (Py.chars part))) = ("home" ++ rest)%string ∧
    dash_free rest = true.
Proof.
  unfold home_part. intros [t Ht]%startswith_inv. rewrite Ht.
  unfold strip_char. cbn [Py.chars list_ascii_of_string app lstrip_char Ascii.eqb Bool.eqb].
  destruct (lstrip_char_rev_keep "-" "e" ["h"; "o"; "m"]%char ("-"%char :: t))
    as [t' Ht']; [done|].
  cbn [app] in Ht'. rewrite Ht'.
  exists (Py.str (replace_char "-" "/" t')). split; [reflexivity|].
  unfold dash_free. rewrite chars_str. by apply replace_char_free.
Qed.

Lemma decode_dashed_home_part (part : string) :
  home_part part = true →
  ∃ rest : string,
    Py.str (replace_char "-" "/" (slice_1_m1 (Py.chars part))) = ("home" ++ rest)%string ∧
    dash_free rest = true.
Proof.
  unfold home_part. intros [t Ht]%startswith_inv. rewrite Ht.
  unfold slice_1_m1. cbn [Py.chars list_ascii_of_string app tail].
  exists (Py.str (replace_char "-" "/" (removelast ("-"%char :: t)))). split.
  - cbn [removelast]. reflexivity.
  - unfold dash_free. rewrite chars_str. by apply replace_char_free.
Qed.

End PathFacts.

Module PathProperties.
Import Str Pathlib MCPLogs MCPLogsSpec PathFacts.
Local Open Scope string_scope.

(** X18. [get_session_id_from_path] decodes the first component that
    starts with ["-home-"], provided it ends with a dash or the path
    contains ["mcp-logs"]: the session id is then ["/home"], a dash-free
    remainder, ["#"] and the stem of the file name -- every dash of the
    directory name has become a slash, so a project directory with a dash
    in its name is not recovered.  Without a component that starts with
    ["-home-"] the session id is the path itself. *)
Theorem session_id_decodes_the_first_home_part (p : Path) :
  (∀ before part after,
     parts p = (before ++ part :: after)%list →
     (∀ q, q ∈ before → home_part q = false) →
     home_part part = true →
     trailing_dash part = true ∨ in_mcp_logs (to_str p) = true →
     ∃ rest, get_session_id_from_path p = "/home" ++ rest ++ "#" ++ stem p ∧
             dash_free rest = true ∧
             "/home" ++ rest =
               "/" ++ Py.str (replace_char "-" "/" (strip_char "-" (Py.chars part)))) ∧
  ((∀ q, q ∈ parts p → home_part q = false) →
   get_session_id_from_path p = to_str p).
Proof.
  split.
  - intros before part after Hparts Hbefore Hhome Hcond.
    destruct (decode_home_part part Hhome) as (rest & Hrest & Hfree).
    exists rest. unfold get_session_id_from_path. rewrite Hparts, find_first.
    + rewrite Hrest. split; [reflexivity|]. split; [done|reflexivity].
    + intros q Hq. fold (home_part q). by rewrite (Hbefore q Hq).
    + fold (home_part part) (trailing_dash part) (in_mcp_logs (to_str p)).
      rewrite Hhome. destruct Hcond as [-> | ->]; [done|]. apply orb_true_r.
  - intros Hnone. unfold get_session_id_from_path. rewrite find_none; [done|].
    intros q Hq. fold (home_part q). by rewrite (Hnone q Hq).
Qed.

Lemma session_id_decodes_the_first_home_part_witness :
  ∃ rest, get_session_id_from_path example_log = "/home" ++ rest ++ "#" ++ stem example_log ∧
          dash_free rest = true ∧
          "/home" ++ rest =
            "/" ++ Py.str (replace_char "-" "/" (strip_char "-" (Py.chars "-home-user-project"))).
Proof.
  apply (proj1 (session_id_decodes_the_first_home_part example_log)
           ["/"; "cache"; "claude-cli-nodejs"] "-home-user-project" ["mcp-logs"; "test.txt"]).
  - vm_compute. reflexivity.
  - intros q Hq. repeat (apply elem_of_cons in Hq as [->|Hq]; [reflexivity|]).
    by apply elem_of_nil in Hq.
  - reflexivity.
  - right. vm_compute. reflexivity.
Defined.

(** X19. The project path of a new session is decoded by another rule
    than its id: [_extract_project_path] looks for the first component
    that starts with ["-home-"] and also ends with a dash, and returns it
    without a leading slash (["home"] and a dash-free remainder); when no
    component has both -- as for a directory [-home-user-project] -- it
    returns the directory of the log file, not the project. *)
Theorem project_path_is_relative_or_the_log_directory (p : Path) :
  (∀ before part after,
     parts p = (before ++ part :: after)%list →
     (∀ q, q ∈ before → home_part q && trailing_dash q = false) →
     home_part part = true → trailing_dash part = true →
     ∃ rest, _extract_project_path p = "home" ++ rest ∧ dash_free rest = true) ∧
  ((∀ q, q ∈ parts p → home_part q = true → trailing_dash q = false) →
   _extract_project_path p = to_str (parent p)).
Proof.
  split.
  - intros before part after Hparts Hbefore Hhome Hdash.
    destruct (decode_dashed_home_part part Hhome) as (rest & Hrest & Hfree).
    exists rest. unfold _extract_project_path. rewrite Hparts, find_first; [done| |].
    + intros q Hq. apply (Hbefore q Hq).
    + fold (home_part part) (trailing_dash part). by rewrite Hhome, Hdash.
  - intros Hnone. unfold _extract_project_path. rewrite find_none; [done|].
    intros q Hq. fold (home_part q) (trailing_dash q).
    destruct (home_part q) eqn:Hh; [|done]. by rewrite (Hnone q Hq Hh).
Qed.

Lemma project_path_is_relative_or_the_log_directory_witness :
  _extract_project_path example_log =
  "/cache/claude-cli-nodejs/-home-user-project/mcp-logs".
Proof.
  rewrite (proj2 (project_path_is_relative_or_the_log_directory example_log)).
  - vm_compute. reflexivity.
  - intros q Hq Hh. vm_compute in Hq.
    repeat (apply elem_of_cons in Hq as [->|Hq]; [try discriminate Hh; reflexivity|]).
    by apply elem_of_nil in Hq.
Defined.

End PathProperties.

(** ** The log pipeline *)
Module PipelineFacts.
Import Sqlite SqliteSpec SqliteFacts EnhancedProxyMonitor LearningSpec LearningFacts UpdaterSpec
  LearningUpdaterFacts MCPLogs MCPLogsSpec PipelineSpec.

Lemma add_rate_limit_event_spec {MEM} (w : world DatabaseManager.tables MEM)
    (now event_type session_id : string) (elapsed_time : Q) :
  let r := DatabaseManager.add_rate_limit_event now event_type session_id elapsed_time w in
  let row := {| DatabaseManager.timestamp := now;
                DatabaseManager.event_type := event_type;
                DatabaseManager.session_id := Some session_id;
                DatabaseManager.elapsed_time := Some elapsed_time |} in
  r.1 = Ok tt ∧ mem r.2 = mem w ∧
  DatabaseManager.plan_limits (db r.2) = DatabaseManager.plan_limits (db w) ∧
  (quiet (faults w) →
     DatabaseManager.rate_limit_events (db r.2) =
       DatabaseManager.rate_limit_events (db w) ++ [row] ∧
     quiet (faults r.2)).
Proof.
  destruct w as [d m l c fs]. cbv zeta.
  split; [|split; [|split]].
  - destruct fs as [|[e1|] [|[e2|] [|[e3|] fs]]]; reflexivity.
  - destruct fs as [|[e1|] [|[e2|] [|[e3|] fs]]]; reflexivity.
  - destruct fs as [|[e1|] [|[e2|] [|[e3|] fs]]]; reflexivity.
  - cbn [faults]. intros Hq.
    destruct fs as [|f1 [|f2 [|f3 fs]]]; fault_cases; simpl;
      (split; [reflexivity|]); try exact Hq; constructor.
Qed.

Lemma update_plan_limit_other {MEM} (w : world DatabaseManager.tables MEM)
    (now plan_name : string) (token_limit message_limit : option Z) (p : string) :
  p ≠ plan_name →
  DatabaseManager.plan_limits
    (db (DatabaseManager.update_plan_limit now plan_name token_limit message_limit w).2) !! p =
  DatabaseManager.plan_limits (db w) !! p.
Proof.
  intros Hne. destruct w as [d m l c fs].
  destruct fs as [|[e1|] [|[e2|] [|[e3|] fs]]]; simpl; try reflexivity;
    by rewrite lookup_insert_ne.
Qed.

Lemma get_plan_limit_keeps_quiet {MEM} (w : world DatabaseManager.tables MEM) plan_name :
  quiet (faults w) → quiet (faults (DatabaseManager.get_plan_limit plan_name w).2).
Proof.
  intros Hq. by destruct (get_plan_limit_quiet w plan_name Hq) as (w1 & -> & _ & _ & _ & Hq1).
Qed.

(** What [_store_learned_limit] leaves alone, whatever the engine
    does. *)
Lemma store_learned_limit_other (w : world DatabaseManager.tables memory)
    (now plan_type : string) (k : limit_kind) (observed : Z)
    (session_metrics : SessionMetrics.metrics) :
  let r := _store_learned_limit now plan_type k observed session_metrics w in
  (∀ p, p ≠ plan_type →
        DatabaseManager.plan_limits (db r.2) !! p = DatabaseManager.plan_limits (db w) !! p) ∧
  (quiet (faults w) → quiet (faults r.2)).
Proof.
  cbv zeta. unfold _store_learned_limit.
  destruct (get_plan_limit_spec w plan_type) as (ex & w1 & Hget & Hd1 & Hm1 & _).
  pose proof (get_plan_limit_keeps_quiet w plan_type) as Hq1.
  rewrite bind_run, Hget in *. simpl in Hq1. rewrite bind_run.
  destruct (get_limit ex k observed) as [existing|]; cbn [mret M_ret];
    [|unfold raise; simpl; rewrite Hd1; auto].
  rewrite bind_run.
  destruct k.
  all: match goal with
       | |- context [DatabaseManager.update_plan_limit ?a ?b ?c ?d ?w0] =>
           pose proof (update_plan_limit_other w0 a b c d) as Ho;
           destruct (update_plan_limit_spec w0 a b c d) as (Hr & _ & Hok & _);
           destruct (DatabaseManager.update_plan_limit a b c d w0) as [[[]|e] w2]
       end.
  all: simpl in Hr; try discriminate Hr.
  all: simpl in *; split; [intros p Hne; by rewrite Ho, Hd1|].
  all: intros Hq; by destruct (Hok (Hq1 Hq)) as (_ & _ & _ & Hq2 & _).
Qed.

Lemma update_intelligent_limits_other (w : world DatabaseManager.tables memory)
    (clock : Q) (now : string) (session : SessionMetrics.t)
    (info : RateLimitPatterns.info) :
  let r := _update_intelligent_limits clock now session info w in
  (∀ p, p ≠ plan_of clock session →
        DatabaseManager.plan_limits (db r.2) !! p = DatabaseManager.plan_limits (db w) !! p) ∧
  (quiet (faults w) → quiet (faults r.2)).
Proof.
  cbv zeta. unfold _update_intelligent_limits, try_exception.
  destruct (truthy (RateLimitPatterns.limit_value info)) as [v|]; [|done].
  match goal with
  | |- context [_store_learned_limit ?a ?b ?c ?d ?e w] =>
      destruct (store_learned_limit_other w a b c d e) as (Ho & Hq);
      destruct (_store_learned_limit a b c d e w) as [[[]|ex] w1]
  end; simpl in *; auto.
Qed.

Lemma handle_rate_limit_event_spec (t : clock) (session_id : string)
    (file_path : Pathlib.Path) (info : RateLimitPatterns.info)
    (w : world DatabaseManager.tables memory) :
  let session := session_after t session_id file_path info (mem w) in
  let r := _handle_rate_limit_event t session_id file_path info w in
  r.1 = Ok tt ∧
  mem r.2 = {| active_sessions := <[session_id := session]> (active_sessions (mem w));
               learned_limits := learned_limits (mem w) |} ∧
  (∀ p, p ≠ plan_of (t_update t) session →
        DatabaseManager.plan_limits (db r.2) !! p = DatabaseManager.plan_limits (db w) !! p) ∧
  (quiet (faults w) →
     quiet (faults r.2) ∧
     ∃ row, DatabaseManager.rate_limit_events (db r.2) =
              DatabaseManager.rate_limit_events (db w) ++ [row] ∧
            DatabaseManager.event_type row = type_name (RateLimitPatterns.type info) ∧
            DatabaseManager.session_id row = Some session_id).
Proof.
  cbv zeta. unfold _handle_rate_limit_event, session_after, session_before.
  rewrite bind_run. cbn [get_mem]. rewrite bind_run. cbn [put_mem].
  set (session := SessionMetrics.add_rate_limit_event _ _ _ _).
  set (m1 := {| active_sessions := _; learned_limits := _ |}).
  set (w1 := World (db w) m1 (log w) (calls w) (faults w)).
  rewrite bind_run.
  match goal with
  | |- context [DatabaseManager.add_rate_limit_event ?a ?b ?c ?d w1] =>
      destruct (add_rate_limit_event_spec w1 a b c d) as (Hr2 & Hm2 & Hp2 & Hq2);
      destruct (DatabaseManager.add_rate_limit_event a b c d w1) as [[[]|e2] w2]
  end; simpl in Hr2; [|discriminate Hr2].
  rewrite bind_run.
  destruct (update_intelligent_limits_frame w2 (t_update t) (now_update t) session info)
    as (Hr3 & Hm3 & He3).
  destruct (update_intelligent_limits_other w2 (t_update t) (now_update t) session info)
    as (Ho3 & Hq3).
  destruct (_update_intelligent_limits (t_update t) (now_update t) session info w2)
    as [[[]|e3] w3]; simpl in Hr3; [|discriminate Hr3].
  simpl in *. split; [done|]. split; [by rewrite Hm3, Hm2|]. split.
  - intros p Hne. by rewrite (Ho3 p Hne), Hp2.
  - intros Hq. destruct (Hq2 Hq) as [He2 Hq2'].
    split; [by apply Hq3|]. eexists. split; [by rewrite He3, He2|done].
Qed.



Lemma extract_total (line : string) :
  ∃ o, RateLimitPatterns.extract_rate_limit_info line = Ok o.
Proof.
  destruct (RateLimitPatternsFacts.extract_spec line)
    as [(i & -> & _)|[(i & -> & _)|[(i & -> & _)|[-> _]]]]; eauto.
Qed.

Lemma detections_cons (line : string) (rest : list string) :
  detections (line :: rest) =
  match RateLimitPatterns.extract_rate_limit_info line with
  | Ok (Some i) => i :: detections rest
  | _ => detections rest
  end.
Proof.
  unfold detections. cbn [omap list_omap].
  by destruct (RateLimitPatterns.extract_rate_limit_info line) as [[i|]|e].
Qed.

(** A session without token usage is filed under plan [custom]. *)
Lemma small_session_plan (clock : Q) (session : SessionMetrics.t) :
  SessionMetrics.peak_token_usage session ≤ 15000 →
  plan_of clock session = "custom"%string.
Proof.
  intros Hp. unfold plan_of, _determine_plan_type. cbn.
  rewrite !(proj2 (Z.ltb_ge _ _)) by lia. done.
Qed.

Lemma session_after_peak t sid fp info (m : memory) :
  small_sessions m →
  SessionMetrics.peak_token_usage (session_after t sid fp info m) ≤ 15000.
Proof.
  intros Hs. unfold session_after, session_before. simpl.
  destruct (active_sessions m !! sid) as [s|] eqn:Hl; [by eapply Hs|]. simpl. lia.
Qed.


(** The loop over the lines, whatever the engine does. *)
Lemma for_lines_total (clocks : nat → clock) (sid : string) (fp : Pathlib.Path)
    (ls : list string) :
  ∀ (n : nat) (w : world DatabaseManager.tables memory),
    let r := for_lines clocks sid fp n ls w in
    r.1 = Ok tt ∧
    learned_limits (mem r.2) = learned_limits (mem w) ∧
    (∀ other, other ≠ sid →
       active_sessions (mem r.2) !! other = active_sessions (mem w) !! other) ∧
    (small_sessions (mem w) →
       small_sessions (mem r.2) ∧
       ∀ p, p ≠ "custom"%string →
            DatabaseManager.plan_limits (db r.2) !! p =
            DatabaseManager.plan_limits (db w) !! p) ∧
    (detections ls = [] → r.2 = w).
Proof.
  induction ls as [|line rest IH]; intros n w; cbv zeta.
  - simpl. repeat split; auto.
  - cbn [for_lines]. rewrite bind_run. unfold lift. rewrite detections_cons.
    destruct (extract_total line) as [o ->]. rewrite bind_run.
    destruct o as [info|]; cbn [mret M_ret]; [|apply IH].
    destruct (handle_rate_limit_event_spec (clocks n) sid fp info w) as (Hr & Hm & Hp & _).
    destruct (_handle_rate_limit_event (clocks n) sid fp info w) as [[[]|e] w1];
      simpl in Hr; [|discriminate Hr].
    simpl in Hm, Hp.
    destruct (IH (S n) w1) as (Hr' & Hl' & Ho' & Hs' & _).
    split; [exact Hr'|]. split; [by rewrite Hl', Hm|]. split; [|split; [|discriminate]].
    + intros other Hne. rewrite (Ho' other Hne), Hm. simpl. by rewrite lookup_insert_ne.
    + intros Hsmall.
      assert (Hsmall1 : small_sessions (mem w1)).
      { rewrite Hm. intros k s. simpl. intros [[<- <-]|[_ Hk]]%lookup_insert_Some.
        - by apply session_after_peak.
        - by eapply Hsmall. }
      destruct (Hs' Hsmall1) as [Hsm Hpl]. split; [exact Hsm|].
      intros p Hne. rewrite (Hpl p Hne). apply Hp.
      rewrite small_session_plan; [done|]. by apply session_after_peak.
Qed.



End PipelineFacts.

Module PipelineProperties.
Import Sqlite SqliteSpec SqliteFacts EnhancedProxyMonitor LearningSpec LearningFacts UpdaterSpec
  LearningUpdaterFacts MCPLogs MCPLogsSpec PipelineSpec PipelineFacts.


(** X21. Nothing in the pipeline reports token usage to a session, so
    the plan type of every session it creates is [custom]: if no session
    in memory has a peak above 15000 tokens -- as in a new monitor --
    processing a log file keeps it so, and whatever limits the file
    teaches, the rows of the plans [pro], [max5] and [max20] (every plan
    but [custom]) stay as they were. *)
Theorem pipeline_learns_only_the_custom_plan (clocks : nat → clock)
    (file_path : Pathlib.Path) (content : string)
    (w : world DatabaseManager.tables memory) :
  small_sessions (mem w) →
  let r := _process_mcp_log_file clocks file_path content w in
  small_sessions (mem r.2) ∧
  ∀ p, p ≠ "custom"%string →
       DatabaseManager.plan_limits (db r.2) !! p = DatabaseManager.plan_limits (db w) !! p.
Proof.
  intros Hs. cbv zeta. unfold _process_mcp_log_file, try_exception. fold (lines content).
  destruct (for_lines_total clocks (get_session_id_from_path file_path) file_path
              (lines content) 0 w) as (Hr & _ & _ & Hsm & _).
  destruct (for_lines _ _ _ _ _ w) as [[[]|e] w1]; simpl in Hr; [|discriminate Hr].
  by apply Hsm.
Qed.

Lemma pipeline_learns_only_the_custom_plan_witness :
  let r := _process_mcp_log_file example_clocks example_log example_content
             (new_monitor []) in
  small_sessions (mem r.2) ∧
  ∀ p, p ≠ "custom"%string →
       DatabaseManager.plan_limits (db r.2) !! p =
       DatabaseManager.plan_limits (db (new_monitor [])) !! p.
Proof.
  apply (pipeline_learns_only_the_custom_plan example_clocks example_log example_content
           (new_monitor [])).
  intros sid s Hs. vm_compute in Hs. discriminate Hs.
Defined.



End PipelineProperties.

(** ** The monitor's in-memory state *)
Module MonitorStateFacts.
Import Sqlite SqliteSpec SqliteFacts EnhancedProxyMonitor LearningSpec LearningFacts UpdaterSpec
  LearningUpdaterFacts MonitorState MonitorStateSpec.

Lemma delete_expired_spec (ids : list string) :
  ∀ w : world DatabaseManager.tables memory,
    let r := delete_expired ids w in
    r.1 = Ok tt ∧ db r.2 = db w ∧ faults r.2 = faults w ∧ calls r.2 = calls w ∧
    learned_limits (mem r.2) = learned_limits (mem w) ∧
    ∀ sid, active_sessions (mem r.2) !! sid =
           if bool_decide (sid ∈ ids) then None else active_sessions (mem w) !! sid.
Proof.
  induction ids as [|id rest IH]; intros w; cbv zeta.
  - simpl. repeat split.
  - cbn [delete_expired]. rewrite bind_run. cbn [get_mem]. rewrite bind_run. cbn [put_mem].
    rewrite bind_run. cbn [logger].
    match goal with |- context [delete_expired rest ?w1] =>
      destruct (IH w1) as (Hr & Hd & Hf & Hc & Hl & Ha) end.
    simpl in *. split; [exact Hr|]. split; [exact Hd|]. split; [exact Hf|].
    split; [exact Hc|]. split; [exact Hl|].
    intros sid. rewrite Ha.
    destruct (decide (sid = id)) as [->|Hne].
    + rewrite (bool_decide_eq_true_2 (id ∈ id :: rest)) by apply list_elem_of_here.
      destruct (bool_decide (id ∈ rest)); [done|]. apply lookup_delete_eq.
    + rewrite lookup_delete_ne by done.
      destruct (decide (sid ∈ rest)) as [Hin|Hnin].
      * rewrite !bool_decide_eq_true_2; [done| |done]. by apply list_elem_of_further.
      * rewrite !bool_decide_eq_false_2; [done| |done].
        intros [?|?]%elem_of_cons; done.
Qed.

Lemma expired_ids (cutoff : Q) (m : gmap string SessionMetrics.t) (sid : string) :
  sid ∈ map fst
          (List.filter (fun kv => negb (Qle_bool cutoff (SessionMetrics.start_time kv.2)))
             (map_to_list m)) ↔
  ∃ s, m !! sid = Some s ∧ (SessionMetrics.start_time s < cutoff)%Q.
Proof.
  rewrite list_elem_of_In, in_map_iff. split.
  - intros ([k s] & <- & [Hin Hold]%filter_In). simpl in *.
    exists s. split; [by apply elem_of_map_to_list, list_elem_of_In|].
    apply negb_true_iff in Hold. apply Qnot_le_lt. intros Hle.
    apply Qle_bool_iff in Hle. congruence.
  - intros (s & Hs & Hlt). exists (sid, s). split; [done|]. apply filter_In. split.
    + by apply list_elem_of_In, elem_of_map_to_list.
    + simpl. apply negb_true_iff. destruct (Qle_bool _ _) eqn:Hle; [|done].
      apply Qle_bool_iff in Hle. by apply Qlt_not_le in Hlt.
Qed.

(** The loop of [_load_learned_limits] on an engine without faults. *)
Lemma load_plans_quiet (plans : list string) :
  ∀ w : world DatabaseManager.tables memory,
    quiet (faults w) →
    let r := load_plans plans w in
    r.1 = Ok tt ∧ quiet (faults r.2) ∧ db r.2 = db w ∧ log r.2 = log w ∧
    active_sessions (mem r.2) = active_sessions (mem w) ∧
    ∀ p, learned_limits (mem r.2) !! p =
         match stored (db w) p with
         | Some limits => if bool_decide (p ∈ plans) then Some limits
                          else learned_limits (mem w) !! p
         | None => learned_limits (mem w) !! p
         end.
Proof.
  induction plans as [|plan rest IH]; intros w Hq; cbv zeta.
  - simpl. repeat split; try done. intros p. by destruct (stored (db w) p).
  - cbn [load_plans]. rewrite bind_run.
    destruct (get_plan_limit_quiet w plan Hq) as (w1 & -> & Hd1 & Hm1 & Hl1 & Hq1).
    rewrite bind_run.
    destruct (stored (db w) plan) as [limits|] eqn:Hst.
    + repeat first [rewrite bind_run | progress cbn [get_mem put_mem mret M_ret]].
      match goal with |- context [load_plans rest ?w2] =>
        destruct (IH w2 Hq1) as (Hr & Hq2 & Hd2 & Hl2 & Ha2 & Hp2) end.
      simpl in *. rewrite Hd1 in *. rewrite Hm1 in *.
      split; [exact Hr|]. split; [exact Hq2|]. split; [exact Hd2|].
      split; [by rewrite Hl2|]. split; [exact Ha2|].
      intros p. rewrite Hp2.
      destruct (decide (p = plan)) as [->|Hne].
      * rewrite Hst, lookup_insert_eq.
        rewrite (bool_decide_eq_true_2 (plan ∈ plan :: rest)) by apply list_elem_of_here.
        by destruct (bool_decide (plan ∈ rest)).
      * rewrite lookup_insert_ne by done.
        destruct (stored (db w) p); [|done].
        destruct (decide (p ∈ rest)) as [Hin|Hnin].
        -- rewrite !bool_decide_eq_true_2; [done| |done]. by apply list_elem_of_further.
        -- rewrite !bool_decide_eq_false_2; [done| |done].
           intros [?|?]%elem_of_cons; done.
    + cbn [mret M_ret].
      destruct (IH w1 Hq1) as (Hr & Hq2 & Hd2 & Hl2 & Ha2 & Hp2).
      simpl in *. rewrite Hd1 in *. rewrite Hm1 in *.
      split; [exact Hr|]. split; [exact Hq2|]. split; [exact Hd2|].
      split; [by rewrite Hl2|]. split; [exact Ha2|].
      intros p. rewrite Hp2. destruct (stored (db w) p) as [l|] eqn:Hp; [|done].
      destruct (decide (p ∈ rest)) as [Hin|Hnin].
      * rewrite !bool_decide_eq_true_2; [done| |done]. by apply list_elem_of_further.
      * rewrite !bool_decide_eq_false_2; [done| |done].
        intros [->|?]%elem_of_cons; [congruence|done].
Qed.

(** The loop of [_load_learned_limits], whatever the engine does. *)
Lemma load_plans_total (plans : list string) :
  ∀ w : world DatabaseManager.tables memory,
    let r := load_plans plans w in
    r.1 = Ok tt ∧ db r.2 = db w ∧ active_sessions (mem r.2) = active_sessions (mem w).
Proof.
  induction plans as [|plan rest IH]; intros w; cbv zeta; [done|].
  cbn [load_plans]. rewrite bind_run.
  destruct (get_plan_limit_spec w plan) as (o & w1 & -> & Hd1 & Hm1 & _).
  rewrite bind_run. destruct o as [limits|].
  - repeat first [rewrite bind_run | progress cbn [get_mem put_mem mret M_ret]].
    match goal with |- context [load_plans rest ?w2] =>
      destruct (IH w2) as (Hr & Hd2 & Ha2) end.
    simpl in *. split; [exact Hr|]. split; [by rewrite Hd2|by rewrite Ha2, Hm1].
  - cbn [mret M_ret]. destruct (IH w1) as (Hr & Hd2 & Ha2).
    split; [exact Hr|]. split; [by rewrite Hd2|by rewrite Ha2, Hm1].
Qed.


End MonitorStateFacts.

Module MonitorStateProperties.
Import Sqlite SqliteSpec SqliteFacts EnhancedProxyMonitor LearningSpec LearningFacts UpdaterSpec
  LearningUpdaterFacts MCPLogs MCPLogsSpec PipelineSpec PipelineFacts
  MonitorState MonitorStateSpec MonitorStateFacts.

(** X23. [cleanup_old_sessions] forgets exactly the sessions that
    started before [current_time - max_age_hours * 3600]: a session stays
    if and only if it did not start before that cutoff (one that started
    at the cutoff stays), and it stays as it was.  Only memory is touched:
    no engine call is made, so the rows of a forgotten session remain in
    the database, and [learned_limits] is unchanged. *)
Theorem cleanup_forgets_exactly_the_old_sessions (current_time : Q) (max_age_hours : Z)
    (w : world DatabaseManager.tables memory) :
  let r := cleanup_old_sessions current_time max_age_hours w in
  r.1 = Ok tt ∧ db r.2 = db w ∧ calls r.2 = calls w ∧
  learned_limits (mem r.2) = learned_limits (mem w) ∧
  ∀ sid s, active_sessions (mem r.2) !! sid = Some s ↔
           active_sessions (mem w) !! sid = Some s ∧
           ¬ too_old current_time max_age_hours s.
Proof.
  cbv zeta. unfold cleanup_old_sessions. rewrite bind_run. cbn [get_mem].
  match goal with |- context [delete_expired ?ids w] =>
    destruct (delete_expired_spec ids w) as (Hr & Hd & _ & Hc & Hl & Ha);
    pose proof (expired_ids (current_time - inject_Z (max_age_hours * 3600))
                  (active_sessions (mem w))) as Hids
  end.
  cbv zeta in Hr, Hd, Hc, Hl, Ha.
  split; [exact Hr|]. split; [exact Hd|]. split; [exact Hc|]. split; [exact Hl|].
  intros sid s. rewrite Ha. unfold too_old.
  destruct (bool_decide _) eqn:Hb.
  - apply bool_decide_eq_true in Hb. apply Hids in Hb as (s0 & Hs0 & Hlt).
    split; [discriminate|]. intros [Hs Hnot]. rewrite Hs in Hs0. by injection Hs0 as <-.
  - apply bool_decide_eq_false in Hb. split.
    + intros Hs. split; [exact Hs|]. intros Hlt. apply Hb, Hids. by exists s.
    + by intros [Hs _].
Qed.

(** X24. [_load_learned_limits] never raises and changes neither the
    tables nor the sessions.  On an engine without faults it copies into
    [learned_limits] the stored limits of the plans [pro], [max5],
    [max20] and [custom] that have a row, and leaves every other entry of
    [learned_limits] as it was: a plan of another name is never loaded. *)
Theorem load_copies_the_rows_of_the_four_plans (w : world DatabaseManager.tables memory) :
  let r := _load_learned_limits w in
  r.1 = Ok tt ∧ db r.2 = db w ∧ active_sessions (mem r.2) = active_sessions (mem w) ∧
  (quiet (faults w) →
   (∀ p limits, p ∈ loaded_plans → stored (db w) p = Some limits →
                learned_limits (mem r.2) !! p = Some limits) ∧
   (∀ p, p ∉ loaded_plans ∨ stored (db w) p = None →
         learned_limits (mem r.2) !! p = learned_limits (mem w) !! p)).
Proof.
  cbv zeta. unfold _load_learned_limits, try_exception.
  destruct (load_plans_total ["pro"; "max5"; "max20"; "custom"]%string w) as (Hr & Hd & Ha).
  pose proof (load_plans_quiet ["pro"; "max5"; "max20"; "custom"]%string w) as Hquiet.
  cbv zeta in Hr, Hd, Ha, Hquiet.
  destruct (load_plans _ w) as [[[]|e] w1]; simpl in Hr; [|discriminate Hr].
  simpl in *. split; [done|]. split; [exact Hd|]. split; [exact Ha|].
  intros Hq. destruct (Hquiet Hq) as (_ & _ & _ & _ & _ & Hp). split.
  - intros p limits Hin Hst. rewrite Hp, Hst. by rewrite bool_decide_eq_true_2.
  - intros p [Hnin|Hnone]; rewrite Hp.
    + destruct (stored (db w) p); [|done]. by rewrite bool_decide_eq_false_2.
    + by rewrite Hnone.
Qed.

Lemma load_copies_the_rows_of_the_four_plans_witness :
  learned_limits (mem (_load_learned_limits (custom_world (Some 20000) (Some 250) [])).2)
    !! "custom"%string =
  Some {| DatabaseManager.d_token_limit := Some 20000;
          DatabaseManager.d_message_limit := Some 250 |}.
Proof.
  pose proof (load_copies_the_rows_of_the_four_plans
                (custom_world (Some 20000) (Some 250) [])) as H.
  cbv zeta in H. destruct H as (_ & _ & _ & H).
  destruct H as [Hload _]; [constructor|].
  apply Hload.
  - unfold loaded_plans. do 3 apply list_elem_of_further. apply list_elem_of_here.
  - vm_compute. reflexivity.
Defined.


End MonitorStateProperties.

(** ** The session registry *)
Module SessionRegistryFacts.
Import SessionDetector SessionRegistry SessionRegistrySpec.

Ltac in_list := repeat first [apply list_elem_of_here | apply list_elem_of_further].

Section Environment.
Variable o : os.

Lemma relevant_lookup (vars : list string) (d : gmap string string) (k : string) :
  fold_left
    (fun d var => match environ_get o var with Some v => <[var := v]> d | None => d end)
    vars d !! k =
  match (if bool_decide (k ∈ vars) then environ_get o k else None) with
  | Some v => Some v
  | None => d !! k
  end.
Proof.
  revert d. induction vars as [|var vars IH]; intros d; [done|].
  simpl. rewrite IH.
  destruct (decide (k = var)) as [->|Hne].
  - rewrite (bool_decide_eq_true_2 (var ∈ var :: vars)) by apply list_elem_of_here.
    destruct (environ_get o var) as [v|] eqn:Hv.
    + rewrite lookup_insert_eq. by destruct (bool_decide _).
    + by destruct (bool_decide _).
  - assert (Hiff : bool_decide (k ∈ var :: vars) = bool_decide (k ∈ vars)).
    { apply bool_decide_ext. rewrite elem_of_cons.
      split; [by intros [Heq|Hin]|by right]. }
    rewrite Hiff. destruct (bool_decide (k ∈ vars)).
    + destruct (environ_get o k); [done|].
      destruct (environ_get o var); [by rewrite lookup_insert_ne|done].
    + destruct (environ_get o var); [by rewrite lookup_insert_ne|done].
Qed.

Lemma env_vars_lookup (k : string) :
  _get_relevant_env_vars o !! k =
  if bool_decide (k ∈ relevant_vars) then environ_get o k else None.
Proof.
  unfold _get_relevant_env_vars. rewrite relevant_lookup. destruct (bool_decide _); [|done].
  by destruct (environ_get o k).
Qed.

Lemma ssh_scan :
  existsb (fun kv : string * string => Str.startswith (Py.chars "SSH_") (Py.chars kv.1))
    (map_to_list (_get_relevant_env_vars o)) = true ↔ ssh_variable_set o.
Proof.
  rewrite existsb_exists. split.
  - intros ([k v] & Hin & Hs). apply list_elem_of_In, elem_of_map_to_list in Hin.
    rewrite env_vars_lookup in Hin. simpl in Hs.
    destruct (bool_decide (k ∈ relevant_vars)) eqn:Hk; [|discriminate Hin].
    apply bool_decide_eq_true in Hk. unfold relevant_vars in Hk.
    exists k. split; [|by rewrite Hin].
    repeat (apply elem_of_cons in Hk as [->|Hk];
            [first [discriminate Hs | in_list]|]).
    by apply elem_of_nil in Hk.
  - intros (var & Hvar & Hset).
    destruct (environ_get o var) as [v|] eqn:Hv; [clear Hset|done].
    exists (var, v). split.
    + apply list_elem_of_In, elem_of_map_to_list. rewrite env_vars_lookup, Hv.
      rewrite bool_decide_eq_true_2; [done|]. unfold relevant_vars.
      repeat (apply elem_of_cons in Hvar as [->|Hvar]; [in_list|]).
      by apply elem_of_nil in Hvar.
    + simpl. repeat (apply elem_of_cons in Hvar as [->|Hvar]; [reflexivity|]).
      by apply elem_of_nil in Hvar.
Qed.

Lemma session_type_ssh : _determine_session_type o = "ssh"%string ↔ ssh_variable_set o.
Proof.
  rewrite <- ssh_scan. unfold _determine_session_type. cbv zeta.
  generalize (_get_relevant_env_vars o). intros env_vars.
  destruct (existsb _ (map_to_list env_vars)); [done|].
  split; [|discriminate].
  repeat match goal with |- context [if ?b then _ else _] => destruct b end; discriminate.
Qed.

End Environment.

Section Registry.

Lemma new_context_key (c c' : clock) (o : os) (r r' : option string) :
  isolation_key (new_context c o r) = isolation_key (new_context c' o r').
Proof. reflexivity. Qed.

Lemma dict_set_set (k : string) (v v0 : SessionContext) (d : list (string * SessionContext)) :
  dict_set k v (dict_set k v0 d) = dict_set k v d.
Proof.
  induction d as [|[k' v'] d IH]; simpl.
  - by rewrite String.eqb_refl.
  - destruct (String.eqb k' k) eqn:E; simpl; rewrite E; [done|by rewrite IH].
Qed.

Lemma detect_returns (c : clock) (o : os) (self : t) (r : option string) :
  _get_remote_ip o = Returned r →
  (DetectCurrentSession c o self).1 = Returned (new_context c o r) ∧
  active_sessions (DetectCurrentSession c o self).2 =
    dict_set (isolation_key (new_context c o r)) (new_context c o r)
      (active_sessions self) ∧
  session_history (DetectCurrentSession c o self).2 = session_history self.
Proof. intros Hr. unfold DetectCurrentSession. by rewrite Hr. Qed.

Lemma detect_each_returns (o : os) (r : option string) :
  _get_remote_ip o = Returned r →
  ∀ cs c self,
    active_sessions (detect_each (cs ++ [c]) o self) =
      dict_set (isolation_key (new_context c o r)) (new_context c o r)
        (active_sessions self) ∧
    session_history (detect_each (cs ++ [c]) o self) = session_history self.
Proof.
  intros Hr cs c. induction cs as [|c0 cs IH]; intros self.
  - destruct (detect_returns c o self r Hr) as (_ & Ha & Hh). by split.
  - change (detect_each ((c0 :: cs) ++ [c]) o self) with
      (detect_each (cs ++ [c]) o (DetectCurrentSession c0 o self).2).
    destruct (IH (DetectCurrentSession c0 o self).2) as [-> ->].
    destruct (detect_returns c0 o self r Hr) as (_ & -> & ->). split; [|done].
    rewrite (new_context_key c0 c o r r). apply dict_set_set.
Qed.

Lemma detect_each_raises (o : os) :
  _get_remote_ip o = RaisedIndexError →
  ∀ cs self,
    active_sessions (detect_each cs o self) = active_sessions self ∧
    session_history (detect_each cs o self) = session_history self.
Proof.
  intros Hr cs. induction cs as [|c0 cs IH]; intros self; [done|].
  simpl. destruct (IH (DetectCurrentSession c0 o self).2) as [-> ->].
  unfold DetectCurrentSession. by rewrite Hr.
Qed.

(** *** Removing sessions *)

Lemma dict_get_pop_ne (k k0 : string) (d : list (string * SessionContext)) :
  k ≠ k0 → dict_get k (dict_pop k0 d) = dict_get k d.
Proof.
  intros Hne. unfold dict_get, dict_pop.
  induction d as [|[k' v'] d IH]; [done|]. simpl.
  destruct (String.eqb_spec k' k0) as [->|Hk0]; simpl.
  - destruct (String.eqb_spec k0 k) as [->|_]; [done|exact IH].
  - destruct (String.eqb k' k); [done|exact IH].
Qed.

Lemma dict_get_In (k : string) (v : SessionContext) (d : list (string * SessionContext)) :
  In (k, v) d → is_Some (dict_get k d).
Proof.
  unfold dict_get. induction d as [|[k' v'] d IH]; [done|]. simpl.
  intros [[= -> ->]|Hin].
  - rewrite String.eqb_refl. by eexists.
  - destruct (String.eqb k' k); [by eexists|by apply IH].
Qed.

Lemma dict_get_NoDup (k : string) (v : SessionContext) (d : list (string * SessionContext)) :
  NoDup (map fst d) → In (k, v) d → dict_get k d = Some v.
Proof.
  unfold dict_get. induction d as [|[k' v'] d IH]; [done|]. simpl.
  intros [Hk' Hd]%NoDup_cons [[= -> ->]|Hin].
  - by rewrite String.eqb_refl.
  - destruct (String.eqb_spec k' k) as [->|_]; [|by apply IH].
    destruct Hk'. apply list_elem_of_In, in_map_iff. by exists (k, v).
Qed.

Lemma omap_ext_In {A B : Type} (f g : A → option B) (l : list A) :
  (∀ x, In x l → f x = g x) → omap f l = omap g l.
Proof.
  induction l as [|x l IH]; [done|]. intros H.
  change (omap f (x :: l)) with (match f x with Some y => y :: omap f l | None => omap f l end).
  change (omap g (x :: l)) with (match g x with Some y => y :: omap g l | None => omap g l end).
  rewrite (H x (or_introl eq_refl)), IH; [done|]. intros y Hy. apply H. by right.
Qed.

Lemma remove_keys (now : string → Q) (ks : list string) :
  ∀ self,
    NoDup ks →
    (∀ k, In k ks → is_Some (dict_get k (active_sessions self))) →
    let self' := fold_left (fun self key => _remove_session (now key) key self) ks self in
    active_sessions self' =
      List.filter (fun kv => negb (existsb (String.eqb kv.1) ks)) (active_sessions self) ∧
    session_history self' =
      session_history self ++
      omap (fun k => set_last_activity (now k) <$> dict_get k (active_sessions self)) ks.
Proof.
  induction ks as [|k0 ks IH]; intros self Hnd Hks; cbv zeta.
  - simpl. split; [|by rewrite app_nil_r].
    induction (active_sessions self) as [|kv d IHd]; [done|]. simpl. by rewrite <- IHd.
  - apply NoDup_cons in Hnd as [Hk0 Hnd].
    destruct (Hks k0 (or_introl eq_refl)) as [s0 Hs0].
    simpl fold_left.
    assert (Hrem : _remove_session (now k0) k0 self =
                   info ("Removed stale session: " ++ k0)
                     {| active_sessions := dict_pop k0 (active_sessions self);
                        session_history :=
                          session_history self ++ [set_last_activity (now k0) s0];
                        log := log self |}).
    { unfold _remove_session. by rewrite Hs0. }
    rewrite Hrem. clear Hrem.
    match goal with |- context [fold_left _ ks ?s] =>
      destruct (IH s Hnd) as [Ha Hh]
    end.
    { intros k Hk. simpl. rewrite dict_get_pop_ne.
      - apply Hks. by right.
      - intros ->. by apply Hk0, list_elem_of_In. }
    cbv zeta in Ha, Hh. rewrite Ha, Hh. simpl. split.
    + unfold dict_pop. clear.
      induction (active_sessions self) as [|kv d IHd]; [done|]. simpl.
      rewrite (String.eqb_sym kv.1 k0).
      destruct (String.eqb k0 kv.1); simpl; [exact IHd|].
      destruct (existsb _ ks); simpl; [exact IHd|by rewrite IHd].
    + rewrite Hs0. simpl. rewrite <- app_assoc. simpl. do 2 f_equal.
      apply omap_ext_In. intros k Hk. rewrite dict_get_pop_ne; [done|].
      intros ->. by apply Hk0, list_elem_of_In.
Qed.

Lemma NoDup_filter_keys (f : string * SessionContext → bool)
    (d : list (string * SessionContext)) :
  NoDup (map fst d) → NoDup (map fst (List.filter f d)).
Proof.
  induction d as [|kv d IH]; [done|]. simpl. intros [Hk Hd]%NoDup_cons.
  destruct (f kv); simpl; [|by apply IH]. apply NoDup_cons. split; [|by apply IH].
  intros Hin. apply Hk. apply list_elem_of_In in Hin.
  apply in_map_iff in Hin as (kv' & Heq & Hin'). apply filter_In in Hin' as [Hin' _].
  apply list_elem_of_In, in_map_iff. by exists kv'.
Qed.

Lemma omap_keys (now : string → Q) (d l : list (string * SessionContext)) :
  (∀ kv, In kv l → dict_get kv.1 d = Some kv.2) →
  omap (fun k => set_last_activity (now k) <$> dict_get k d) (map fst l) =
  map (fun kv => set_last_activity (now kv.1) kv.2) l.
Proof.
  induction l as [|kv l IH]; [done|]. intros H.
  change (map fst (kv :: l)) with (kv.1 :: map fst l).
  match goal with |- omap ?f _ = _ =>
    change (omap f (kv.1 :: map fst l)) with
      (match f kv.1 with Some y => y :: omap f (map fst l) | None => omap f (map fst l) end)
  end.
  cbv beta. rewrite (H kv (or_introl eq_refl)), IH; [done|].
  intros kv' Hkv'. apply H. by right.
Qed.

Lemma cleanup_spec (psutil : Z → process_status) (now : string → Q) (self : t) :
  distinct_keys self →
  active_sessions (_cleanup_stale_sessions psutil now self) =
    List.filter (fun kv => negb (stale psutil kv.2)) (active_sessions self) ∧
  session_history (_cleanup_stale_sessions psutil now self) =
    session_history self ++
    map (fun kv => set_last_activity (now kv.1) kv.2)
      (List.filter (fun kv => stale psutil kv.2) (active_sessions self)).
Proof.
  intros Hnd. unfold distinct_keys in Hnd. unfold _cleanup_stale_sessions. cbv zeta.
  destruct (remove_keys now
              (map fst (List.filter (fun kv => stale psutil kv.2) (active_sessions self)))
              self) as [Ha Hh].
  - by apply NoDup_filter_keys.
  - intros k ([k' v] & <- & Hin)%in_map_iff. apply filter_In in Hin as [Hin _].
    by eapply dict_get_In.
  - cbv zeta in Ha, Hh. rewrite Ha, Hh. split.
    + apply filter_ext_in. intros [k v] Hin. simpl. f_equal.
      destruct (stale psutil v) eqn:Hst.
      * apply existsb_exists. exists k. split; [|apply String.eqb_refl].
        apply in_map_iff. exists (k, v). split; [done|]. apply filter_In. by split.
      * apply not_true_is_false. intros (k' & Hin' & Heq)%existsb_exists.
        apply String.eqb_eq in Heq as <-.
        apply in_map_iff in Hin' as ([k' v'] & Hk & Hin'). simpl in Hk. subst k'.
        apply filter_In in Hin' as [Hin' Hst']. simpl in Hst'.
        pose proof (dict_get_NoDup k v _ Hnd Hin) as H1.
        pose proof (dict_get_NoDup k v' _ Hnd Hin') as H2.
        rewrite H1 in H2. injection H2 as <-. by rewrite Hst in Hst'.
    + f_equal. apply omap_keys. intros [k v] [Hin _]%filter_In.
      by apply dict_get_NoDup.
Qed.

(** The methods keep the keys of the dictionary distinct. *)

Lemma dict_set_keys (k : string) (v : SessionContext) (d : list (string * SessionContext)) :
  map fst (dict_set k v d) =
  if existsb (String.eqb k) (map fst d) then map fst d else map fst d ++ [k].
Proof.
  induction d as [|[k' v'] d IH]; [done|]. simpl. rewrite (String.eqb_sym k k').
  destruct (String.eqb k' k); simpl; [done|]. rewrite IH.
  by destruct (existsb _ _).
Qed.

Lemma detect_distinct (c : clock) (o : os) (self : t) :
  distinct_keys self → distinct_keys (DetectCurrentSession c o self).2.
Proof.
  unfold distinct_keys, DetectCurrentSession. intros Hnd.
  destruct (_get_remote_ip o) as [r|]; [|exact Hnd]. simpl.
  rewrite dict_set_keys. destruct (existsb _ _) eqn:Hex; [exact Hnd|].
  apply NoDup_app. split; [exact Hnd|]. split; [|apply NoDup_singleton].
  intros k Hk ->%list_elem_of_singleton.
  apply not_true_iff_false in Hex. apply Hex, existsb_exists.
  eexists. split; [by apply list_elem_of_In|apply String.eqb_refl].
Qed.

Lemma cleanup_distinct (psutil : Z → process_status) (now : string → Q) (self : t) :
  distinct_keys self → distinct_keys (_cleanup_stale_sessions psutil now self).
Proof.
  intros Hnd. unfold distinct_keys. destruct (cleanup_spec psutil now self Hnd) as [-> _].
  by apply NoDup_filter_keys.
Qed.

(** *** Counting *)

Lemma count_lookup (f : SessionContext → string) (l : list SessionContext) :
  ∀ (m : gmap string nat) (k : string),
    fold_left (fun m s => <[f s := (default 0 (m !! f s) + 1)%nat]> m) l m !! k =
    match List.filter (fun s => String.eqb (f s) k) l with
    | [] => m !! k
    | l' => Some (default 0 (m !! k) + length l')%nat
    end.
Proof.
  induction l as [|s l IH]; intros m k; [done|]. simpl. rewrite IH.
  destruct (String.eqb_spec (f s) k) as [->|Hne].
  - rewrite lookup_insert_eq. simpl.
    destruct (List.filter _ l); simpl; f_equal; lia.
  - by rewrite lookup_insert_ne.
Qed.

Lemma total_bump (m : gmap string nat) (k : string) :
  total (<[k := (default 0 (m !! k) + 1)%nat]> m) = (total m + 1)%nat.
Proof.
  unfold total. destruct (m !! k) as [n|] eqn:Hk.
  - rewrite <- insert_delete_eq.
    rewrite map_to_list_insert by apply lookup_delete_eq.
    rewrite <- (map_to_list_delete m k n Hk). simpl. lia.
  - rewrite map_to_list_insert by done. simpl. lia.
Qed.

Lemma total_count (f : SessionContext → string) (l : list SessionContext) :
  ∀ m : gmap string nat,
    total (fold_left (fun m s => <[f s := (default 0 (m !! f s) + 1)%nat]> m) l m) =
    (total m + length l)%nat.
Proof.
  induction l as [|s l IH]; intros m; simpl; [lia|].
  rewrite IH, total_bump. lia.
Qed.

Lemma no_ssh_variable (o : os) :
  ¬ ssh_variable_set o →
  environ_get o "SSH_CLIENT" = None ∧ environ_get o "SSH_CONNECTION" = None.
Proof.
  intros H. split.
  - destruct (environ_get o "SSH_CLIENT") eqn:E; [|done].
    destruct H. exists "SSH_CLIENT"%string. split; [in_list|by rewrite E].
  - destruct (environ_get o "SSH_CONNECTION") eqn:E; [|done].
    destruct H. exists "SSH_CONNECTION"%string. split; [in_list|by rewrite E].
Qed.

End Registry.

End SessionRegistryFacts.

Module SessionRegistryProperties.
Import SessionDetector SessionRegistry SessionRegistrySpec SessionRegistryFacts.

(** X26. [_determine_session_type] answers ['ssh'] exactly when one of
    [SSH_CLIENT], [SSH_CONNECTION] and [SSH_TTY] is set and not empty:
    these are the only relevant variables whose name starts with [SSH_],
    and the test comes first, so it wins over VS Code, Jupyter, a
    container or any terminal program. *)
Theorem session_type_is_ssh_iff_an_ssh_variable_is_set (o : os) :
  _determine_session_type o = "ssh"%string ↔ ssh_variable_set o.
Proof. apply session_type_ssh. Qed.

(** X27. The connection is detected by another test than the type.
    On a terminal whose device name contains [pts], as every
    pseudo-terminal of Linux, with no SSH variable set,
    [DetectCurrentSession] returns a context whose [ssh_connection] is
    ["ssh_pts:"] followed by the device path, although its type is not
    ['ssh'] and it has no remote address; the isolation key carries that
    text, colon included, as its second component. *)
Theorem pseudo_terminal_is_registered_as_ssh_connection (c : clock) (o : os) (self : t)
    (tty : string) :
  isatty o = true →
  ttyname o = Some tty →
  Str.contains (Py.chars "pts") (Py.chars tty) = true →
  ¬ ssh_variable_set o →
  ∃ context,
    (DetectCurrentSession c o self).1 = Returned context ∧
    ssh_connection context = Some ("ssh_pts:" ++ tty)%string ∧
    remote_ip context = None ∧
    session_type context ≠ "ssh"%string ∧
    isolation_key context = key_for o (basename tty) ("ssh_pts:" ++ tty)%string.
Proof.
  intros Htty Hname Hpts Hno.
  destruct (no_ssh_variable o Hno) as [Hclient Hconn].
  assert (Hssh : _detect_ssh_connection o = Some ("ssh_pts:" ++ tty)%string).
  { unfold _detect_ssh_connection. by rewrite Hclient, Hconn, Htty, Hname, Hpts. }
  assert (Hip : _get_remote_ip o = Returned None).
  { unfold _get_remote_ip. by rewrite Hclient, Hconn. }
  destruct (detect_returns c o self None Hip) as (Hr & _ & _).
  exists (new_context c o None). split; [exact Hr|].
  split; [exact Hssh|]. split; [done|]. split.
  - intros Hty. apply Hno, session_type_ssh. exact Hty.
  - unfold new_context, __post_init__, _generate_isolation_key, components,
      connection_component. cbn [isolation_key terminal_device ssh_connection user hostname
                                   process_id].
    rewrite Hssh. unfold _get_terminal_device. rewrite Htty, Hname. reflexivity.
Qed.

Lemma pseudo_terminal_is_registered_as_ssh_connection_witness :
  ∃ context,
    (DetectCurrentSession example_clock example_os __init__).1 = Returned context ∧
    ssh_connection context = Some "ssh_pts:/dev/pts/3"%string ∧
    remote_ip context = None ∧
    session_type context ≠ "ssh"%string ∧
    isolation_key context = "3:ssh_pts:/dev/pts/3:herb:watchtower:4242"%string.
Proof.
  apply (pseudo_terminal_is_registered_as_ssh_connection example_clock example_os __init__
           "/dev/pts/3"); [reflexivity|reflexivity|reflexivity|].
  intros (var & Hvar & Hset). apply Hset. clear Hset.
  repeat (apply elem_of_cons in Hvar as [->|Hvar]; [vm_compute; reflexivity|]).
  by apply elem_of_nil in Hvar.
Defined.

(** X28. The isolation key depends on the process and not on the clock,
    so detecting again replaces the session registered before without
    archiving it: after any number of calls in the same process the
    registry is what the last call alone would leave, a new detector
    holds exactly one session, and the history is untouched.  When
    [_get_remote_ip] raises [IndexError] (an SSH variable of whitespace
    only) nothing is registered at all. *)
Theorem repeated_detection_keeps_one_session (o : os) (cs : list clock) (c : clock)
    (self : t) :
  let self' := detect_each (cs ++ [c]) o self in
  session_history self' = session_history self ∧
  match _get_remote_ip o with
  | RaisedIndexError => active_sessions self' = active_sessions self
  | Returned remote_ip =>
      let context := new_context c o remote_ip in
      active_sessions self' =
        dict_set (isolation_key context) context (active_sessions self) ∧
      active_sessions (detect_each (cs ++ [c]) o __init__) =
        [(isolation_key context, context)]
  end.
Proof.
  cbv zeta. destruct (_get_remote_ip o) as [r|] eqn:Hr.
  - destruct (detect_each_returns o r Hr cs c self) as [Ha Hh].
    destruct (detect_each_returns o r Hr cs c __init__) as [Ha0 _].
    split; [exact Hh|]. split; [exact Ha|]. exact Ha0.
  - destruct (detect_each_raises o Hr (cs ++ [c]) self) as [Ha Hh]. by split.
Qed.

(** X29. [_cleanup_stale_sessions] keeps exactly the sessions whose
    process [psutil] finds running, in their order, and archives every
    other one (process gone, access denied, or not running) at the end
    of the history, in the order of registration, with [last_activity]
    set to the time of removal: no session is lost, the number of active
    and archived sessions together is unchanged. *)
Theorem stale_cleanup_archives_every_stale_session (psutil : Z → process_status)
    (now : string → Q) (self : t) :
  distinct_keys self →
  let self' := _cleanup_stale_sessions psutil now self in
  active_sessions self' =
    List.filter (fun kv => negb (stale psutil kv.2)) (active_sessions self) ∧
  session_history self' =
    session_history self ++
    map (fun kv => set_last_activity (now kv.1) kv.2)
      (List.filter (fun kv => stale psutil kv.2) (active_sessions self)) ∧
  (∀ kv, In kv (active_sessions self') → psutil (process_id kv.2) = Running) ∧
  (length (active_sessions self') + length (session_history self') =
   length (active_sessions self) + length (session_history self))%nat.
Proof.
  intros Hnd. cbv zeta. destruct (cleanup_spec psutil now self Hnd) as [-> ->].
  split; [done|]. split; [done|]. split.
  - intros kv [_ Hst]%filter_In. unfold stale in Hst.
    by destruct (psutil (process_id kv.2)).
  - rewrite length_app, length_map.
    pose proof (filter_length (fun kv : string * SessionContext => stale psutil kv.2)
                  (active_sessions self)) as Hlen.
    simpl in Hlen. lia.
Qed.

Lemma stale_cleanup_archives_every_stale_session_witness :
  let self' := _cleanup_stale_sessions example_psutil (fun _ => 1753506900%Q)
                 example_registry in
  map fst (active_sessions self') = ["3:local:herb:watchtower:4242"%string] ∧
  map process_id (session_history self') = [5151].
Proof.
  pose proof (stale_cleanup_archives_every_stale_session example_psutil
                (fun _ => 1753506900%Q) example_registry) as H.
  cbv zeta in H. destruct H as (Ha & Hh & _).
  - unfold distinct_keys.
    apply (bool_decide_eq_true_1 (NoDup (map fst (active_sessions example_registry)))).
    vm_compute. reflexivity.
  - cbv zeta. rewrite Ha, Hh. split; reflexivity.
Defined.

(** X30. The counts of [GetSessionSummary] agree with each other and
    with [GetSessionsForProject] on the registry it leaves: the counts
    by type and the counts by project both add up to the number of
    active sessions, and a project has an entry exactly when some active
    session works in it, the entry being the number of sessions
    [GetSessionsForProject] lists for it. *)
Theorem summary_counts_add_up (psutil : Z → process_status) (now : string → Q)
    (self : t) :
  let r := GetSessionSummary psutil now self in
  sum_active_sessions r.1 = length (active_sessions r.2) ∧
  total (session_types r.1) = sum_active_sessions r.1 ∧
  total (sessions_by_project r.1) = sum_active_sessions r.1 ∧
  (∀ project,
     sessions_by_project r.1 !! project =
     match GetSessionsForProject project r.2 with
     | [] => None
     | sessions => Some (length sessions)
     end) ∧
  (∀ type,
     session_types r.1 !! type =
     match sessions_with session_type type r.2 with
     | [] => None
     | sessions => Some (length sessions)
     end).
Proof.
  cbv zeta. unfold GetSessionSummary. cbv zeta. cbn [fst snd sum_active_sessions
    session_types sessions_by_project]. unfold _group_sessions_by_project.
  generalize (_cleanup_stale_sessions psutil now self). intros self'.
  split; [done|].
  split; [by rewrite (total_count session_type), length_map|].
  split; [by rewrite (total_count working_directory), length_map|].
  split.
  - intros project. rewrite (count_lookup working_directory).
    unfold GetSessionsForProject. by destruct (List.filter _ _).
  - intros type. rewrite (count_lookup session_type).
    unfold sessions_with. by destruct (List.filter _ _).
Qed.

End SessionRegistryProperties.
